(** * dotconfig-hub: the project ledger ([project_mapping.py])

    A shallow embedding of the class [ProjectMapping] and of the part of the
    Python runtime it runs on (dynamically typed values, exceptions, pathlib
    paths, a file system holding YAML documents, the datetime functions),
    and of the places of the command line ([cli.py]) that keep the ledger,
    followed by the properties of the ledger operations.

    Conventions.
    - A Python [dict] is an association list in insertion order; the
      operations below keep the keys unique, as a dict does.  Keys are
      strings, which is what the ledger file holds.
    - The values are [None], booleans, integers, strings, lists and dicts;
      floats, dates, sets and bytes are left out.  Values are not shared: a
      YAML alias is read as a copy.  The one method that changes an entry
      where it sits is [update_last_synced]; what is stated of it concerns the
      entry it looks up and the keys of the ledger, which is the same with
      and without sharing.
    - An exception is a value of [exn]; code that may raise returns a
      [result].  Only subclasses of [Exception] are modelled.  A method that
      changes the object returns the object afterwards; when it raises, the
      result is the exception alone.
    - What the operating system answers about the process (working
      directory, home directories, the physical names [resolve()] finds) is a
      [World], in which [resolve()] and [Path.home()] answer.  What it
      answers about files is a [filesystem]: a path is looked up under the
      names it is written with, [".."] included, and the system may refuse a
      path with an error.
    - What [datetime] computes is a [DatetimeLib]; [datetime.now()] is an
      argument of the methods that call it.  The floats of [timestamp()] are
      a type of the library, with their subtraction and their comparison;
      nothing is assumed of them but what [FloatLaws] says, where a statement
      asks for it.
    - A Rocq [string] is read as the UTF-8 encoding of a Python [str], so that
      the byte-wise order [String.leb] is the code-point order of [sorted].
    - What [print] and [console.print] write is returned as the list of their
      arguments, in order.  Of the command line only the blocks that call the
      ledger are embedded; what the project configuration and the syncer
      answer there is an argument of the block. *)

From Stdlib Require Import List String Ascii NArith ZArith Lia Bool Arith.
From Stdlib Require Import Permutation Sorted DecimalString.
Import ListNotations.

Set Warnings "-register-all".

Local Open Scope string_scope.
Local Open Scope list_scope.

(* ================================================================== *)
(** ** Exceptions and the error monad *)

Inductive exn : Type :=
| TypeError (msg : string)
| KeyError (msg : string)
| AttributeError (msg : string)
| ValueError (msg : string)
| OSError (msg : string)
| YAMLError (msg : string)
| RuntimeError (msg : string)
| OverflowError (msg : string).

Definition exn_str (e : exn) : string :=
  match e with
  | TypeError m | KeyError m | AttributeError m | ValueError m
  | OSError m | YAMLError m | RuntimeError m | OverflowError m => m
  end.

Inductive result (A : Type) : Type :=
| Ok (a : A)
| Raise (e : exn).

Arguments Ok {A} a.
Arguments Raise {A} e.

Definition bind {A B : Type} (m : result A) (k : A -> result B) : result B :=
  match m with
  | Ok a => k a
  | Raise e => Raise e
  end.

Notation "x <- m ;; k" := (bind m (fun x => k))
  (at level 61, m at next level, right associativity).
Notation "' p <- m ;; k" := (bind m (fun p => k))
  (at level 61, p pattern, m at next level, right associativity).

(** [try: body except Exception as e: handler e]. *)
Definition try_except {A : Type} (body : result A) (handler : exn -> result A)
  : result A :=
  match body with
  | Ok a => Ok a
  | Raise e => handler e
  end.

(** A [for] loop whose body may raise: the state is threaded through the
    elements in order and the first exception ends the loop. *)
Fixpoint for_each {A S : Type} (xs : list A) (body : S -> A -> result S)
  (s : S) : result S :=
  match xs with
  | [] => Ok s
  | x :: xs' => s' <- body s x ;; for_each xs' body s'
  end.

(* ================================================================== *)
(** ** Dictionaries in insertion order *)

Section Dict.
Context {V : Type}.

Definition dict : Type := list (string * V).

Definition keys (d : dict) : list string := map fst d.
Definition values (d : dict) : list V := map snd d.

Fixpoint dict_get (d : dict) (k : string) : option V :=
  match d with
  | [] => None
  | (k', v) :: r => if (k' =? k)%string then Some v else dict_get r k
  end.

Definition dict_mem (d : dict) (k : string) : bool :=
  match dict_get d k with Some _ => true | None => false end.

(** [d[k] = v]: an existing key keeps its place, a new key goes last. *)
Fixpoint dict_set (d : dict) (k : string) (v : V) : dict :=
  match d with
  | [] => [(k, v)]
  | (k', v') :: r =>
      if (k' =? k)%string then (k', v) :: r else (k', v') :: dict_set r k v
  end.

(** [del d[k]] for a key that is present; nothing to do otherwise. *)
Fixpoint dict_del (d : dict) (k : string) : dict :=
  match d with
  | [] => []
  | (k', v') :: r =>
      if (k' =? k)%string then r else (k', v') :: dict_del r k
  end.

Definition count_key (d : dict) (k : string) : nat :=
  List.length (filter (fun kv => (fst kv =? k)%string) d).

(** No key stands twice: what makes the list a dict. *)
Fixpoint unique_keys (d : dict) : bool :=
  match d with
  | [] => true
  | (k, _) :: r => negb (dict_mem r k) && unique_keys r
  end.

End Dict.

Arguments dict V : clear implicits.

(* ================================================================== *)
(** ** Python values *)

Inductive pyval : Type :=
| VNone
| VBool (b : bool)
| VInt (z : Z)
| VStr (s : string)
| VList (l : list pyval)
| VDict (d : list (string * pyval)).

(** [bool(v)] *)
Definition truthy (v : pyval) : bool :=
  match v with
  | VNone => false
  | VBool b => b
  | VInt z => negb (z =? 0)%Z
  | VStr s => negb (s =? "")%string
  | VList l => match l with [] => false | _ => true end
  | VDict d => match d with [] => false | _ => true end
  end.

(** [a or b] *)
Definition py_or (a b : pyval) : pyval := if truthy a then a else b.

Definition type_name (v : pyval) : string :=
  match v with
  | VNone => "NoneType"
  | VBool _ => "bool"
  | VInt _ => "int"
  | VStr _ => "str"
  | VList _ => "list"
  | VDict _ => "dict"
  end.

(** [needle in hay] on strings: the substring test. *)
Fixpoint substring_of (needle hay : string) : bool :=
  if String.prefix needle hay then true
  else match hay with
       | EmptyString => false
       | String _ hay' => substring_of needle hay'
       end.

(** [v == s] for a string [s]: only an equal string compares equal. *)
Definition eq_str (s : string) (v : pyval) : bool :=
  match v with
  | VStr t => (t =? s)%string
  | _ => false
  end.

(** [s in obj] *)
Definition py_contains (obj : pyval) (s : string) : result bool :=
  match obj with
  | VDict d => Ok (dict_mem d s)
  | VList l => Ok (existsb (eq_str s) l)
  | VStr t => Ok (substring_of s t)
  | _ => Raise (TypeError ("argument of type '" ++ type_name obj ++ "' is not iterable")%string)
  end.

(** [obj[k]] for a string [k] *)
Definition py_getitem (obj : pyval) (k : string) : result pyval :=
  match obj with
  | VDict d =>
      match dict_get d k with
      | Some v => Ok v
      | None => Raise (KeyError k)
      end
  | VList _ => Raise (TypeError "list indices must be integers or slices, not str")
  | VStr _ => Raise (TypeError "string indices must be integers")
  | _ => Raise (TypeError ("'" ++ type_name obj ++ "' object is not subscriptable")%string)
  end.

(** [obj[k] = v] for a string [k]; the result is the object after the
    assignment. *)
Definition py_setitem (obj : pyval) (k : string) (v : pyval) : result pyval :=
  match obj with
  | VDict d => Ok (VDict (dict_set d k v))
  | VList _ => Raise (TypeError "list indices must be integers or slices, not str")
  | _ => Raise (TypeError ("'" ++ type_name obj ++ "' object does not support item assignment")%string)
  end.

(** [del obj[k]] for a string [k] *)
Definition py_delitem (obj : pyval) (k : string) : result pyval :=
  match obj with
  | VDict d =>
      if dict_mem d k then Ok (VDict (dict_del d k)) else Raise (KeyError k)
  | VList _ => Raise (TypeError "list indices must be integers or slices, not str")
  | _ => Raise (TypeError ("'" ++ type_name obj ++ "' object does not support item deletion")%string)
  end.

Definition no_attribute {A : Type} (obj : pyval) (attr : string) : result A :=
  Raise (AttributeError ("'" ++ type_name obj ++ "' object has no attribute '" ++ attr ++ "'")%string).

(** [obj.get(k, default)] *)
Definition py_get (obj : pyval) (k : string) (default : pyval) : result pyval :=
  match obj with
  | VDict d =>
      match dict_get d k with
      | Some v => Ok v
      | None => Ok default
      end
  | _ => no_attribute obj "get"
  end.

(** [obj.items()], [obj.keys()], [obj.values()] *)
Definition py_items (obj : pyval) : result (list (string * pyval)) :=
  match obj with
  | VDict d => Ok d
  | _ => no_attribute obj "items"
  end.

Definition py_keys (obj : pyval) : result (list string) :=
  match obj with
  | VDict d => Ok (keys d)
  | _ => no_attribute obj "keys"
  end.

Definition py_values (obj : pyval) : result (list pyval) :=
  match obj with
  | VDict d => Ok (values d)
  | _ => no_attribute obj "values"
  end.

(** [obj.copy()]: a shallow copy; values are immutable here, so the copy is
    the value itself. *)
Definition py_copy (obj : pyval) : result pyval :=
  match obj with
  | VDict _ | VList _ => Ok obj
  | _ => no_attribute obj "copy"
  end.

Fixpoint chars (s : string) : list pyval :=
  match s with
  | EmptyString => []
  | String c s' => VStr (String c EmptyString) :: chars s'
  end.

(** [for x in obj]: the elements iterated over. *)
Definition py_iter (obj : pyval) : result (list pyval) :=
  match obj with
  | VList l => Ok l
  | VDict d => Ok (map VStr (keys d))
  | VStr s => Ok (chars s)
  | _ => Raise (TypeError ("'" ++ type_name obj ++ "' object is not iterable")%string)
  end.

(* ================================================================== *)
(** ** pathlib: pure paths *)

(** The root of a POSIX path: none, ["/"], or exactly two slashes, which
    pathlib keeps apart from one. *)
Inductive anchor : Type := Relative | Root | DoubleRoot.

Definition anchor_eqb (a b : anchor) : bool :=
  match a, b with
  | Relative, Relative | Root, Root | DoubleRoot, DoubleRoot => true
  | _, _ => false
  end.

Definition anchor_str (a : anchor) : string :=
  match a with
  | Relative => ""
  | Root => "/"
  | DoubleRoot => "//"
  end.

(** A parsed path: its root and the names below it.  The parser leaves no
    empty name and no ["."] among the names. *)
Record Path : Type := mkPath { root : anchor; names : list string }.

Fixpoint names_eqb (a b : list string) : bool :=
  match a, b with
  | [], [] => true
  | x :: a', y :: b' => (x =? y)%string && names_eqb a' b'
  | _, _ => false
  end.

(** [a] is an initial segment of [b]. *)
Fixpoint names_prefix (a b : list string) : bool :=
  match a, b with
  | [], _ => true
  | x :: a', y :: b' => (x =? y)%string && names_prefix a' b'
  | _ :: _, [] => false
  end.

(** [s.split("/")] *)
Fixpoint split_slash_aux (cur : string) (s : string) : list string :=
  match s with
  | EmptyString => [cur]
  | String c s' =>
      if (c =? "/")%char then cur :: split_slash_aux "" s'
      else split_slash_aux (cur ++ String c EmptyString)%string s'
  end.

Definition split_slash (s : string) : list string := split_slash_aux "" s.

Fixpoint leading_slashes (s : string) : nat :=
  match s with
  | String c s' => if (c =? "/")%char then S (leading_slashes s') else 0
  | EmptyString => 0
  end.

Definition kept_name (x : string) : bool :=
  negb (x =? "")%string && negb (x =? ".")%string.

(** [Path(s)] *)
Definition Path_of_string (s : string) : Path :=
  {| root := match leading_slashes s with
             | 0 => Relative
             | 2 => DoubleRoot
             | _ => Root
             end;
     names := filter kept_name (split_slash s) |}.

(** [str(p)] *)
Definition Path_str (p : Path) : string :=
  match root p, names p with
  | Relative, [] => "."
  | a, ns => (anchor_str a ++ String.concat "/" ns)%string
  end.

(** [p / q] for two paths: a rooted [q] replaces [p]. *)
Definition joinpath (p q : Path) : Path :=
  match root q with
  | Relative => {| root := root p; names := names p ++ names q |}
  | _ => q
  end.

(** [p / s] and [s / p] with a string operand. *)
Definition truediv (p : Path) (s : string) : Path := joinpath p (Path_of_string s).
Definition rtruediv (s : string) (p : Path) : Path := joinpath (Path_of_string s) p.

(** [p.parent] *)
Definition parent (p : Path) : Path :=
  {| root := root p; names := removelast (names p) |}.

(** [p.is_relative_to(other)] *)
Definition is_relative_to (p other : Path) : bool :=
  anchor_eqb (root p) (root other) && names_prefix (names other) (names p).

(** [p.relative_to(other)]; [None] stands for the [ValueError]. *)
Definition relative_to (p other : Path) : option Path :=
  if is_relative_to p other
  then Some {| root := Relative; names := skipn (List.length (names other)) (names p) |}
  else None.

(* ================================================================== *)
(** ** The process environment and the file system *)

(** What the operating system answers during one run. *)
Record World : Type := mkWorld {
  cwd : list string;                       (* names of [os.getcwd()] *)
  home : Path;                             (* [Path.home()] *)
  user_home : string -> option Path;       (* home directory of [~user] *)
  realpath : list string -> list string    (* physical names of an absolute path *)
}.

(** [os.path.normpath] on the names of an absolute path: [".."] drops the
    name before it and is dropped itself at the root. *)
Fixpoint collapse_aux (done_rev : list string) (ns : list string) : list string :=
  match ns with
  | [] => rev done_rev
  | n :: ns' =>
      if (n =? "..")%string then collapse_aux (tl done_rev) ns'
      else collapse_aux (n :: done_rev) ns'
  end.

Definition collapse (ns : list string) : list string := collapse_aux [] ns.

(** [p.absolute()] *)
Definition absolute (w : World) (p : Path) : Path :=
  match root p with
  | Relative => {| root := Root; names := cwd w ++ names p |}
  | _ => p
  end.

(** [p.resolve()]: the physical names of the absolute path, under a single
    slash also where the path was written with two. *)
Definition resolve (w : World) (p : Path) : Path :=
  {| root := Root; names := realpath w (names (absolute w p)) |}.

Definition drop_first_char (s : string) : string :=
  match s with
  | String _ s' => s'
  | EmptyString => EmptyString
  end.

(** [p.expanduser()] *)
Definition expanduser (w : World) (p : Path) : result Path :=
  match root p, names p with
  | Relative, n :: rest =>
      if String.prefix "~" n then
        let homedir := if (n =? "~")%string then Some (home w)
                       else user_home w (drop_first_char n) in
        match homedir with
        | Some h => Ok (joinpath h {| root := Relative; names := rest |})
        | None => Raise (RuntimeError "Could not determine home directory.")
        end
      else Ok p
  | _, _ => Ok p
  end.

(* ================================================================== *)
(** ** YAML documents *)

(** The tree of a YAML document with its scalars resolved.  A mapping node
    lists its pairs as they are written in the file, so a key may occur more
    than once there. *)
Inductive node : Type :=
| NNull
| NBool (b : bool)
| NInt (z : Z)
| NStr (s : string)
| NSeq (l : list node)
| NMap (l : list (string * node)).

(** The constructor of [yaml.safe_load]: a mapping is built by assigning its
    pairs one after the other to a fresh dict. *)
Fixpoint construct (n : node) : pyval :=
  match n with
  | NNull => VNone
  | NBool b => VBool b
  | NInt z => VInt z
  | NStr s => VStr s
  | NSeq l => VList (map construct l)
  | NMap l =>
      VDict (fold_left (fun acc kv => dict_set acc (fst kv) (construct (snd kv))) l [])
  end.

(** The representer of [yaml.dump(..., sort_keys=False)]: a dict is written
    pair by pair in its own order. *)
Fixpoint represent (v : pyval) : node :=
  match v with
  | VNone => NNull
  | VBool b => NBool b
  | VInt z => NInt z
  | VStr s => NStr s
  | VList l => NSeq (map represent l)
  | VDict d => NMap (map (fun kv => (fst kv, represent (snd kv))) d)
  end.

(** The text of a file, as far as YAML sees it: text that does not parse, or
    a document.  The empty file is the document [NNull]. *)
Inductive file_text : Type :=
| Garbage
| Document (n : node).

Definition safe_load (t : file_text) : result pyval :=
  match t with
  | Garbage => Raise (YAMLError "could not parse the stream")
  | Document n => Ok (construct n)
  end.

Definition dump (v : pyval) : file_text := Document (represent v).

(* ================================================================== *)
(** ** Files and directories *)

Record file : Type := mkFile { readable : bool; writable : bool; text : file_text }.

(** What the operating system answers for the names of an absolute path, taken
    as they are written: a directory, a regular file, or nothing.  Two
    spellings of one place (through [".."] or a symbolic link) are two
    questions, and each gets the answer the system gives when it walks that
    spelling.  After a write the answers change for the spelling written and
    for the directories above it as they are written; for another spelling of
    the same place the answer from before is kept, and the statements below
    rely on it only where a write cannot change it: what was there is still
    there.  [stat_error] is the message of the error with which the
    system refuses a spelling altogether (a directory on the way that may not
    be searched, a name that is too long): every call on that spelling fails
    with it, and Python raises it as an [OSError]. *)
Record filesystem : Type := mkFs {
  is_dir : list string -> bool;
  file_at : list string -> option file;
  stat_error : list string -> option string
}.

(** The names under which the operating system is asked for a path. *)
Definition locate (w : World) (p : Path) : list string := names (absolute w p).

(** The system does not refuse the spelling. *)
Definition answers (fs : filesystem) (k : list string) : bool :=
  match stat_error fs k with
  | None => true
  | Some _ => false
  end.

(** A directory or a file stands at the path. *)
Definition on_disk (w : World) (fs : filesystem) (p : Path) : bool :=
  is_dir fs (locate w p)
  || match file_at fs (locate w p) with Some _ => true | None => false end.

(** [p.exists()]: the errors of [os.stat] that say "not there" give [False];
    every other error is raised. *)
Definition path_exists (w : World) (fs : filesystem) (p : Path) : result bool :=
  match stat_error fs (locate w p) with
  | Some m => Raise (OSError m)
  | None => Ok (on_disk w fs p)
  end.

(** [open(p, "r")] followed by reading the whole file. *)
Definition open_read (w : World) (fs : filesystem) (p : Path) : result file_text :=
  let k := locate w p in
  match stat_error fs k with
  | Some m => Raise (OSError m)
  | None =>
      if is_dir fs k then Raise (OSError "Is a directory")
      else match file_at fs k with
           | None => Raise (OSError "No such file or directory")
           | Some f => if readable f then Ok (text f)
                       else Raise (OSError "Permission denied")
           end
  end.

(** [p.mkdir(parents=True, exist_ok=True)]: fails when [p] or a directory
    above it is a regular file, and otherwise makes all of them directories. *)
Definition blocked_by_file (fs : filesystem) (k : list string) : bool :=
  existsb (fun i => match file_at fs (firstn i k) with Some _ => true | None => false end)
          (seq 0 (S (List.length k))).

Definition mkdir_parents (w : World) (fs : filesystem) (p : Path) : result filesystem :=
  let k := locate w p in
  match stat_error fs k with
  | Some m => Raise (OSError m)
  | None =>
      if blocked_by_file fs k then Raise (OSError "File exists")
      else Ok {| is_dir := fun k' => names_prefix k' k || is_dir fs k';
                 file_at := file_at fs;
                 stat_error := stat_error fs |}
  end.

(** [open(p, "w")] followed by writing [t] and closing the file. *)
Definition open_write (w : World) (fs : filesystem) (p : Path) (t : file_text)
  : result filesystem :=
  let k := locate w p in
  match stat_error fs k with
  | Some m => Raise (OSError m)
  | None =>
      if is_dir fs k then Raise (OSError "Is a directory")
      else if negb (is_dir fs (removelast k))
      then Raise (OSError "No such file or directory")
      else
        let put f := {| is_dir := is_dir fs;
                        file_at := fun k' => if names_eqb k' k then Some f
                                             else file_at fs k';
                        stat_error := stat_error fs |} in
        match file_at fs k with
        | Some f =>
            if writable f
            then Ok (put {| readable := readable f; writable := true; text := t |})
            else Raise (OSError "Permission denied")
        | None => Ok (put {| readable := true; writable := true; text := t |})
        end
  end.

(* ================================================================== *)
(** ** datetime *)

(** The functions of [datetime] the ledger calls, and the floats that
    [timestamp()] hands out.
    - [fromisoformat] answers [None] where Python raises [ValueError].
    - [timestamp] is the instant a datetime stands for, in microseconds since
      the epoch: the exact number, by which one time is earlier or later than
      another.
    - [posix_timestamp] is what the method [timestamp()] returns: a float, or
      [None] where it raises [ValueError] (a local time that the platform
      does not convert, such as the last hour of the year 9999 east of
      Greenwich).
    - [float_minus_int] is [x - n] for a float [x] and an [int] [n], [None]
      where [n] is too large to convert and Python raises [OverflowError];
      [float_lt] is [x < y]. *)
Record DatetimeLib : Type := mkDatetimeLib {
  datetime : Type;
  isoformat : datetime -> string;
  fromisoformat : string -> option datetime;
  timestamp : datetime -> Z;
  float : Type;
  posix_timestamp : datetime -> option float;
  float_minus_int : float -> Z -> option float;
  float_lt : float -> float -> bool
}.

(** [datetime.fromisoformat(v)] on an arbitrary value. *)
Definition py_fromisoformat (L : DatetimeLib) (v : pyval) : result (datetime L) :=
  match v with
  | VStr s =>
      match fromisoformat L s with
      | Some d => Ok d
      | None => Raise (ValueError ("Invalid isoformat string: " ++ s)%string)
      end
  | _ => Raise (TypeError "fromisoformat: argument must be str")
  end.

(** [d.timestamp()] *)
Definition py_timestamp (L : DatetimeLib) (d : datetime L) : result (float L) :=
  match posix_timestamp L d with
  | Some x => Ok x
  | None => Raise (ValueError "year is out of range")
  end.

(** [x - n] *)
Definition py_float_sub_int (L : DatetimeLib) (x : float L) (n : Z) : result (float L) :=
  match float_minus_int L x n with
  | Some y => Ok y
  | None => Raise (OverflowError "int too large to convert to float")
  end.

(** What the documentation of [datetime] promises.  [fromisoformat] reads what
    [isoformat] writes as the same time; only in the hour that a clock
    repeats, where [isoformat] does not say which of the two passes is
    meant, it reads the first one, which is the earlier.  The empty string is
    no timestamp. *)
Record DatetimeLaws (L : DatetimeLib) : Prop := mkDatetimeLaws {
  fromisoformat_isoformat :
    forall d : datetime L,
      exists d', fromisoformat L (isoformat L d) = Some d'
                 /\ (timestamp L d' <= timestamp L d)%Z;
  fromisoformat_empty : fromisoformat L "" = None
}.

(** What floating-point arithmetic keeps of the exact numbers.  Rounding is
    monotone: taking more away from a float gives a float that is not
    greater.  And rounding is small: of two instants that lie a second or
    more apart, after a shift by a number of seconds that a float holds
    exactly, the floats are ordered as the instants are. *)
Record FloatLaws (L : DatetimeLib) : Prop := mkFloatLaws {
  float_minus_int_antitone :
    forall (x c c' y : float L) (n n' : Z),
      (n <= n')%Z ->
      float_minus_int L x n = Some c ->
      float_minus_int L x n' = Some c' ->
      float_lt L y c' = true -> float_lt L y c = true;
  float_lt_apart :
    forall (d now : datetime L) (x y c : float L) (n : Z),
      (Z.abs n <= 2 ^ 31)%Z ->
      posix_timestamp L d = Some x ->
      posix_timestamp L now = Some y ->
      float_minus_int L y n = Some c ->
      ((timestamp L d + 1000000 <= timestamp L now - n * 1000000)%Z ->
       float_lt L x c = true)
      /\ ((timestamp L now - n * 1000000 + 1000000 <= timestamp L d)%Z ->
          float_lt L x c = false)
}.

(* ================================================================== *)
(** ** Counters keyed by hashable values *)

(** The local dict [usage] of [get_environment_set_usage] is keyed by whatever
    the environment-set lists hold.  Lists and dicts are unhashable; among
    the others [True == 1] and [False == 0]. *)
Definition hashable (v : pyval) : bool :=
  match v with
  | VList _ | VDict _ => false
  | _ => true
  end.

Definition key_eqb (a b : pyval) : bool :=
  match a, b with
  | VNone, VNone => true
  | VStr s, VStr t => (s =? t)%string
  | VBool x, VBool y => Bool.eqb x y
  | VInt x, VInt y => (x =? y)%Z
  | VBool x, VInt y | VInt y, VBool x => ((if x then 1 else 0) =? y)%Z
  | _, _ => false
  end.

Definition counter : Type := list (pyval * Z).

(** [usage.get(k, default)] *)
Fixpoint counter_get (usage : counter) (k : pyval) (default : Z) : Z :=
  match usage with
  | [] => default
  | (k', n) :: r => if key_eqb k' k then n else counter_get r k default
  end.

(** [usage[k] = n] *)
Fixpoint counter_set (usage : counter) (k : pyval) (n : Z) : result counter :=
  if negb (hashable k)
  then Raise (TypeError ("unhashable type: '" ++ type_name k ++ "'")%string)
  else match usage with
       | [] => Ok [(k, n)]
       | (k', n') :: r =>
           if key_eqb k' k then Ok ((k', n) :: r)
           else r' <- counter_set r k n ;; Ok ((k', n') :: r')
       end.

(* ================================================================== *)
(** ** [sorted(d.items())] *)

(** Stable insertion by key.  The keys of a dict are distinct, so the order
    of the keys alone decides and the values are never compared. *)
Fixpoint insert_item {V : Type} (x : string * V) (l : list (string * V))
  : list (string * V) :=
  match l with
  | [] => [x]
  | y :: l' => if (fst x <=? fst y)%string then x :: y :: l'
               else y :: insert_item x l'
  end.

Fixpoint sorted_items {V : Type} (l : list (string * V)) : list (string * V) :=
  match l with
  | [] => []
  | x :: l' => insert_item x (sorted_items l')
  end.

(* ================================================================== *)
(** ** class ProjectMapping *)

Definition MAPPING_FILENAME : string := "project_mapping.yaml".

Record ProjectMapping : Type := mkProjectMapping {
  templates_dir : Path;
  mapping_path : Path;
  mapping_data : pyval
}.

(** [{"projects": {}}] *)
Definition empty_mapping : pyval := VDict [("projects", VDict [])].

Definition load_warning (e : exn) : string :=
  ("Warning: Error loading project mapping: " ++ exn_str e)%string.

(** The dict reached through [self.mapping_data["projects"]] is changed in
    place; [store_projects] writes the changed dict back where it sits. *)
Definition store_projects (self : ProjectMapping) (projects : pyval) : ProjectMapping :=
  {| templates_dir := templates_dir self;
     mapping_path := mapping_path self;
     mapping_data := match mapping_data self with
                     | VDict d => VDict (dict_set d "projects" projects)
                     | v => v
                     end |}.

(** [info.copy()] with the key ["path"] added. *)
Definition with_path (info : pyval) (project_path : string) : result pyval :=
  project_info <- py_copy info ;;
  py_setitem project_info "path" (VStr project_path).

Section Ledger.

Variable w : World.
Variable L : DatetimeLib.

(** [_load_mapping]: the data loaded and the lines printed. *)
Definition _load_mapping (fs : filesystem) (mapping_path : Path)
  : result (pyval * list string) :=
  present <- path_exists w fs mapping_path ;;
  if negb present then Ok (empty_mapping, [])
  else
    try_except
      (f <- open_read w fs mapping_path ;;
       loaded <- safe_load f ;;
       let data := py_or loaded (VDict []) in
       present <- py_contains data "projects" ;;
       data <- (if negb present then py_setitem data "projects" (VDict [])
                else Ok data) ;;
       Ok (data, []))
      (fun e => Ok (empty_mapping, [load_warning e])).

(** [__init__] *)
Definition init (fs : filesystem) (templates_dir : Path)
  : result (ProjectMapping * list string) :=
  let mapping_path := truediv templates_dir MAPPING_FILENAME in
  '(data, out) <- _load_mapping fs mapping_path ;;
  Ok ({| templates_dir := templates_dir;
         mapping_path := mapping_path;
         mapping_data := data |}, out).

(** [save_mapping]: the object and the file system afterwards. *)
Definition save_mapping (fs : filesystem) (self : ProjectMapping)
  : result (ProjectMapping * filesystem) :=
  fs <- mkdir_parents w fs (parent (mapping_path self)) ;;
  projects <- py_getitem (mapping_data self) "projects" ;;
  items <- py_items projects ;;
  let sorted_projects := VDict (sorted_items items) in
  data <- py_setitem (mapping_data self) "projects" sorted_projects ;;
  let self := {| templates_dir := templates_dir self;
                 mapping_path := mapping_path self;
                 mapping_data := data |} in
  fs <- open_write w fs (mapping_path self) (dump (mapping_data self)) ;;
  Ok (self, fs).

Definition _normalize_project_path (project_path : Path) : string :=
  let abs_path := resolve w project_path in
  let home := home w in
  if is_relative_to abs_path home then
    match relative_to abs_path home with
    | Some rel => Path_str (rtruediv "~" rel)
    | None => Path_str abs_path
    end
  else Path_str abs_path.

(** [add_project]; [now] is what [datetime.now()] answers. *)
Definition add_project (now : datetime L) (self : ProjectMapping)
  (project_path : Path) (environment_sets : pyval) : result ProjectMapping :=
  let normalized_path := _normalize_project_path project_path in
  let entry := VDict [("environment_sets", environment_sets);
                      ("last_synced", VStr (isoformat L now))] in
  projects <- py_getitem (mapping_data self) "projects" ;;
  projects <- py_setitem projects normalized_path entry ;;
  Ok (store_projects self projects).

Definition remove_project (self : ProjectMapping) (project_path : Path)
  : result ProjectMapping :=
  let normalized_path := _normalize_project_path project_path in
  projects <- py_getitem (mapping_data self) "projects" ;;
  present <- py_contains projects normalized_path ;;
  if present then
    projects <- py_delitem projects normalized_path ;;
    Ok (store_projects self projects)
  else Ok self.

(** [get_project_info]; [VNone] when there is no entry. *)
Definition get_project_info (self : ProjectMapping) (project_path : Path)
  : result pyval :=
  let normalized_path := _normalize_project_path project_path in
  projects <- py_getitem (mapping_data self) "projects" ;;
  py_get projects normalized_path VNone.

Definition get_projects_by_environment_set (self : ProjectMapping)
  (env_set : string) : result (list pyval) :=
  all <- py_getitem (mapping_data self) "projects" ;;
  items <- py_items all ;;
  for_each items
    (fun projects '(project_path, info) =>
       sets <- py_get info "environment_sets" (VList []) ;;
       hit <- py_contains sets env_set ;;
       if hit then
         project_info <- with_path info project_path ;;
         Ok (projects ++ [project_info])
       else Ok projects)
    [].

Definition get_all_projects (self : ProjectMapping) : result pyval :=
  projects <- py_getitem (mapping_data self) "projects" ;;
  py_copy projects.

Definition get_environment_set_usage (self : ProjectMapping) : result counter :=
  projects <- py_getitem (mapping_data self) "projects" ;;
  infos <- py_values projects ;;
  for_each infos
    (fun usage info =>
       sets <- py_get info "environment_sets" (VList []) ;;
       elems <- py_iter sets ;;
       for_each elems
         (fun usage env_set =>
            counter_set usage env_set (counter_get usage env_set 0 + 1)%Z)
         usage)
    [].

Definition update_last_synced (now : datetime L) (self : ProjectMapping)
  (project_path : Path) : result ProjectMapping :=
  let normalized_path := _normalize_project_path project_path in
  projects <- py_getitem (mapping_data self) "projects" ;;
  present <- py_contains projects normalized_path ;;
  if present then
    entry <- py_getitem projects normalized_path ;;
    entry <- py_setitem entry "last_synced" (VStr (isoformat L now)) ;;
    projects <- py_setitem projects normalized_path entry ;;
    Ok (store_projects self projects)
  else Ok self.

(** [cleanup_missing_projects]: the object afterwards and the list returned. *)
Definition cleanup_missing_projects (fs : filesystem) (self : ProjectMapping)
  : result (ProjectMapping * list string) :=
  projects <- py_getitem (mapping_data self) "projects" ;;
  snapshot <- py_keys projects ;;
  '(projects, removed) <-
    for_each snapshot
      (fun '(projects, removed) project_path =>
         expanded_path <- expanduser w (Path_of_string project_path) ;;
         present <- path_exists w fs expanded_path ;;
         if negb present then
           projects <- py_delitem projects project_path ;;
           Ok (projects, removed ++ [project_path])
         else Ok (projects, removed))
      (projects, []) ;;
  Ok (store_projects self projects, removed).

(** [find_projects_needing_sync]; [now] is what [datetime.now()] answers. *)
Definition find_projects_needing_sync (now : datetime L) (self : ProjectMapping)
  (hours : Z) : result (list pyval) :=
  now_timestamp <- py_timestamp L now ;;
  cutoff <- py_float_sub_int L now_timestamp (hours * 3600) ;;
  projects <- py_getitem (mapping_data self) "projects" ;;
  items <- py_items projects ;;
  for_each items
    (fun old_projects '(project_path, info) =>
       last_synced_str <- py_get info "last_synced" VNone ;;
       if truthy last_synced_str then
         try_except
           (last_synced <- py_fromisoformat L last_synced_str ;;
            stamp <- py_timestamp L last_synced ;;
            if float_lt L stamp cutoff then
              project_info <- with_path info project_path ;;
              Ok (old_projects ++ [project_info])
            else Ok old_projects)
           (fun e =>
              match e with
              | ValueError _ | TypeError _ =>
                  project_info <- with_path info project_path ;;
                  Ok (old_projects ++ [project_info])
              | _ => Raise e
              end)
       else
         project_info <- with_path info project_path ;;
         Ok (old_projects ++ [project_info]))
    [].

End Ledger.

(* ================================================================== *)
(** ** The commands that keep the ledger (cli.py) *)

(** [Path.cwd()] *)
Definition Path_cwd (w : World) : Path := {| root := Root; names := cwd w |}.

(** [str(n)] for a length. *)
Definition str_of_nat (n : nat) : string := NilEmpty.string_of_uint (Nat.to_uint n).

(** The bullet of the lists printed, in UTF-8. *)
Definition bullet : string := String "226" (String "128" (String "162" EmptyString)).

Section Commands.

Variable w : World.
Variable L : DatetimeLib.

(** [init], the lines under "Update project mapping": the ledger of the
    templates directory is loaded, told about the current directory and
    saved.  [templates_source] and [active_sets] are what the project
    configuration answers; the result carries the lines printed while
    loading. *)
Definition init_update_project_mapping (now : datetime L) (fs : filesystem)
  (templates_source : Path) (active_sets : pyval)
  : result (ProjectMapping * filesystem * list string) :=
  '(project_mapping, out) <- init w fs templates_source ;;
  project_mapping <- add_project w L now project_mapping (Path_cwd w) active_sets ;;
  '(project_mapping, fs) <- save_mapping w fs project_mapping ;;
  Ok (project_mapping, fs, out).

(** [any(count > 0 for count in all_results.values())] *)
Definition any_positive (all_results : dict Z) : bool :=
  existsb (fun count => (0 <? count)%Z) (values all_results).

(** [sync], the lines under "Update project mapping after successful sync".
    [add_project] and [update_last_synced] each read the clock; the result
    carries what is printed. *)
Definition sync_update_project_mapping (now1 now2 : datetime L) (fs : filesystem)
  (dry_run : bool) (all_results : dict Z) (project_mapping : ProjectMapping)
  (target_directory : Path) (active_env_sets : pyval)
  : result (ProjectMapping * filesystem * list string) :=
  if negb dry_run && any_positive all_results then
    project_mapping <- add_project w L now1 project_mapping target_directory active_env_sets ;;
    project_mapping <- update_last_synced w L now2 project_mapping target_directory ;;
    '(project_mapping, fs) <- save_mapping w fs project_mapping ;;
    Ok (project_mapping, fs, [String "010" "[dim]Updated project mapping[/dim]"])
  else Ok (project_mapping, fs, []).

(** [projects --cleanup], the lines under "Cleanup if requested": the
    ledger is saved only when something was removed. *)
Definition projects_cleanup (fs : filesystem) (project_mapping : ProjectMapping)
  : result (ProjectMapping * filesystem * list string) :=
  '(project_mapping, removed) <- cleanup_missing_projects w fs project_mapping ;;
  match removed with
  | _ :: _ =>
      '(project_mapping, fs) <- save_mapping w fs project_mapping ;;
      Ok (project_mapping, fs,
          ("[yellow]Removed " ++ str_of_nat (List.length removed)
           ++ " missing projects:[/yellow]")%string
          :: map (fun path => ("  " ++ bullet ++ " " ++ path)%string) removed)
  | [] => Ok (project_mapping, fs, ["[green]No missing projects found[/green]"])
  end.

End Commands.

(* ================================================================== *)
(** ** An instance of the environment *)

(** A machine without symbolic links and without other users. *)
Definition plain_world (cwd : list string) (home : Path) : World :=
  {| cwd := cwd; home := home; user_home := fun _ => None; realpath := collapse |}.

(** Naive datetimes read as UTC, with the two shapes [isoformat] writes:
    [YYYY-MM-DDTHH:MM:SS] and [YYYY-MM-DDTHH:MM:SS.ffffff]. *)
Module Naive.

Local Open Scope N_scope.

Record civil : Type := mkCivil {
  year : N; month : N; day : N;
  hour : N; minute : N; second : N; microsecond : N
}.

Definition is_leap (y : N) : bool :=
  (y mod 4 =? 0) && (negb (y mod 100 =? 0) || (y mod 400 =? 0)).

Definition days_in_month (y m : N) : N :=
  match m with
  | 2 => if is_leap y then 29 else 28
  | 4 | 6 | 9 | 11 => 30
  | _ => 31
  end.

Definition civil_ok (c : civil) : bool :=
  (1 <=? year c) && (year c <=? 9999)
  && (1 <=? month c) && (month c <=? 12)
  && (1 <=? day c) && (day c <=? days_in_month (year c) (month c))
  && (hour c <? 24) && (minute c <? 60) && (second c <? 60)
  && (microsecond c <? 1000000).

(** A datetime object: its fields are always in range. *)
Definition t : Type := { c : civil | civil_ok c = true }.

Definition digit (n : N) : ascii := ascii_of_N (48 + n).

Definition digit_val (c : ascii) : option N :=
  let n := N_of_ascii c in
  if (48 <=? n) && (n <=? 57) then Some (n - 48) else None.

(** [n] in [width] decimal digits, most significant first. *)
Fixpoint zfill (width : nat) (n : N) : string :=
  match width with
  | O => EmptyString
  | S width' => String (digit ((n / 10 ^ N.of_nat width') mod 10)) (zfill width' n)
  end.

(** Reads exactly [width] digits. *)
Fixpoint take_digits (width : nat) (acc : N) (s : string) : option (N * string) :=
  match width with
  | O => Some (acc, s)
  | S width' =>
      match s with
      | String c s' =>
          match digit_val c with
          | Some d => take_digits width' (10 * acc + d) s'
          | None => None
          end
      | EmptyString => None
      end
  end.

Definition expect (c : ascii) (s : string) : option string :=
  match s with
  | String c' s' => if (c' =? c)%char then Some s' else None
  | EmptyString => None
  end.

Definition skip_char (s : string) : option string :=
  match s with
  | String _ s' => Some s'
  | EmptyString => None
  end.

Definition format (c : civil) : string :=
  (zfill 4 (year c) ++ "-" ++ zfill 2 (month c) ++ "-" ++ zfill 2 (day c)
   ++ "T" ++ zfill 2 (hour c) ++ ":" ++ zfill 2 (minute c) ++ ":"
   ++ zfill 2 (second c)
   ++ (if (microsecond c =? 0)%N then "" else "." ++ zfill 6 (microsecond c)))%string.

Definition obind {A B : Type} (m : option A) (k : A -> option B) : option B :=
  match m with
  | Some a => k a
  | None => None
  end.

Definition parse (s : string) : option civil :=
  obind (take_digits 4 0 s) (fun '(y, s) =>
  obind (expect "-" s) (fun s =>
  obind (take_digits 2 0 s) (fun '(mo, s) =>
  obind (expect "-" s) (fun s =>
  obind (take_digits 2 0 s) (fun '(d, s) =>
  obind (skip_char s) (fun s =>
  obind (take_digits 2 0 s) (fun '(h, s) =>
  obind (expect ":" s) (fun s =>
  obind (take_digits 2 0 s) (fun '(mi, s) =>
  obind (expect ":" s) (fun s =>
  obind (take_digits 2 0 s) (fun '(sec, s) =>
  match s with
  | EmptyString => Some (mkCivil y mo d h mi sec 0)
  | String c s' =>
      if (c =? ".")%char then
        obind (take_digits 6 0 s') (fun '(us, s'') =>
        match s'' with
        | EmptyString => Some (mkCivil y mo d h mi sec us)
        | _ => None
        end)
      else None
  end))))))))))).

Definition checked (c : civil) : option t :=
  match bool_dec (civil_ok c) true with
  | left H => Some (exist _ c H)
  | right _ => None
  end.

Definition isoformat (d : t) : string := format (proj1_sig d).

Definition fromisoformat (s : string) : option t := obind (parse s) checked.

(** Days from 1970-01-01 to a date of the proleptic Gregorian calendar. *)
Definition days_from_civil (y m d : Z) : Z :=
  let y' := if (m <=? 2)%Z then (y - 1)%Z else y in
  let era := (y' / 400)%Z in
  let yoe := (y' - era * 400)%Z in
  let mp := if (m <=? 2)%Z then (m + 9)%Z else (m - 3)%Z in
  let doy := ((153 * mp + 2) / 5 + d - 1)%Z in
  let doe := (yoe * 365 + yoe / 4 - yoe / 100 + doy)%Z in
  (era * 146097 + doe - 719468)%Z.

(** Seconds from the epoch to the fields of a datetime read as UTC. *)
Definition seconds_utc (d : t) : Z :=
  let c := proj1_sig d in
  let days := days_from_civil (Z.of_N (year c)) (Z.of_N (month c)) (Z.of_N (day c)) in
  (((days * 24 + Z.of_N (hour c)) * 60 + Z.of_N (minute c)) * 60 + Z.of_N (second c))%Z.

Definition timestamp (d : t) : Z :=
  (seconds_utc d * 1000000 + Z.of_N (microsecond (proj1_sig d)))%Z.

(** The seconds that fall in the years 1 to 9999. *)
Definition year_in_range (s : Z) : bool :=
  (days_from_civil 1 1 1 * 86400 <=? s)%Z && (s <? days_from_civil 10000 1 1 * 86400)%Z.

(** The instant in a zone [east] seconds ahead of UTC. *)
Definition timestamp_at (east : Z) (d : t) : Z := (timestamp d - east * 1000000)%Z.

(** [timestamp()] of a naive datetime in that zone, as CPython computes it:
    it asks for the local time at the second the fields give when read as
    UTC, and at the second one day before the answer, and raises when one of
    the two falls outside the years 1 to 9999.  The floats of this library
    are exact, they count microseconds: it orders two times as a machine
    does wherever they are not within a rounding error of each other. *)
Definition posix_timestamp_at (east : Z) (d : t) : option Z :=
  if year_in_range (seconds_utc d + east) && year_in_range (seconds_utc d - 86400)
  then Some (timestamp_at east d)
  else None.

Definition lib_at (east : Z) : DatetimeLib :=
  mkDatetimeLib t isoformat fromisoformat (timestamp_at east)
    Z (posix_timestamp_at east) (fun x n => Some (x - n * 1000000)%Z) Z.ltb.

(** Naive datetimes on a machine that keeps UTC, and on one that is an hour
    ahead of it. *)
Definition lib : DatetimeLib := lib_at 0.
Definition lib_east : DatetimeLib := lib_at 3600.

(** [datetime(y, mo, d, h, mi, s, us)] for fields known to be in range. *)
Definition make (c : civil) (H : civil_ok c = true) : t := exist _ c H.

End Naive.

(* ================================================================== *)
(** * The vocabulary of the statements *)

(** ** The shape of a ledger *)

(** The dict under ["projects"], when the data is a dict that has one. *)
Definition projects_of (self : ProjectMapping) : option (dict pyval) :=
  match mapping_data self with
  | VDict d =>
      match dict_get d "projects" with
      | Some (VDict projs) => Some projs
      | _ => None
      end
  | _ => None
  end.

(** The entry [add_project] writes. *)
Definition entry_of (L : DatetimeLib) (now : datetime L) (environment_sets : pyval) : pyval :=
  VDict [("environment_sets", environment_sets); ("last_synced", VStr (isoformat L now))].

(** Every dict inside the value has distinct keys. *)
Fixpoint well_formed (v : pyval) : bool :=
  match v with
  | VList l => forallb well_formed l
  | VDict d => unique_keys d && forallb (fun kv => well_formed (snd kv)) d
  | _ => true
  end.

(** The order [sorted] puts the items in. *)
Definition key_le {V : Type} (a b : string * V) : Prop := (fst a <=? fst b)%string = true.

(** ** The backing file *)

(** The object is as [__init__] builds it. *)
Definition initialised (self : ProjectMapping) : Prop :=
  mapping_path self = truediv (templates_dir self) MAPPING_FILENAME.

(** Nothing stands in the way of writing the backing file: the system answers
    for the templates directory and for the backing file, no regular file
    stands at the templates directory or above it, no directory at the place
    of the backing file, and a backing file that is there is writable. *)
Definition can_write (w : World) (fs : filesystem) (self : ProjectMapping) : bool :=
  answers fs (locate w (templates_dir self))
  && answers fs (locate w (mapping_path self))
  && negb (blocked_by_file fs (locate w (templates_dir self)))
  && negb (is_dir fs (locate w (mapping_path self)))
  && match file_at fs (locate w (mapping_path self)) with
     | Some f => writable f
     | None => true
     end.

(** A backing file that is there is readable. *)
Definition can_read (w : World) (fs : filesystem) (self : ProjectMapping) : bool :=
  match file_at fs (locate w (mapping_path self)) with
  | Some f => readable f
  | None => true
  end.

(** The value under a key of a mapping node (the first pair with that key). *)
Definition node_get (n : node) (k : string) : option node :=
  match n with
  | NMap l => dict_get l k
  | _ => None
  end.

(** ** Entries and what the queries return *)

(** Every entry of the ledger is a dict. *)
Definition is_dict (v : pyval) : bool :=
  match v with
  | VDict _ => true
  | _ => false
  end.

Definition entries_are_dicts (projs : dict pyval) : bool :=
  forallb (fun kv => is_dict (snd kv)) projs.

(** An entry with its path added under ["path"]. *)
Definition annotated (kv : string * pyval) : pyval :=
  match snd kv with
  | VDict d => VDict (dict_set d "path" (VStr (fst kv)))
  | v => v
  end.

(** ** Staleness *)

(** The float below which a timestamp counts as old:
    [datetime.now().timestamp() - (hours * 3600)], where both steps
    succeed. *)
Definition cutoff_of (L : DatetimeLib) (now : datetime L) (hours : Z) : option (float L) :=
  match posix_timestamp L now with
  | Some x => float_minus_int L x (hours * 3600)
  | None => None
  end.

(** In the words of the specification: an entry needs a sync when its
    timestamp is absent, or is not a timestamp that can be parsed, or is
    older than the threshold.  The code adds a fourth case: the timestamp
    parses to a time that [timestamp()] does not convert. *)
Definition timestamp_absent (info : pyval) : Prop :=
  match info with
  | VDict d => dict_get d "last_synced" = None
  | _ => False
  end.

Definition timestamp_unparsable (L : DatetimeLib) (info : pyval) : Prop :=
  match info with
  | VDict d =>
      exists v, dict_get d "last_synced" = Some v
                /\ match v with
                   | VStr s => fromisoformat L s = None
                   | _ => True
                   end
  | _ => False
  end.

Definition timestamp_unconvertible (L : DatetimeLib) (info : pyval) : Prop :=
  match info with
  | VDict d =>
      exists s t, dict_get d "last_synced" = Some (VStr s)
                  /\ fromisoformat L s = Some t
                  /\ posix_timestamp L t = None
  | _ => False
  end.

(** Older: the float of the timestamp is less than the cutoff, as [<]
    compares floats. *)
Definition timestamp_older (L : DatetimeLib) (cutoff : float L) (info : pyval) : Prop :=
  match info with
  | VDict d =>
      exists s t x, dict_get d "last_synced" = Some (VStr s)
                    /\ fromisoformat L s = Some t
                    /\ posix_timestamp L t = Some x
                    /\ float_lt L x cutoff = true
  | _ => False
  end.

Definition needs_sync_spec (L : DatetimeLib) (cutoff : float L) (info : pyval) : Prop :=
  timestamp_absent info \/ timestamp_unparsable L info
  \/ timestamp_unconvertible L info \/ timestamp_older L cutoff info.

(** The test the loop of [find_projects_needing_sync] makes on one entry. *)
Definition needs_sync (L : DatetimeLib) (cutoff : float L) (info : pyval) : bool :=
  match info with
  | VDict d =>
      match dict_get d "last_synced" with
      | None => true
      | Some v =>
          if truthy v then
            match v with
            | VStr s =>
                match fromisoformat L s with
                | Some t =>
                    match posix_timestamp L t with
                    | Some x => float_lt L x cutoff
                    | None => true
                    end
                | None => true
                end
            | _ => true
            end
          else true
      end
  | _ => false
  end.

(** ** Keys and the file system *)

(** The stored key names a user whose home directory is known, or none. *)
Definition expandable (w : World) (k : string) : bool :=
  match expanduser w (Path_of_string k) with
  | Ok _ => true
  | Raise _ => false
  end.

(** [cleanup_missing_projects] can examine the key: it expands, and the
    system answers for the expanded path. *)
Definition examinable (w : World) (fs : filesystem) (k : string) : bool :=
  match expanduser w (Path_of_string k) with
  | Ok p => answers fs (locate w p)
  | Raise _ => false
  end.

(** The stored key, expanded, is not on the file system. *)
Definition gone (w : World) (fs : filesystem) (k : string) : bool :=
  match expanduser w (Path_of_string k) with
  | Ok p =>
      match path_exists w fs p with
      | Ok present => negb present
      | Raise _ => false
      end
  | Raise _ => false
  end.

(** [k] is one of [ks]. *)
Definition listed (ks : list string) (k : string) : bool :=
  existsb (fun k' => (k' =? k)%string) ks.

(** ** Environment sets *)

Definition is_str (v : pyval) : bool :=
  match v with
  | VStr _ => true
  | _ => false
  end.

(** The entry is a dict whose ["environment_sets"], when it has one, is a
    list of strings. *)
Definition entry_shape (info : pyval) : bool :=
  match info with
  | VDict d =>
      match dict_get d "environment_sets" with
      | None => true
      | Some (VList l) => forallb is_str l
      | Some _ => false
      end
  | _ => false
  end.

Definition strings_of (l : list pyval) : list string :=
  flat_map (fun v => match v with VStr s => [s] | _ => [] end) l.

(** The names in the environment-set list of an entry. *)
Definition sets_of (info : pyval) : list string :=
  match info with
  | VDict d =>
      match dict_get d "environment_sets" with
      | Some (VList l) => strings_of l
      | _ => []
      end
  | _ => []
  end.

(** How often [name] stands in the lists of the entries, and how many
    entries have it in their list. *)
Definition occurrences (name : string) (projs : dict pyval) : nat :=
  list_sum (map (fun kv => count_occ string_dec (sets_of (snd kv)) name) projs).

Definition users (name : string) (projs : dict pyval) : nat :=
  List.length (filter (fun kv => listed (sets_of (snd kv)) name) projs).

(** One more use of [name]. *)
Fixpoint bump (usage : counter) (name : string) : counter :=
  match usage with
  | [] => [(VStr name, 1%Z)]
  | (k, n) :: r =>
      if key_eqb k (VStr name) then (k, (n + 1)%Z) :: r
      else (k, n) :: bump r name
  end.

(** One more use of each of [names], in their order. *)
Definition tally (usage : counter) (names : list string) : counter :=
  fold_left bump names usage.

(** All the names of all the entries, in the order the loops meet them. *)
Definition all_names (projs : dict pyval) : list string :=
  flat_map (fun kv => sets_of (snd kv)) projs.

(** Every entry has the shape. *)
Definition shaped (projs : dict pyval) : bool :=
  forallb (fun kv => entry_shape (snd kv)) projs.

(** ** Runs *)

(** What a caller does with a ledger once it is built. *)
Inductive operation (L : DatetimeLib) : Type :=
| AddProject (now : datetime L) (P : Path) (environment_sets : pyval)
| RemoveProject (P : Path)
| UpdateLastSynced (now : datetime L) (P : Path)
| CleanupMissing
| SaveMapping.

Arguments AddProject {L} now P environment_sets.
Arguments RemoveProject {L} P.
Arguments UpdateLastSynced {L} now P.
Arguments CleanupMissing {L}.
Arguments SaveMapping {L}.

(** One operation on the object and the file system. *)
Definition run (w : World) (L : DatetimeLib) (st : ProjectMapping * filesystem)
  (op : operation L) : result (ProjectMapping * filesystem) :=
  let '(self, fs) := st in
  match op with
  | AddProject now P environment_sets =>
      self <- add_project w L now self P environment_sets ;; Ok (self, fs)
  | RemoveProject P =>
      self <- remove_project w self P ;; Ok (self, fs)
  | UpdateLastSynced now P =>
      self <- update_last_synced w L now self P ;; Ok (self, fs)
  | CleanupMissing =>
      '(self, _) <- cleanup_missing_projects w fs self ;; Ok (self, fs)
  | SaveMapping => save_mapping w fs self
  end.

(** The operations that are there to delete entries. *)
Definition deletes {L : DatetimeLib} (op : operation L) : bool :=
  match op with
  | RemoveProject _ | CleanupMissing => true
  | _ => false
  end.

(** No key stands twice in the dict of projects. *)
Definition one_entry_per_key (self : ProjectMapping) : Prop :=
  forall projs, projects_of self = Some projs -> NoDup (keys projs).

(** ** After a save, and the names of a path *)

(** The file system after [save_mapping] has written [data]. *)
Definition fs_after_save (w : World) (fs : filesystem) (self : ProjectMapping)
  (data : pyval) : filesystem :=
  {| is_dir := fun k => names_prefix k (locate w (templates_dir self)) || is_dir fs k;
     file_at := fun k =>
       if names_eqb k (locate w (mapping_path self))
       then Some {| readable := match file_at fs (locate w (mapping_path self)) with
                                | Some f => readable f
                                | None => true
                                end;
                    writable := true;
                    text := dump data |}
       else file_at fs k;
     stat_error := stat_error fs |}.

(** ["/" in s] *)
Fixpoint has_slash (s : string) : bool :=
  match s with
  | EmptyString => false
  | String c s' => (c =? "/")%char || has_slash s'
  end.

(** A name as the parser of paths leaves it: not empty, not ["."], and
    without a slash. *)
Definition proper_name (x : string) : bool := kept_name x && negb (has_slash x).

(* ================================================================== *)
(** * Worked values *)

Module Sample.

Definition home_u : Path := Path_of_string "/home/u".

(** A shell in [/home/u/work], home directory [/home/u]. *)
Definition world : World := plain_world ["home"; "u"; "work"] home_u.

Definition at_noon : datetime Naive.lib :=
  Naive.make (Naive.mkCivil 2024 3 10 12 0 0 0) eq_refl.

Definition two_days_before : datetime Naive.lib :=
  Naive.make (Naive.mkCivil 2024 3 8 12 0 0 0) eq_refl.

Definition at_midnight : datetime Naive.lib :=
  Naive.make (Naive.mkCivil 2024 3 10 0 0 0 0) eq_refl.

Definition a_second_later : datetime Naive.lib :=
  Naive.make (Naive.mkCivil 2024 3 10 12 0 1 250000) eq_refl.

(** The same machine, with a shell in [/srv]. *)
Definition server : World := plain_world ["srv"] home_u.

Definition templates : Path := Path_of_string "/templates".

Definition ledger_with (data : pyval) : ProjectMapping :=
  {| templates_dir := templates;
     mapping_path := truediv templates MAPPING_FILENAME;
     mapping_data := data |}.

(** The ledger of a fresh templates directory. *)
Definition fresh : ProjectMapping := ledger_with empty_mapping.

End Sample.

Module SampleFs.

(** Only the root directory: the templates directory is yet to be made. *)
Definition bare : filesystem :=
  {| is_dir := fun k => names_eqb k [];
     file_at := fun _ => None;
     stat_error := fun _ => None |}.

(** [/templates/project_mapping.yaml] holding the text [t]. *)
Definition holding (t : file_text) : filesystem :=
  {| is_dir := fun k => names_eqb k [] || names_eqb k ["templates"];
     file_at := fun k =>
       if names_eqb k ["templates"; "project_mapping.yaml"]
       then Some {| readable := true; writable := true; text := t |}
       else None;
     stat_error := fun _ => None |}.

(** The same file without the permission to read it. *)
Definition unreadable : filesystem :=
  {| is_dir := fun k => names_eqb k [] || names_eqb k ["templates"];
     file_at := fun k =>
       if names_eqb k ["templates"; "project_mapping.yaml"]
       then Some {| readable := false; writable := true; text := Garbage |}
       else None;
     stat_error := fun _ => None |}.

(** The templates directory may not be searched: the system refuses every
    question about the backing file. *)
Definition refusing : filesystem :=
  {| is_dir := fun k => names_eqb k [] || names_eqb k ["templates"];
     file_at := fun _ => None;
     stat_error := fun k =>
       if names_eqb k ["templates"; "project_mapping.yaml"]
       then Some "Permission denied"
       else None |}.

(** The directory [/T/proj] and nothing else under [/T]: the system finds
    [/T/proj], and does not find [/T/missing/../proj], which asks it to go
    through a directory that is not there. *)
Definition one_project_dir : filesystem :=
  {| is_dir := fun k => names_eqb k [] || names_eqb k ["T"] || names_eqb k ["T"; "proj"];
     file_at := fun _ => None;
     stat_error := fun _ => None |}.

Definition entry (sets : list string) (stamp : string) : pyval :=
  VDict [("environment_sets", VList (map VStr sets)); ("last_synced", VStr stamp)].

(** Two projects, added in descending order of their paths. *)
Definition two_projects : ProjectMapping :=
  Sample.ledger_with
    (VDict [("projects",
             VDict [("/project2", entry ["env_b"; "env_c"] "2024-03-10T12:00:00");
                    ("/project1", entry ["env_a"] "2024-03-08T12:00:00")])]).

End SampleFs.

Module SampleLedgers.

(** The ledger of the repository's staleness test, read at noon. *)
Definition by_age : ProjectMapping :=
  Sample.ledger_with
    (VDict [("projects",
             VDict [("/old-project",
                     VDict [("environment_sets", VList [VStr "env_a"]);
                            ("last_synced",
                             VStr (isoformat Naive.lib Sample.two_days_before))]);
                    ("/recent-project",
                     VDict [("environment_sets", VList [VStr "env_b"]);
                            ("last_synced",
                             VStr (isoformat Naive.lib Sample.at_midnight))]);
                    ("/no-timestamp-project",
                     VDict [("environment_sets", VList [VStr "env_c"])])])]).

(** One project that is on the disk and two that are not. *)
Definition on_and_off_disk : dict pyval :=
  [("/templates", SampleFs.entry ["env_a"] "2024-03-10T12:00:00");
   ("/non/existing/path1", SampleFs.entry ["env_b"] "2024-03-10T12:00:00");
   ("~/gone", SampleFs.entry ["env_c"] "2024-03-10T12:00:00")].

(** Hand-edited ledgers in which an entry has no list, and another entry
    has [null] for its list, or is [null] itself. *)
Definition with_null_list : dict pyval :=
  [("/project1", VDict [("last_synced", VStr "2024-03-08T12:00:00")]);
   ("/project2", VDict [("environment_sets", VNone);
                        ("last_synced", VStr "2024-03-08T12:00:00")])].

Definition with_null_entry : dict pyval :=
  [("/project1", VDict [("last_synced", VStr "2024-03-08T12:00:00")]);
   ("/project2", VNone)].

(** A hand-edited ledger: the second entry has no list of environment sets. *)
Definition hand_edited : dict pyval :=
  [("/project1", SampleFs.entry ["env_a"] "2024-03-10T00:00:00");
   ("/project2", VDict [("last_synced", VStr "2024-03-08T12:00:00")])].

End SampleLedgers.

(* ================================================================== *)
(** * Properties *)

(** ** The error monad *)

Lemma bind_Ok {A B : Type} (m : result A) (k : A -> result B) (b : B) :
  bind m k = Ok b -> exists a, m = Ok a /\ k a = Ok b.
Proof.
  destruct m as [a | e]; simpl; intros H; [ exists a; auto | discriminate ].
Qed.

Lemma for_each_app {A S : Type} (xs ys : list A) (body : S -> A -> result S) (s : S) :
  for_each (xs ++ ys) body s = (s' <- for_each xs body s ;; for_each ys body s').
Proof.
  revert s; induction xs as [| x xs IH]; intros s; simpl; [ reflexivity | ].
  destruct (body s x); simpl; auto.
Qed.

(** ** Dictionaries *)

Section DictFacts.
Context {V : Type}.
Implicit Types (d : dict V) (k : string) (v : V).

Lemma dict_get_None d k : dict_get d k = None <-> ~ In k (keys d).
Proof.
  induction d as [| [k' v'] r IH]; simpl; [ tauto | ].
  destruct (String.eqb_spec k' k) as [-> | Hne].
  - split; [ discriminate | intros H; exfalso; apply H; auto ].
  - rewrite IH. split; [ intros H [E | I]; auto | intros H I; apply H; auto ].
Qed.

Lemma dict_get_Some_In d k v : dict_get d k = Some v -> In (k, v) d.
Proof.
  induction d as [| [k' v'] r IH]; simpl; [ discriminate | ].
  destruct (String.eqb_spec k' k) as [-> | Hne]; intros H.
  - injection H as ->. auto.
  - auto.
Qed.

Lemma dict_mem_In d k : dict_mem d k = true <-> In k (keys d).
Proof.
  unfold dict_mem. destruct (dict_get d k) eqn:E.
  - split; [ intros _ | reflexivity ].
    apply dict_get_Some_In in E. apply (in_map fst) in E. exact E.
  - apply dict_get_None in E. split; [ discriminate | contradiction ].
Qed.

Lemma dict_mem_false d k : dict_mem d k = false <-> ~ In k (keys d).
Proof.
  rewrite <- dict_mem_In. destruct (dict_mem d k); split; congruence.
Qed.

Lemma unique_keys_NoDup d : unique_keys d = true <-> NoDup (keys d).
Proof.
  induction d as [| [k v] r IH]; simpl.
  - split; [ constructor | reflexivity ].
  - rewrite andb_true_iff, negb_true_iff, dict_mem_false, IH.
    split; [ intros [H1 H2]; constructor; auto | intros H; inversion H; auto ].
Qed.

Lemma In_dict_get d k v : NoDup (keys d) -> In (k, v) d -> dict_get d k = Some v.
Proof.
  induction d as [| [k' v'] r IH]; simpl; [ tauto | ].
  intros Hnd [E | I]; inversion Hnd as [| ? ? Hnot Hnd']; subst.
  - injection E as -> ->. rewrite String.eqb_refl. reflexivity.
  - destruct (String.eqb_spec k' k) as [-> | Hne]; [ | auto ].
    exfalso. apply Hnot. apply (in_map fst) in I. exact I.
Qed.

Lemma dict_get_set_same d k v : dict_get (dict_set d k v) k = Some v.
Proof.
  induction d as [| [k' v'] r IH]; simpl.
  - rewrite String.eqb_refl. reflexivity.
  - destruct (String.eqb_spec k' k) as [-> | Hne]; simpl.
    + rewrite String.eqb_refl. reflexivity.
    + destruct (String.eqb_spec k' k); [ contradiction | exact IH ].
Qed.

Lemma dict_get_set_other d k k' v :
  k <> k' -> dict_get (dict_set d k v) k' = dict_get d k'.
Proof.
  intros Hne. induction d as [| [k0 v0] r IH]; simpl.
  - destruct (String.eqb_spec k k'); [ contradiction | reflexivity ].
  - destruct (String.eqb_spec k0 k) as [-> | Hne0]; simpl.
    + destruct (String.eqb_spec k k'); [ contradiction | reflexivity ].
    + rewrite IH. reflexivity.
Qed.

Lemma keys_dict_set d k v :
  keys (dict_set d k v) = if dict_mem d k then keys d else keys d ++ [k].
Proof.
  unfold dict_mem. induction d as [| [k' v'] r IH]; simpl; [ reflexivity | ].
  destruct (String.eqb_spec k' k) as [-> | Hne]; simpl; [ reflexivity | ].
  rewrite IH. destruct (dict_get r k); reflexivity.
Qed.

Lemma NoDup_dict_set d k v : NoDup (keys d) -> NoDup (keys (dict_set d k v)).
Proof.
  intros Hnd. rewrite keys_dict_set. destruct (dict_mem d k) eqn:E; [ exact Hnd | ].
  apply dict_mem_false in E.
  apply NoDup_rev in Hnd. rewrite <- (rev_involutive (keys d ++ [k])).
  apply NoDup_rev. rewrite rev_app_distr. simpl. constructor; [ | exact Hnd ].
  rewrite <- in_rev. exact E.
Qed.

Lemma In_keys_dict_set d k v k' :
  In k' (keys (dict_set d k v)) <-> k' = k \/ In k' (keys d).
Proof.
  rewrite keys_dict_set. destruct (dict_mem d k) eqn:E.
  - apply dict_mem_In in E. split; [ auto | intros [-> | H]; auto ].
  - rewrite in_app_iff. simpl. split; [ intros [H | [H | []]]; auto | intros [-> | H]; auto ].
Qed.

Lemma count_key_le_1 d k : NoDup (keys d) -> count_key d k <= 1.
Proof.
  unfold count_key. induction d as [| [k' v'] r IH]; simpl; intros Hnd; [ lia | ].
  inversion Hnd as [| ? ? Hnot Hnd']; subst.
  destruct (String.eqb_spec k' k) as [-> | Hne]; simpl; [ | auto ].
  assert (filter (fun kv : string * V => (fst kv =? k)%string) r = []) as ->; [ | simpl; lia ].
  clear - Hnot. induction r as [| [k1 v1] r IH]; simpl; [ reflexivity | ].
  destruct (String.eqb_spec k1 k) as [-> | Hne]; simpl.
  - exfalso. apply Hnot. simpl. auto.
  - apply IH. intros H. apply Hnot. simpl. auto.
Qed.

Lemma count_key_pos d k : In k (keys d) -> 1 <= count_key d k.
Proof.
  unfold count_key. induction d as [| [k' v'] r IH]; simpl; [ tauto | ].
  destruct (String.eqb_spec k' k) as [-> | Hne]; simpl; [ lia | ].
  intros [E | I]; [ contradiction | auto ].
Qed.

Lemma count_key_dict_set d k v : NoDup (keys d) -> count_key (dict_set d k v) k = 1.
Proof.
  intros Hnd. apply Nat.le_antisymm.
  - apply count_key_le_1, NoDup_dict_set, Hnd.
  - apply count_key_pos, In_keys_dict_set. auto.
Qed.

Lemma filter_other_keys d k :
  ~ In k (keys d) -> filter (fun kv : string * V => negb (fst kv =? k)%string) d = d.
Proof.
  induction d as [| [k' v'] r IH]; simpl; intros H; [ reflexivity | ].
  destruct (String.eqb_spec k' k) as [-> | Hne]; simpl.
  - exfalso. auto.
  - rewrite IH; auto.
Qed.

(** On a dict, [del d[k]] removes the one pair with key [k]. *)
Lemma dict_del_filter d k :
  NoDup (keys d) ->
  dict_del d k = filter (fun kv : string * V => negb (fst kv =? k)%string) d.
Proof.
  induction d as [| [k' v'] r IH]; simpl; intros Hnd; [ reflexivity | ].
  inversion Hnd as [| ? ? Hnot Hnd']; subst.
  destruct (String.eqb_spec k' k) as [-> | Hne]; simpl.
  - symmetry. apply filter_other_keys. exact Hnot.
  - rewrite IH; auto.
Qed.

Lemma NoDup_keys_filter (f : string * V -> bool) d :
  NoDup (keys d) -> NoDup (keys (filter f d)).
Proof.
  induction d as [| [k v] r IH]; simpl; intros Hnd; [ constructor | ].
  inversion Hnd as [| ? ? Hnot Hnd']; subst.
  destruct (f (k, v)); simpl; [ | auto ].
  constructor; [ | auto ].
  intros H. apply Hnot. unfold keys in *. apply in_map_iff in H.
  destruct H as [[k1 v1] [E I]]. simpl in E. subst k1.
  apply filter_In in I. destruct I as [I _]. apply (in_map fst) in I. exact I.
Qed.

Lemma dict_get_filter (f : string * V -> bool) d k v :
  NoDup (keys d) ->
  dict_get (filter f d) k = Some v <-> dict_get d k = Some v /\ f (k, v) = true.
Proof.
  intros Hnd. split.
  - intros H. apply dict_get_Some_In in H. apply filter_In in H.
    destruct H as [I Hf]. split; [ apply In_dict_get; auto | exact Hf ].
  - intros [H Hf]. apply In_dict_get; [ apply NoDup_keys_filter; exact Hnd | ].
    apply filter_In. split; [ apply dict_get_Some_In; exact H | exact Hf ].
Qed.

End DictFacts.

(** ** Paths and normalization *)

Lemma absolute_rooted (w : World) (p : Path) : root (absolute w p) <> Relative.
Proof.
  unfold absolute. destruct (root p) eqn:E; simpl; congruence.
Qed.

Lemma absolute_idempotent (w : World) (p : Path) :
  absolute w (absolute w p) = absolute w p.
Proof.
  pose proof (absolute_rooted w p) as H.
  unfold absolute at 1. destruct (root (absolute w p)); [ contradiction | reflexivity | reflexivity ].
Qed.

Lemma resolve_rooted (w : World) (p : Path) : root (resolve w p) <> Relative.
Proof. discriminate. Qed.

Lemma resolve_absolute (w : World) (p : Path) : resolve w (absolute w p) = resolve w p.
Proof.
  unfold resolve. rewrite absolute_idempotent. reflexivity.
Qed.

Lemma resolve_idempotent (w : World) (p : Path) :
  (forall ns, realpath w (realpath w ns) = realpath w ns) ->
  resolve w (resolve w p) = resolve w p.
Proof.
  intros Hreal. unfold resolve, absolute. cbn [root names].
  rewrite Hreal. reflexivity.
Qed.

Lemma collapse_aux_plain (done_rev ns : list string) :
  ~ In ".." ns -> collapse_aux done_rev ns = rev done_rev ++ ns.
Proof.
  revert done_rev. induction ns as [| n ns IH]; intros done_rev H; simpl.
  - rewrite app_nil_r. reflexivity.
  - destruct (String.eqb_spec n "..") as [-> | Hne].
    + exfalso. apply H. simpl. auto.
    + rewrite IH; [ | intros I; apply H; simpl; auto ].
      simpl. rewrite <- app_assoc. reflexivity.
Qed.

Lemma collapse_aux_no_dotdot (done_rev ns : list string) :
  ~ In ".." done_rev -> ~ In ".." (collapse_aux done_rev ns).
Proof.
  revert done_rev. induction ns as [| n ns IH]; intros done_rev H; simpl.
  - rewrite <- in_rev. exact H.
  - destruct (String.eqb_spec n "..") as [-> | Hne]; apply IH.
    + destruct done_rev; simpl in *; tauto.
    + simpl. intros [E | I]; auto.
Qed.

Lemma collapse_idempotent (ns : list string) : collapse (collapse ns) = collapse ns.
Proof.
  unfold collapse at 1. apply collapse_aux_plain.
  apply collapse_aux_no_dotdot. simpl. tauto.
Qed.

Lemma Path_str_home_alias (ns : list string) :
  String.prefix "~" (Path_str (rtruediv "~" {| root := Relative; names := ns |})) = true.
Proof.
  unfold rtruediv, joinpath. simpl root.
  change (names (Path_of_string "~")) with ["~"].
  change (root (Path_of_string "~")) with Relative.
  unfold Path_str. simpl.
  destruct ns; reflexivity.
Qed.

Lemma normalize_under_home (w : World) (p : Path) :
  is_relative_to (resolve w p) (home w) = true ->
  String.prefix "~" (_normalize_project_path w p) = true.
Proof.
  intros H. unfold _normalize_project_path, relative_to. rewrite H.
  apply Path_str_home_alias.
Qed.

Lemma normalize_absolute (w : World) (p : Path) :
  _normalize_project_path w (absolute w p) = _normalize_project_path w p.
Proof.
  unfold _normalize_project_path. rewrite resolve_absolute. reflexivity.
Qed.

Lemma normalize_resolve (w : World) (p : Path) :
  (forall ns, realpath w (realpath w ns) = realpath w ns) ->
  _normalize_project_path w (resolve w p) = _normalize_project_path w p.
Proof.
  intros H. unfold _normalize_project_path. rewrite resolve_idempotent by exact H.
  reflexivity.
Qed.

(** ** The shape of the ledger *)

Lemma projects_of_getitem (self : ProjectMapping) (projs : dict pyval) :
  projects_of self = Some projs ->
  py_getitem (mapping_data self) "projects" = Ok (VDict projs).
Proof.
  unfold projects_of. destruct (mapping_data self) as [| | | | |d]; try discriminate.
  simpl. destruct (dict_get d "projects") as [[| | | | |q] |]; try discriminate.
  intros H. injection H as ->. reflexivity.
Qed.

Lemma projects_of_store (self : ProjectMapping) (projs projs' : dict pyval) :
  projects_of self = Some projs ->
  projects_of (store_projects self (VDict projs')) = Some projs'.
Proof.
  unfold projects_of, store_projects. simpl.
  destruct (mapping_data self) as [| | | | |d]; try discriminate.
  intros _. rewrite dict_get_set_same. reflexivity.
Qed.

Lemma add_project_spec (w : World) (L : DatetimeLib) (now : datetime L)
  (self : ProjectMapping) (p : Path) (S : pyval) (projs : dict pyval) :
  projects_of self = Some projs ->
  add_project w L now self p S
  = Ok (store_projects self
          (VDict (dict_set projs (_normalize_project_path w p) (entry_of L now S)))).
Proof.
  intros H. unfold add_project. rewrite (projects_of_getitem _ _ H). reflexivity.
Qed.

Lemma get_project_info_spec (w : World) (self : ProjectMapping) (p : Path)
  (projs : dict pyval) :
  projects_of self = Some projs ->
  get_project_info w self p
  = Ok (match dict_get projs (_normalize_project_path w p) with
        | Some info => info
        | None => VNone
        end).
Proof.
  intros H. unfold get_project_info. rewrite (projects_of_getitem _ _ H). simpl.
  destruct (dict_get projs (_normalize_project_path w p)); reflexivity.
Qed.

(** C1 (as amended).  Normalization is a function of the environment and the
    path.  A path whose resolved form lies under the home directory, or is the
    home directory, gets a key that begins with the home-alias marker.  The
    relative form of a path, its absolute form and, where resolving is
    idempotent, its resolved form all get the same key, so that after
    [add_project] a lookup with any of them returns the entry just written.
    Nothing is said about the home-alias form: normalization does not expand
    a leading ["~"]. *)
Theorem normalize_relative_absolute_forms (w : World) (p : Path) :
  (is_relative_to (resolve w p) (home w) = true ->
   String.prefix "~" (_normalize_project_path w p) = true)
  /\ _normalize_project_path w (absolute w p) = _normalize_project_path w p
  /\ ((forall ns, realpath w (realpath w ns) = realpath w ns) ->
      _normalize_project_path w (resolve w p) = _normalize_project_path w p)
  /\ (forall (L : DatetimeLib) (now : datetime L) (self : ProjectMapping)
             (S : pyval) (projs : dict pyval),
         projects_of self = Some projs ->
         exists self',
           add_project w L now self p S = Ok self'
           /\ get_project_info w self' p = Ok (entry_of L now S)
           /\ get_project_info w self' (absolute w p) = Ok (entry_of L now S)
           /\ ((forall ns, realpath w (realpath w ns) = realpath w ns) ->
               get_project_info w self' (resolve w p) = Ok (entry_of L now S))).
Proof.
  split; [ apply normalize_under_home | ].
  split; [ apply normalize_absolute | ].
  split; [ apply normalize_resolve | ].
  intros L now self S projs Hp.
  eexists. split; [ apply add_project_spec; exact Hp | ].
  pose proof (projects_of_store self projs
                (dict_set projs (_normalize_project_path w p) (entry_of L now S)) Hp) as Hp'.
  repeat split.
  - rewrite (get_project_info_spec _ _ _ _ Hp'), dict_get_set_same. reflexivity.
  - rewrite (get_project_info_spec _ _ _ _ Hp'), normalize_absolute, dict_get_set_same.
    reflexivity.
  - intros Hreal.
    rewrite (get_project_info_spec _ _ _ _ Hp'), normalize_resolve by exact Hreal.
    rewrite dict_get_set_same. reflexivity.
Qed.

(** ** The naive datetimes satisfy the laws of [datetime] *)

Module NaiveFacts.
Import Naive.
Local Open Scope N_scope.

Lemma digit_val_digit (n : N) : n < 10 -> digit_val (digit n) = Some n.
Proof.
  intros H. unfold digit_val, digit.
  rewrite N_ascii_embedding by lia.
  replace (48 <=? 48 + n) with true by (symmetry; apply N.leb_le; lia).
  replace (48 + n <=? 57) with true by (symmetry; apply N.leb_le; lia).
  cbn [andb]. f_equal. lia.
Qed.

Lemma take_digits_zfill (width : nat) (acc n : N) (rest : string) :
  take_digits width acc (zfill width n ++ rest)%string
  = Some (acc * 10 ^ N.of_nat width + n mod 10 ^ N.of_nat width, rest).
Proof.
  revert acc. induction width as [| width IH]; intros acc.
  - simpl. rewrite N.mod_1_r. do 2 f_equal. lia.
  - cbn [zfill take_digits append].
    rewrite digit_val_digit by (apply N.mod_lt; lia).
    rewrite IH. do 2 f_equal.
    rewrite Nat2N.inj_succ, N.pow_succ_r'.
    rewrite (N.mul_comm 10 (10 ^ N.of_nat width)).
    rewrite N.Div0.mod_mul_r. ring.
Qed.

Lemma take_digits_zfill_small (width : nat) (n : N) (rest : string) :
  n < 10 ^ N.of_nat width ->
  take_digits width 0 (zfill width n ++ rest)%string = Some (n, rest).
Proof.
  intros H. rewrite take_digits_zfill, N.mod_small by exact H. reflexivity.
Qed.

Lemma append_empty_r (s : string) : (s ++ "")%string = s.
Proof.
  induction s as [| c s IH]; simpl; [ reflexivity | rewrite IH; reflexivity ].
Qed.

Lemma days_in_month_le (y m : N) : days_in_month y m <= 31.
Proof.
  unfold days_in_month.
  repeat match goal with
         | |- context [match ?x with _ => _ end] => destruct x
         end; lia.
Qed.

Lemma parse_format (c : civil) : civil_ok c = true -> parse (format c) = Some c.
Proof.
  unfold civil_ok. rewrite !andb_true_iff, !N.leb_le, !N.ltb_lt.
  intros [[[[[[[[[Hy1 Hy] Hm1] Hm] Hd1] Hd] Hh] Hmi] Hs] Hus].
  pose proof (days_in_month_le (year c) (month c)) as Hdm.
  destruct c as [y mo d h mi s us]; simpl in *.
  unfold parse, format; simpl year; simpl month; simpl day; simpl hour;
    simpl minute; simpl second; simpl microsecond.
  do 5 (rewrite take_digits_zfill_small by (simpl; lia);
        cbn [obind expect skip_char append];
        try rewrite Ascii.eqb_refl; cbn [obind]).
  rewrite take_digits_zfill_small by (simpl; lia). cbn [obind].
  destruct (N.eqb_spec us 0) as [-> | Hne].
  - reflexivity.
  - cbn [append]. rewrite Ascii.eqb_refl.
    rewrite <- (append_empty_r (zfill 6 us)).
    rewrite take_digits_zfill_small by (simpl; lia). reflexivity.
Qed.

Lemma checked_ok (c : civil) (H : civil_ok c = true) : checked c = Some (exist _ c H).
Proof.
  unfold checked. destruct (bool_dec (civil_ok c) true) as [H' | Hn]; [ | contradiction ].
  do 2 f_equal. apply Eqdep_dec.UIP_dec. exact bool_dec.
Qed.

Lemma laws_at (east : Z) : DatetimeLaws (lib_at east).
Proof.
  split.
  - intros [c H]. exists (exist _ c H). split; [ | apply Z.le_refl ].
    change (Naive.fromisoformat (Naive.isoformat (exist _ c H)) = Some (exist _ c H)).
    unfold Naive.fromisoformat, Naive.isoformat. simpl proj1_sig.
    rewrite parse_format by exact H. apply checked_ok.
  - reflexivity.
Qed.

Lemma laws : DatetimeLaws lib.
Proof. exact (laws_at 0). Qed.

End NaiveFacts.

Lemma naive_float_laws_at (east : Z) : FloatLaws (Naive.lib_at east).
Proof.
  split; cbn [Naive.lib_at float float_minus_int float_lt posix_timestamp timestamp].
  - intros x c c' y n n' Hn Hc Hc' Hlt.
    injection Hc as <-. injection Hc' as <-.
    apply Z.ltb_lt in Hlt. apply Z.ltb_lt. lia.
  - intros d now x y c n _ Hx Hy Hc. unfold Naive.posix_timestamp_at in Hx, Hy.
    destruct (Naive.year_in_range (Naive.seconds_utc d + east)
              && Naive.year_in_range (Naive.seconds_utc d - 86400)); [ | discriminate ].
    destruct (Naive.year_in_range (Naive.seconds_utc now + east)
              && Naive.year_in_range (Naive.seconds_utc now - 86400)); [ | discriminate ].
    injection Hx as <-. injection Hy as <-. injection Hc as <-.
    unfold Naive.timestamp_at.
    split; intros H; [ apply Z.ltb_lt | apply Z.ltb_ge ]; lia.
Qed.

Lemma naive_float_laws : FloatLaws Naive.lib.
Proof. exact (naive_float_laws_at 0). Qed.

(** C1, the counterexample.  With home directory [/home/u] and working
    directory [/home/u/work], the project [/home/u/proj] lies under the home
    directory and is stored under ["~/proj"], while its home-alias form
    [~/proj] is normalized to ["~/work/~/proj"]: a lookup with the alias form
    does not find the entry added with the absolute form. *)
Lemma home_alias_form_gets_another_key :
  is_relative_to (resolve Sample.world (Path_of_string "/home/u/proj"))
                 (home Sample.world) = true
  /\ _normalize_project_path Sample.world (Path_of_string "/home/u/proj") = "~/proj"
  /\ _normalize_project_path Sample.world (Path_of_string "~/proj") = "~/work/~/proj"
  /\ exists self',
       add_project Sample.world Naive.lib Sample.at_noon Sample.fresh
         (Path_of_string "/home/u/proj") (VList [VStr "python_dev"]) = Ok self'
       /\ get_project_info Sample.world self' (Path_of_string "/home/u/proj")
          = Ok (entry_of Naive.lib Sample.at_noon (VList [VStr "python_dev"]))
       /\ get_project_info Sample.world self' (Path_of_string "~/proj") = Ok VNone.
Proof.
  split; [ reflexivity | ].
  split; [ reflexivity | ].
  split; [ reflexivity | ].
  eexists. split; [ reflexivity | ].
  split; reflexivity.
Qed.

(** ** Adding and looking up *)

(** C2.  After [add_project] for path [P] with list [S], the lookup of [P]
    returns an entry whose ["environment_sets"] is [S] and whose
    ["last_synced"] is a string that [fromisoformat] parses, to a time that is
    not after any later reading of the clock.  A second [add_project] for [P]
    with a list [S'] keeps the keys of the ledger as they are, leaves exactly
    one entry for [P], and that entry holds [S']. *)
Theorem lookup_after_add_project (w : World) (L : DatetimeLib)
  (now later now' : datetime L) (self : ProjectMapping) (P : Path)
  (S S' : pyval) (projs : dict pyval) :
  DatetimeLaws L ->
  projects_of self = Some projs ->
  NoDup (keys projs) ->
  (timestamp L now <= timestamp L later)%Z ->
  exists self1 info,
    add_project w L now self P S = Ok self1
    /\ get_project_info w self1 P = Ok info
    /\ py_getitem info "environment_sets" = Ok S
    /\ (exists s t, py_getitem info "last_synced" = Ok (VStr s)
                    /\ fromisoformat L s = Some t
                    /\ (timestamp L t <= timestamp L later)%Z)
    /\ exists self2 projs1 projs2 info2,
         add_project w L now' self1 P S' = Ok self2
         /\ projects_of self1 = Some projs1
         /\ projects_of self2 = Some projs2
         /\ keys projs2 = keys projs1
         /\ count_key projs2 (_normalize_project_path w P) = 1
         /\ get_project_info w self2 P = Ok info2
         /\ py_getitem info2 "environment_sets" = Ok S'.
Proof.
  intros Hlaws Hp Hnd Hlater.
  set (k := _normalize_project_path w P).
  set (projs1 := dict_set projs k (entry_of L now S)).
  set (projs2 := dict_set projs1 k (entry_of L now' S')).
  assert (Hp1 : projects_of (store_projects self (VDict projs1)) = Some projs1)
    by (apply (projects_of_store self projs); exact Hp).
  assert (Hp2 : projects_of (store_projects (store_projects self (VDict projs1)) (VDict projs2))
                = Some projs2)
    by (apply (projects_of_store _ projs1); exact Hp1).
  exists (store_projects self (VDict projs1)), (entry_of L now S).
  split; [ apply add_project_spec; exact Hp | ].
  split; [ rewrite (get_project_info_spec _ _ _ _ Hp1); fold k; unfold projs1;
           rewrite dict_get_set_same; reflexivity | ].
  split; [ reflexivity | ].
  split.
  { destruct (fromisoformat_isoformat L Hlaws now) as (t & Ht & Hle).
    exists (isoformat L now), t. split; [ reflexivity | ].
    split; [ exact Ht | lia ]. }
  exists (store_projects (store_projects self (VDict projs1)) (VDict projs2)),
    projs1, projs2, (entry_of L now' S').
  split; [ apply add_project_spec; exact Hp1 | ].
  split; [ exact Hp1 | ].
  split; [ exact Hp2 | ].
  split.
  { unfold projs2. rewrite keys_dict_set.
    unfold dict_mem, projs1. rewrite dict_get_set_same. reflexivity. }
  split; [ apply count_key_dict_set, NoDup_dict_set, Hnd | ].
  split; [ rewrite (get_project_info_spec _ _ _ _ Hp2); fold k; unfold projs2;
           rewrite dict_get_set_same; reflexivity | reflexivity ].
Qed.

(** With the naive datetimes, in the fresh ledger: [/home/u/proj] is added
    at noon with two sets and a second later with one. *)
Lemma lookup_after_add_project_witness :
  exists self1 info,
    add_project Sample.world Naive.lib Sample.at_noon Sample.fresh
      (Path_of_string "/home/u/proj") (VList [VStr "env_a"; VStr "env_b"]) = Ok self1
    /\ get_project_info Sample.world self1 (Path_of_string "/home/u/proj") = Ok info
    /\ py_getitem info "environment_sets" = Ok (VList [VStr "env_a"; VStr "env_b"])
    /\ (exists s t, py_getitem info "last_synced" = Ok (VStr s)
                    /\ fromisoformat Naive.lib s = Some t
                    /\ (timestamp Naive.lib t <= timestamp Naive.lib Sample.a_second_later)%Z)
    /\ exists self2 projs1 projs2 info2,
         add_project Sample.world Naive.lib Sample.a_second_later self1
           (Path_of_string "/home/u/proj") (VList [VStr "env_c"]) = Ok self2
         /\ projects_of self1 = Some projs1
         /\ projects_of self2 = Some projs2
         /\ keys projs2 = keys projs1
         /\ count_key projs2
              (_normalize_project_path Sample.world (Path_of_string "/home/u/proj")) = 1
         /\ get_project_info Sample.world self2 (Path_of_string "/home/u/proj") = Ok info2
         /\ py_getitem info2 "environment_sets" = Ok (VList [VStr "env_c"]).
Proof.
  apply (lookup_after_add_project Sample.world Naive.lib Sample.at_noon
           Sample.a_second_later Sample.a_second_later Sample.fresh
           (Path_of_string "/home/u/proj") (VList [VStr "env_a"; VStr "env_b"])
           (VList [VStr "env_c"]) []).
  - exact NaiveFacts.laws.
  - reflexivity.
  - constructor.
  - vm_compute. discriminate.
Defined.

(** ** Values that Python can hold *)

Section PyvalInduction.
Variable P : pyval -> Prop.
Hypothesis HNone : P VNone.
Hypothesis HBool : forall b, P (VBool b).
Hypothesis HInt : forall z, P (VInt z).
Hypothesis HStr : forall s, P (VStr s).
Hypothesis HList : forall l, Forall P l -> P (VList l).
Hypothesis HDict : forall d, Forall (fun kv => P (snd kv)) d -> P (VDict d).

Fixpoint pyval_nested_ind (v : pyval) : P v :=
  match v with
  | VNone => HNone
  | VBool b => HBool b
  | VInt z => HInt z
  | VStr s => HStr s
  | VList l =>
      HList l ((fix go (l : list pyval) : Forall P l :=
                  match l with
                  | [] => Forall_nil _
                  | x :: r => Forall_cons _ (pyval_nested_ind x) (go r)
                  end) l)
  | VDict d =>
      HDict d ((fix go (d : list (string * pyval)) : Forall (fun kv => P (snd kv)) d :=
                  match d with
                  | [] => Forall_nil _
                  | kv :: r => Forall_cons _ (pyval_nested_ind (snd kv)) (go r)
                  end) d)
  end.
End PyvalInduction.

Section NodeInduction.
Variable P : node -> Prop.
Hypothesis HNull : P NNull.
Hypothesis HBool : forall b, P (NBool b).
Hypothesis HInt : forall z, P (NInt z).
Hypothesis HStr : forall s, P (NStr s).
Hypothesis HSeq : forall l, Forall P l -> P (NSeq l).
Hypothesis HMap : forall l, Forall (fun kv => P (snd kv)) l -> P (NMap l).

Fixpoint node_nested_ind (n : node) : P n :=
  match n with
  | NNull => HNull
  | NBool b => HBool b
  | NInt z => HInt z
  | NStr s => HStr s
  | NSeq l =>
      HSeq l ((fix go (l : list node) : Forall P l :=
                 match l with
                 | [] => Forall_nil _
                 | x :: r => Forall_cons _ (node_nested_ind x) (go r)
                 end) l)
  | NMap l =>
      HMap l ((fix go (l : list (string * node)) : Forall (fun kv => P (snd kv)) l :=
                 match l with
                 | [] => Forall_nil _
                 | kv :: r => Forall_cons _ (node_nested_ind (snd kv)) (go r)
                 end) l)
  end.
End NodeInduction.

Lemma forallb_dict_set (f : pyval -> bool) (d : dict pyval) (k : string) (v : pyval) :
  forallb (fun kv => f (snd kv)) d = true -> f v = true ->
  forallb (fun kv => f (snd kv)) (dict_set d k v) = true.
Proof.
  intros Hd Hv. induction d as [| [k' v'] r IH]; simpl in *.
  - rewrite Hv. reflexivity.
  - apply andb_true_iff in Hd. destruct Hd as [H1 H2].
    destruct (k' =? k)%string; simpl.
    + rewrite Hv, H2. reflexivity.
    + rewrite H1, IH; auto.
Qed.

Lemma unique_keys_dict_set {V : Type} (d : dict V) (k : string) (v : V) :
  unique_keys d = true -> unique_keys (dict_set d k v) = true.
Proof.
  rewrite !unique_keys_NoDup. apply NoDup_dict_set.
Qed.

(** Whatever [safe_load] constructs is a value Python can hold. *)
Lemma construct_well_formed (n : node) : well_formed (construct n) = true.
Proof.
  induction n as [| b | z | s | l IH | l IH] using node_nested_ind; try reflexivity.
  - simpl. induction IH as [| x r Hx _ IHr]; simpl; [ reflexivity | ].
    rewrite Hx, IHr. reflexivity.
  - simpl.
    assert (G : forall acc : dict pyval,
               unique_keys acc && forallb (fun kv => well_formed (snd kv)) acc = true ->
               let d := fold_left (fun acc kv => dict_set acc (fst kv) (construct (snd kv))) l acc in
               unique_keys d && forallb (fun kv => well_formed (snd kv)) d = true).
    { induction IH as [| kv r Hkv _ IHr]; intros acc Hacc; simpl; [ exact Hacc | ].
      apply IHr. apply andb_true_iff in Hacc. destruct Hacc as [H1 H2].
      apply andb_true_iff. split.
      - apply unique_keys_dict_set. exact H1.
      - apply forallb_dict_set; assumption. }
    apply (G []). reflexivity.
Qed.

Lemma fold_dict_set_fresh (d acc : dict pyval) :
  NoDup (keys (acc ++ d)) ->
  fold_left (fun a kv => dict_set a (fst kv) (snd kv)) d acc = acc ++ d.
Proof.
  revert acc. induction d as [| [k v] r IH]; intros acc Hnd; simpl.
  - rewrite app_nil_r. reflexivity.
  - assert (Hset : dict_set acc k v = acc ++ [(k, v)]).
    { assert (Hk : ~ In k (keys acc)).
      { unfold keys in Hnd. rewrite map_app in Hnd. simpl in Hnd.
        apply NoDup_remove_2 in Hnd. intros I. apply Hnd. apply in_or_app. auto. }
      clear - Hk. induction acc as [| [k' v'] acc IH]; simpl; [ reflexivity | ].
      destruct (String.eqb_spec k' k) as [-> | Hne].
      - exfalso. apply Hk. simpl. auto.
      - rewrite IH; [ reflexivity | ]. intros I. apply Hk. simpl. auto. }
    rewrite Hset. rewrite IH; rewrite <- app_assoc; simpl; [ reflexivity | exact Hnd ].
Qed.

(** Dumping a value and loading the document gives the value back. *)
Lemma construct_represent (v : pyval) :
  well_formed v = true -> construct (represent v) = v.
Proof.
  induction v as [| b | z | s | l IH | d IH] using pyval_nested_ind; try reflexivity.
  - simpl. intros Hwf. f_equal.
    induction IH as [| x r Hx _ IHr]; simpl in *; [ reflexivity | ].
    apply andb_true_iff in Hwf. destruct Hwf as [H1 H2].
    rewrite Hx, IHr; auto.
  - simpl. intros Hwf. apply andb_true_iff in Hwf. destruct Hwf as [Hu Hall].
    f_equal.
    rewrite <- (fold_dict_set_fresh d []) at 2
      by (simpl; apply unique_keys_NoDup; exact Hu).
    clear Hu. generalize (@nil (string * pyval)).
    induction IH as [| [k x] r Hx _ IHr]; intros acc; simpl in *; [ reflexivity | ].
    apply andb_true_iff in Hall. destruct Hall as [H1 H2].
    rewrite Hx by exact H1. apply IHr. exact H2.
Qed.

(** ** [sorted] *)

Lemma insert_item_perm {V : Type} (x : string * V) (l : list (string * V)) :
  Permutation (insert_item x l) (x :: l).
Proof.
  induction l as [| y l IH]; simpl; [ reflexivity | ].
  destruct (fst x <=? fst y)%string; [ reflexivity | ].
  rewrite IH. apply perm_swap.
Qed.

Lemma sorted_items_perm {V : Type} (l : list (string * V)) :
  Permutation (sorted_items l) l.
Proof.
  induction l as [| x l IH]; simpl; [ reflexivity | ].
  rewrite insert_item_perm, IH. reflexivity.
Qed.

Lemma insert_item_sorted {V : Type} (x : string * V) (l : list (string * V)) :
  Sorted key_le l -> Sorted key_le (insert_item x l).
Proof.
  induction l as [| y l IH]; simpl; intros Hs.
  - repeat constructor.
  - destruct (fst x <=? fst y)%string eqn:E.
    + constructor; [ exact Hs | constructor; exact E ].
    + inversion Hs as [| ? ? Hs' Hhd]; subst.
      constructor; [ apply IH; exact Hs' | ].
      assert (Hyx : key_le y x).
      { unfold key_le. destruct (String.leb_total (fst x) (fst y)); congruence. }
      destruct l as [| z l]; simpl.
      * constructor; exact Hyx.
      * destruct (fst x <=? fst z)%string; constructor; [ exact Hyx | ].
        inversion Hhd; assumption.
Qed.

Lemma sorted_items_sorted {V : Type} (l : list (string * V)) :
  Sorted key_le (sorted_items l).
Proof.
  induction l as [| x l IH]; simpl; [ constructor | apply insert_item_sorted; exact IH ].
Qed.

Lemma sorted_items_keys_ascending {V : Type} (l : list (string * V)) :
  Sorted (fun a b => (a <=? b)%string = true) (keys (sorted_items l)).
Proof.
  pose proof (sorted_items_sorted l) as H.
  induction H as [| a r Hs IH Hhd]; simpl; constructor; [ exact IH | ].
  destruct Hhd; simpl; constructor; assumption.
Qed.

Lemma NoDup_keys_perm {V : Type} (a b : list (string * V)) :
  Permutation a b -> NoDup (keys a) -> NoDup (keys b).
Proof.
  intros Hp. apply Permutation_NoDup. unfold keys. apply Permutation_map. exact Hp.
Qed.

Lemma dict_get_perm {V : Type} (a b : dict V) (k : string) :
  Permutation a b -> NoDup (keys a) -> dict_get b k = dict_get a k.
Proof.
  intros Hp Hnd. pose proof (NoDup_keys_perm a b Hp Hnd) as Hnd'.
  destruct (dict_get a k) as [v |] eqn:E.
  - apply In_dict_get; [ exact Hnd' | ].
    apply (Permutation_in _ Hp). apply dict_get_Some_In. exact E.
  - apply dict_get_None. apply dict_get_None in E. intros I. apply E.
    unfold keys in *. apply (Permutation_in _ (Permutation_map fst (Permutation_sym Hp))).
    exact I.
Qed.

(** ** The backing file *)

Lemma names_eqb_refl (k : list string) : names_eqb k k = true.
Proof.
  induction k as [| x k IH]; simpl; [ reflexivity | ].
  rewrite String.eqb_refl. exact IH.
Qed.

Lemma names_eqb_eq (a b : list string) : names_eqb a b = true <-> a = b.
Proof.
  revert b. induction a as [| x a IH]; intros [| y b]; simpl; split; intros H;
    try reflexivity; try discriminate.
  - apply andb_true_iff in H. destruct H as [H1 H2].
    apply String.eqb_eq in H1. apply IH in H2. congruence.
  - injection H as -> ->. rewrite String.eqb_refl. apply names_eqb_refl.
Qed.

Lemma names_prefix_firstn (i : nat) (k : list string) : names_prefix (firstn i k) k = true.
Proof.
  revert i. induction k as [| x k IH]; intros [| i]; simpl; try reflexivity.
  rewrite String.eqb_refl. apply IH.
Qed.

Lemma names_prefix_refl (k : list string) : names_prefix k k = true.
Proof.
  rewrite <- (firstn_all k) at 1. apply names_prefix_firstn.
Qed.

Lemma names_prefix_longer (k : list string) (x : string) : names_prefix (k ++ [x]) k = false.
Proof.
  induction k as [| y k IH]; simpl; [ reflexivity | ].
  rewrite IH. apply andb_false_r.
Qed.

Lemma truediv_filename (tdir : Path) :
  truediv tdir MAPPING_FILENAME
  = {| root := root tdir; names := names tdir ++ [MAPPING_FILENAME] |}.
Proof. reflexivity. Qed.

Lemma parent_truediv_filename (tdir : Path) : parent (truediv tdir MAPPING_FILENAME) = tdir.
Proof.
  rewrite truediv_filename. unfold parent. simpl.
  rewrite removelast_last. destruct tdir; reflexivity.
Qed.

Lemma locate_truediv_filename (w : World) (tdir : Path) :
  locate w (truediv tdir MAPPING_FILENAME) = locate w tdir ++ [MAPPING_FILENAME].
Proof.
  rewrite truediv_filename. unfold locate, absolute. simpl.
  destruct (root tdir); simpl; rewrite ?app_assoc; reflexivity.
Qed.

Lemma answers_true (fs : filesystem) (k : list string) :
  answers fs k = true <-> stat_error fs k = None.
Proof.
  unfold answers. destruct (stat_error fs k); split; congruence.
Qed.

Lemma can_write_facts (w : World) (fs : filesystem) (self : ProjectMapping) :
  can_write w fs self = true ->
  stat_error fs (locate w (templates_dir self)) = None
  /\ stat_error fs (locate w (mapping_path self)) = None
  /\ blocked_by_file fs (locate w (templates_dir self)) = false
  /\ is_dir fs (locate w (mapping_path self)) = false
  /\ match file_at fs (locate w (mapping_path self)) with
     | Some f => writable f
     | None => true
     end = true.
Proof.
  unfold can_write. rewrite !andb_true_iff, !negb_true_iff, !answers_true. tauto.
Qed.

Lemma save_mapping_spec (w : World) (fs : filesystem) (self : ProjectMapping)
  (projs : dict pyval) :
  initialised self ->
  projects_of self = Some projs ->
  can_write w fs self = true ->
  exists fs' f,
    save_mapping w fs self = Ok (store_projects self (VDict (sorted_items projs)), fs')
    /\ file_at fs' (locate w (mapping_path self)) = Some f
    /\ text f = dump (mapping_data (store_projects self (VDict (sorted_items projs))))
    /\ (can_read w fs self = true -> readable f = true)
    /\ is_dir fs' (locate w (mapping_path self)) = false
    /\ (forall k, names_prefix k (locate w (templates_dir self)) = true -> is_dir fs' k = true)
    /\ stat_error fs' (locate w (mapping_path self)) = None.
Proof.
  intros Hinit Hp Hw.
  destruct (can_write_facts w fs self Hw) as (Hst & Hsm & Hblocked & Hnodir & Hfile).
  pose proof (projects_of_getitem _ _ Hp) as Hget.
  unfold save_mapping, can_read. rewrite Hinit in *.
  rewrite parent_truediv_filename. unfold mkdir_parents. rewrite Hst, Hblocked.
  cbn [bind]. rewrite Hget. cbn [bind py_items].
  unfold projects_of in Hp. destruct (mapping_data self) as [| | | | | d] eqn:Hd; try discriminate.
  cbn [py_setitem bind mapping_path mapping_data].
  unfold open_write. cbn [is_dir file_at stat_error]. rewrite Hsm.
  rewrite locate_truediv_filename in *.
  rewrite names_prefix_longer, Hnodir. cbn [orb].
  rewrite removelast_last, names_prefix_refl. cbn [orb negb].
  unfold store_projects. rewrite Hd, ?Hinit.
  destruct (file_at fs (locate w (templates_dir self) ++ [MAPPING_FILENAME])) as [f |] eqn:Hf.
  - rewrite Hfile. cbn [bind]. eexists. eexists.
    split; [ reflexivity | ]. cbn [file_at is_dir mapping_data].
    rewrite names_eqb_refl, names_prefix_longer, Hnodir.
    split; [ reflexivity | ]. split; [ reflexivity | ].
    split; [ intros H; exact H | ]. split; [ reflexivity | ].
    split; [ intros k Hk; rewrite Hk; reflexivity | exact Hsm ].
  - cbn [bind]. eexists. eexists.
    split; [ reflexivity | ]. cbn [file_at is_dir mapping_data].
    rewrite names_eqb_refl, names_prefix_longer, Hnodir.
    split; [ reflexivity | ]. split; [ reflexivity | ].
    split; [ reflexivity | ]. split; [ reflexivity | ].
    split; [ intros k Hk; rewrite Hk; reflexivity | exact Hsm ].
Qed.

Lemma dict_get_map {A B : Type} (f : A -> B) (d : dict A) (k : string) :
  dict_get (map (fun kv => (fst kv, f (snd kv))) d) k = option_map f (dict_get d k).
Proof.
  induction d as [| [k' v] r IH]; simpl; [ reflexivity | ].
  destruct (k' =? k)%string; [ reflexivity | exact IH ].
Qed.

Lemma keys_map_values {A B : Type} (f : A -> B) (d : dict A) :
  keys (map (fun kv => (fst kv, f (snd kv))) d) = keys d.
Proof.
  unfold keys. rewrite map_map. reflexivity.
Qed.

(** C7.  For a ledger that has its dict of projects, on a file system that
    lets the backing file be written, [save_mapping] succeeds; the document it
    writes has the key ["projects"], also when there is no entry; under that
    key stand all the entries, each written as it is, with their keys in
    ascending order; and afterwards the directory of the backing file and every
    directory above it exist. *)
Theorem save_mapping_writes_sorted_projects (w : World) (fs : filesystem)
  (self : ProjectMapping) (projs : dict pyval) :
  initialised self ->
  projects_of self = Some projs ->
  can_write w fs self = true ->
  exists self' fs' f doc written,
    save_mapping w fs self = Ok (self', fs')
    /\ file_at fs' (locate w (mapping_path self)) = Some f
    /\ text f = Document doc
    /\ node_get doc "projects" = Some (NMap written)
    /\ written = map (fun kv => (fst kv, represent (snd kv))) (sorted_items projs)
    /\ Sorted (fun a b => (a <=? b)%string = true) (keys written)
    /\ Permutation (keys written) (keys projs)
    /\ (projs = [] -> written = [])
    /\ (forall i, is_dir fs' (firstn i (locate w (templates_dir self))) = true).
Proof.
  intros Hinit Hp Hw.
  destruct (save_mapping_spec w fs self projs Hinit Hp Hw)
    as (fs' & f & Hsave & Hfile & Htext & _ & _ & Hdirs & _).
  exists (store_projects self (VDict (sorted_items projs))), fs', f.
  unfold projects_of in Hp. unfold store_projects in Htext.
  destruct (mapping_data self) as [| | | | | d] eqn:Hd; try discriminate.
  cbn [mapping_data] in Htext. unfold dump in Htext. cbn [represent] in Htext.
  eexists. exists (map (fun kv => (fst kv, represent (snd kv))) (sorted_items projs)).
  split; [ exact Hsave | ]. split; [ exact Hfile | ]. split; [ exact Htext | ].
  split.
  { cbn [node_get]. rewrite dict_get_map, dict_get_set_same. reflexivity. }
  split; [ reflexivity | ].
  rewrite keys_map_values.
  split; [ apply sorted_items_keys_ascending | ].
  split; [ unfold keys; apply Permutation_map, sorted_items_perm | ].
  split; [ intros ->; reflexivity | ].
  intros i. apply Hdirs, names_prefix_firstn.
Qed.

Lemma well_formed_sorted_items (projs : dict pyval) :
  well_formed (VDict projs) = true -> well_formed (VDict (sorted_items projs)) = true.
Proof.
  simpl. rewrite !andb_true_iff, !unique_keys_NoDup, !forallb_forall.
  intros [Hnd Hall]. split.
  - apply (NoDup_keys_perm projs); [ symmetry; apply sorted_items_perm | exact Hnd ].
  - intros kv I. apply Hall. apply (Permutation_in _ (sorted_items_perm projs)). exact I.
Qed.

Lemma well_formed_projects (self : ProjectMapping) (projs : dict pyval) :
  projects_of self = Some projs ->
  well_formed (mapping_data self) = true ->
  well_formed (VDict projs) = true.
Proof.
  unfold projects_of. destruct (mapping_data self) as [| | | | | d]; try discriminate.
  destruct (dict_get d "projects") as [[| | | | | q] |] eqn:E; try discriminate.
  intros H. injection H as ->. simpl well_formed at 1.
  rewrite andb_true_iff, forallb_forall. intros [_ Hall].
  apply dict_get_Some_In in E. apply (Hall _ E).
Qed.

Lemma well_formed_store (self : ProjectMapping) (projs : pyval) :
  well_formed (mapping_data self) = true ->
  well_formed projs = true ->
  well_formed (mapping_data (store_projects self projs)) = true.
Proof.
  unfold store_projects. simpl. destruct (mapping_data self) as [| | | | | d]; auto.
  simpl. rewrite !andb_true_iff. intros [Hu Hall] Hv. split.
  - apply unique_keys_dict_set. exact Hu.
  - apply forallb_dict_set; assumption.
Qed.

Lemma dict_set_truthy (d : dict pyval) (k : string) (v : pyval) :
  truthy (VDict (dict_set d k v)) = true.
Proof.
  destruct d as [| [k' v'] r]; simpl; [ reflexivity | ].
  destruct (k' =? k)%string; reflexivity.
Qed.

(** C4.  For a ledger Python can hold, on a file system that lets the backing
    file be written and read, saving and then building a new object from the
    same templates directory loads, without a warning, the data that was
    saved: the entries of the new object are the entries of the old one in
    another order, and under every key both hold the same entry, so the same
    environment-set list and the same timestamp. *)
Theorem save_then_load_round_trip (w : World) (fs : filesystem)
  (self : ProjectMapping) (projs : dict pyval) :
  initialised self ->
  projects_of self = Some projs ->
  well_formed (mapping_data self) = true ->
  can_write w fs self = true ->
  can_read w fs self = true ->
  exists self' fs' self2 projs2,
    save_mapping w fs self = Ok (self', fs')
    /\ init w fs' (templates_dir self) = Ok (self2, [])
    /\ mapping_data self2 = mapping_data self'
    /\ projects_of self2 = Some projs2
    /\ Permutation projs2 projs
    /\ (forall k, dict_get projs2 k = dict_get projs k)
    /\ (forall P, get_project_info w self2 P = get_project_info w self P).
Proof.
  intros Hinit Hp Hwf Hw Hr.
  destruct (save_mapping_spec w fs self projs Hinit Hp Hw)
    as (fs' & f & Hsave & Hfile & Htext & Hread & Hnodir & _ & Hstat).
  specialize (Hread Hr).
  set (self' := store_projects self (VDict (sorted_items projs))) in *.
  assert (Hp' : projects_of self' = Some (sorted_items projs))
    by (apply (projects_of_store self projs); exact Hp).
  assert (Hwf' : well_formed (mapping_data self') = true).
  { apply well_formed_store; [ exact Hwf | ].
    apply well_formed_sorted_items, (well_formed_projects self); assumption. }
  assert (Hload : _load_mapping w fs' (mapping_path self) = Ok (mapping_data self', [])).
  { unfold _load_mapping, path_exists, on_disk, open_read.
    rewrite Hstat, Hfile, Hnodir, Hread. cbn [orb negb bind try_except].
    rewrite Htext. unfold dump, safe_load. cbn [bind].
    rewrite construct_represent by exact Hwf'.
    unfold projects_of in Hp'.
    destruct (mapping_data self') as [| | | | | d'] eqn:Hd'; try discriminate.
    assert (Ht : truthy (VDict d') = true).
    { unfold self', store_projects in Hd'. simpl in Hd'.
      destruct (mapping_data self); try discriminate.
      injection Hd' as <-. apply dict_set_truthy. }
    unfold py_or. rewrite Ht. cbn [py_contains bind]. unfold dict_mem.
    destruct (dict_get d' "projects"); [ reflexivity | discriminate ]. }
  exists self', fs'.
  exists {| templates_dir := templates_dir self;
            mapping_path := truediv (templates_dir self) MAPPING_FILENAME;
            mapping_data := mapping_data self' |}.
  exists (sorted_items projs).
  assert (Hnd : NoDup (keys projs)).
  { pose proof (well_formed_projects self projs Hp Hwf) as H. simpl in H.
    apply andb_true_iff in H. apply unique_keys_NoDup. tauto. }
  split; [ exact Hsave | ].
  split; [ unfold init; rewrite <- Hinit, Hload; reflexivity | ].
  split; [ reflexivity | ].
  split; [ exact Hp' | ].
  split; [ apply sorted_items_perm | ].
  split.
  - intros k. apply dict_get_perm; [ symmetry; apply sorted_items_perm | exact Hnd ].
  - intros P. rewrite (get_project_info_spec w self P projs Hp).
    rewrite (get_project_info_spec w _ P (sorted_items projs)) by exact Hp'.
    rewrite (dict_get_perm projs (sorted_items projs));
      [ reflexivity | symmetry; apply sorted_items_perm | exact Hnd ].
Qed.

(** ** Saving at worked values *)

(** Two projects added in descending order are saved where no templates
    directory exists yet. *)
Lemma save_mapping_writes_sorted_projects_witness :
  exists self' fs' f doc written,
    save_mapping Sample.world SampleFs.bare SampleFs.two_projects = Ok (self', fs')
    /\ file_at fs' (locate Sample.world (mapping_path SampleFs.two_projects)) = Some f
    /\ text f = Document doc
    /\ node_get doc "projects" = Some (NMap written)
    /\ written = map (fun kv => (fst kv, represent (snd kv)))
                     (sorted_items
                        [("/project2", SampleFs.entry ["env_b"; "env_c"] "2024-03-10T12:00:00");
                         ("/project1", SampleFs.entry ["env_a"] "2024-03-08T12:00:00")])
    /\ Sorted (fun a b => (a <=? b)%string = true) (keys written)
    /\ Permutation (keys written) ["/project2"; "/project1"]
    /\ ([("/project2", SampleFs.entry ["env_b"; "env_c"] "2024-03-10T12:00:00");
         ("/project1", SampleFs.entry ["env_a"] "2024-03-08T12:00:00")] = [] -> written = [])
    /\ (forall i, is_dir fs' (firstn i (locate Sample.world
                                          (templates_dir SampleFs.two_projects))) = true).
Proof.
  apply (save_mapping_writes_sorted_projects Sample.world SampleFs.bare
           SampleFs.two_projects
           [("/project2", SampleFs.entry ["env_b"; "env_c"] "2024-03-10T12:00:00");
            ("/project1", SampleFs.entry ["env_a"] "2024-03-08T12:00:00")]).
  - reflexivity.
  - reflexivity.
  - reflexivity.
Defined.

(** The same two projects, saved and loaded again. *)
Lemma save_then_load_round_trip_witness :
  exists self' fs' self2 projs2,
    save_mapping Sample.world SampleFs.bare SampleFs.two_projects = Ok (self', fs')
    /\ init Sample.world fs' (templates_dir SampleFs.two_projects) = Ok (self2, [])
    /\ mapping_data self2 = mapping_data self'
    /\ projects_of self2 = Some projs2
    /\ Permutation projs2
         [("/project2", SampleFs.entry ["env_b"; "env_c"] "2024-03-10T12:00:00");
          ("/project1", SampleFs.entry ["env_a"] "2024-03-08T12:00:00")]
    /\ (forall k, dict_get projs2 k
                  = dict_get
                      [("/project2", SampleFs.entry ["env_b"; "env_c"] "2024-03-10T12:00:00");
                       ("/project1", SampleFs.entry ["env_a"] "2024-03-08T12:00:00")] k)
    /\ (forall P, get_project_info Sample.world self2 P
                  = get_project_info Sample.world SampleFs.two_projects P).
Proof.
  apply (save_then_load_round_trip Sample.world SampleFs.bare SampleFs.two_projects
           [("/project2", SampleFs.entry ["env_b"; "env_c"] "2024-03-10T12:00:00");
            ("/project1", SampleFs.entry ["env_a"] "2024-03-08T12:00:00")]).
  - reflexivity.
  - reflexivity.
  - reflexivity.
  - reflexivity.
  - reflexivity.
Defined.

(** ** Loading *)

Lemma load_mapping_total (w : World) (fs : filesystem) (path : Path) (present : bool) :
  path_exists w fs path = Ok present ->
  exists data out, _load_mapping w fs path = Ok (data, out).
Proof.
  intros H. unfold _load_mapping. rewrite H. cbn [bind].
  destruct present; simpl; [ | eauto ].
  match goal with
  | |- exists data out, try_except ?m _ = _ => destruct m as [[data out] | e]; simpl; eauto
  end.
Qed.

(** C3 (as amended).  Once the existence test on the backing file has
    answered, [_load_mapping] does not raise.  A missing file gives
    [{"projects": {}}] and no warning.  A file that cannot be read, or whose
    text does not parse, gives the empty ledger after one warning.  A
    document that loads as a falsy value (the empty document, an empty
    sequence, [0], [false], the empty string, an empty mapping) gives the
    empty ledger and no warning.  A document that loads as a truthy value
    other than a mapping, and in which ["projects"] is not found, gives the
    empty ledger after one warning. *)
Theorem load_mapping_never_raises (w : World) (fs : filesystem) (path : Path) :
  (forall present, path_exists w fs path = Ok present ->
                   exists data out, _load_mapping w fs path = Ok (data, out))
  /\ (path_exists w fs path = Ok false ->
      _load_mapping w fs path = Ok (empty_mapping, []))
  /\ (path_exists w fs path = Ok true ->
      forall e, open_read w fs path = Raise e ->
      _load_mapping w fs path = Ok (empty_mapping, [load_warning e]))
  /\ (path_exists w fs path = Ok true ->
      open_read w fs path = Ok Garbage ->
      exists e, _load_mapping w fs path = Ok (empty_mapping, [load_warning e]))
  /\ (forall n,
      path_exists w fs path = Ok true ->
      open_read w fs path = Ok (Document n) ->
      truthy (construct n) = false ->
      _load_mapping w fs path = Ok (empty_mapping, []))
  /\ (forall n,
      path_exists w fs path = Ok true ->
      open_read w fs path = Ok (Document n) ->
      truthy (construct n) = true ->
      (forall d, construct n <> VDict d) ->
      py_contains (construct n) "projects" <> Ok true ->
      exists e, _load_mapping w fs path = Ok (empty_mapping, [load_warning e])).
Proof.
  split; [ intros present; apply load_mapping_total | ].
  split.
  { intros H. unfold _load_mapping. rewrite H. reflexivity. }
  split.
  { intros H e He. unfold _load_mapping. rewrite H, He. reflexivity. }
  split.
  { intros H Hg. unfold _load_mapping. rewrite H, Hg. simpl. eauto. }
  split.
  { intros n H Hd Hf. unfold _load_mapping. rewrite H, Hd. simpl.
    unfold py_or. rewrite Hf. reflexivity. }
  intros n H Hd Ht Hnd Hc. unfold _load_mapping. rewrite H, Hd. simpl.
  unfold py_or. rewrite Ht.
  destruct (construct n) as [| b | z | s | l | d]; simpl in *; eauto.
  - destruct (substring_of "projects" s); [ congruence | simpl; eauto ].
  - destruct (existsb (eq_str "projects") l); [ congruence | simpl; eauto ].
  - exfalso. apply (Hnd d). reflexivity.
Qed.

(** C3, the counterexample.  A backing file whose text is the empty
    sequence [[]] parses to a value that is no mapping, and loading it gives
    the empty ledger without any warning.  And where the system refuses the
    existence test (the templates directory may not be searched), the error
    is not turned into a warning: [_load_mapping] raises it. *)
Lemma empty_sequence_loads_without_warning :
  safe_load (Document (NSeq [])) = Ok (VList [])
  /\ _load_mapping Sample.world (SampleFs.holding (Document (NSeq [])))
       (mapping_path Sample.fresh) = Ok (empty_mapping, [])
  /\ path_exists Sample.world SampleFs.refusing (mapping_path Sample.fresh)
     = Raise (OSError "Permission denied")
  /\ _load_mapping Sample.world SampleFs.refusing (mapping_path Sample.fresh)
     = Raise (OSError "Permission denied").
Proof.
  repeat split; reflexivity.
Qed.

(** What [_load_mapping] does with three more files: an unreadable one, a
    sequence without ["projects"], and the scalar [projects], which it hands
    back as it is. *)
Lemma load_mapping_examples :
  _load_mapping Sample.world SampleFs.unreadable (mapping_path Sample.fresh)
  = Ok (empty_mapping, ["Warning: Error loading project mapping: Permission denied"])
  /\ _load_mapping Sample.world (SampleFs.holding (Document (NSeq [NStr "a"])))
       (mapping_path Sample.fresh)
     = Ok (empty_mapping,
           ["Warning: Error loading project mapping: list indices must be integers or slices, not str"])
  /\ _load_mapping Sample.world (SampleFs.holding (Document (NStr "projects")))
       (mapping_path Sample.fresh)
     = Ok (VStr "projects", []).
Proof.
  repeat split; reflexivity.
Qed.

(** ** Loops that collect *)

Lemma for_each_collect {A B : Type} (xs : list A) (keep : A -> bool) (f : A -> B)
  (body : list B -> A -> result (list B)) (acc : list B) :
  (forall acc x, In x xs -> body acc x = Ok (if keep x then acc ++ [f x] else acc)) ->
  for_each xs body acc = Ok (acc ++ map f (filter keep xs)).
Proof.
  revert acc. induction xs as [| x xs IH]; intros acc Hbody; simpl.
  - rewrite app_nil_r. reflexivity.
  - rewrite Hbody by (simpl; auto). simpl.
    rewrite IH by (intros; apply Hbody; simpl; auto).
    destruct (keep x); simpl; [ rewrite <- app_assoc | ]; reflexivity.
Qed.

Lemma with_path_dict (d : dict pyval) (k : string) :
  with_path (VDict d) k = Ok (annotated (k, VDict d)).
Proof. reflexivity. Qed.

(** ** Staleness *)

Lemma needs_sync_iff_spec (L : DatetimeLib) (cutoff : float L) (info : pyval) :
  DatetimeLaws L ->
  needs_sync L cutoff info = true <-> needs_sync_spec L cutoff info.
Proof.
  intros Hlaws. unfold needs_sync, needs_sync_spec.
  destruct info as [| | | | | d]; simpl;
    try (split; [ discriminate | intros [[] | [[] | [[] | []]]] ]).
  destruct (dict_get d "last_synced") as [v |] eqn:E.
  - split.
    + intros H. right.
      destruct v as [| b | z | s | l | d']; simpl in H;
        try (left; eexists; split; [ reflexivity | exact I ]).
      destruct (String.eqb_spec s "") as [-> | Hne]; simpl in H.
      * left. eexists. split; [ reflexivity | ]. apply (fromisoformat_empty L Hlaws).
      * destruct (fromisoformat L s) as [t |] eqn:Ep.
        -- right. destruct (posix_timestamp L t) as [x |] eqn:Ex.
           ++ right. exists s, t, x. auto.
           ++ left. exists s, t. auto.
        -- left. eexists. split; [ reflexivity | exact Ep ].
    + intros [H | [(v' & Hv & Hu) | [(s & t & Hv & Hp & Hx)
                                    | (s & t & x & Hv & Hp & Hx & Hlt)]]];
        [ discriminate | | | ].
      * injection Hv as <-. destruct (truthy v); [ | reflexivity ].
        destruct v; try reflexivity. rewrite Hu. reflexivity.
      * injection Hv as ->. destruct (truthy (VStr s)); [ | reflexivity ].
        rewrite Hp, Hx. reflexivity.
      * injection Hv as ->. destruct (truthy (VStr s)); [ | reflexivity ].
        rewrite Hp, Hx. exact Hlt.
  - split; [ auto | reflexivity ].
Qed.

Lemma cutoff_of_steps (L : DatetimeLib) (now : datetime L) (hours : Z) (cutoff : float L) :
  cutoff_of L now hours = Some cutoff ->
  exists x, posix_timestamp L now = Some x
            /\ float_minus_int L x (hours * 3600) = Some cutoff.
Proof.
  unfold cutoff_of. destruct (posix_timestamp L now) as [x |]; [ | discriminate ].
  intros H. exists x. auto.
Qed.

Lemma find_projects_needing_sync_spec (L : DatetimeLib) (now : datetime L)
  (self : ProjectMapping) (hours : Z) (projs : dict pyval) (cutoff : float L) :
  cutoff_of L now hours = Some cutoff ->
  projects_of self = Some projs ->
  entries_are_dicts projs = true ->
  find_projects_needing_sync L now self hours
  = Ok (map annotated (filter (fun kv => needs_sync L cutoff (snd kv)) projs)).
Proof.
  intros Hc Hp Hd. destruct (cutoff_of_steps L now hours cutoff Hc) as (x & Hx & Hm).
  unfold find_projects_needing_sync, py_timestamp, py_float_sub_int.
  rewrite Hx. cbn [bind]. rewrite Hm. cbn [bind].
  rewrite (projects_of_getitem _ _ Hp). cbn [bind py_items].
  rewrite (for_each_collect projs (fun kv => needs_sync L cutoff (snd kv)) annotated);
    [ reflexivity | ].
  intros acc [k info] I.
  unfold entries_are_dicts in Hd. rewrite forallb_forall in Hd.
  specialize (Hd _ I). simpl in Hd. destruct info as [| | | | | d]; try discriminate.
  cbn [py_get snd needs_sync]. rewrite with_path_dict.
  destruct (dict_get d "last_synced") as [v |]; cbn [bind]; [ | reflexivity ].
  destruct (truthy v); [ | reflexivity ].
  destruct v as [| b | z | s | l | d']; try reflexivity.
  cbn [py_fromisoformat]. destruct (fromisoformat L s) as [t |]; cbn [bind try_except].
  - destruct (posix_timestamp L t) as [y |]; cbn [bind try_except]; [ | reflexivity ].
    destruct (float_lt L y cutoff); reflexivity.
  - reflexivity.
Qed.

(** C5 (as amended).  Where the cutoff can be computed, over a ledger whose
    entries are dicts, [find_projects_needing_sync] returns, in the order of
    the ledger and each with its path added, exactly the entries whose
    timestamp is absent, or cannot be parsed, or parses to a time that
    [timestamp()] does not convert, or is older than the threshold as the
    floats compare.  In particular, with a threshold of 24 hours, of an entry
    stamped 48 hours ago, an entry stamped 12 hours ago and an entry
    without a timestamp it returns the first and the last. *)
Theorem find_projects_needing_sync_exact (L : DatetimeLib) (now : datetime L) :
  DatetimeLaws L ->
  FloatLaws L ->
  (forall (self : ProjectMapping) (hours : Z) (cutoff : float L) (projs : dict pyval),
      cutoff_of L now hours = Some cutoff ->
      projects_of self = Some projs ->
      entries_are_dicts projs = true ->
      exists stale,
        find_projects_needing_sync L now self hours = Ok (map annotated stale)
        /\ stale = filter (fun kv => needs_sync L cutoff (snd kv)) projs
        /\ (forall kv, In kv stale <-> In kv projs /\ needs_sync_spec L cutoff (snd kv)))
  /\ (forall (self : ProjectMapping) (cutoff x_recent : float L) (s_old s_recent : string)
             (old recent : datetime L) (p1 p2 p3 : string) (S1 S2 S3 : pyval),
         cutoff_of L now 24 = Some cutoff ->
         fromisoformat L s_old = Some old ->
         (timestamp L now - timestamp L old = 48 * 3600 * 1000000)%Z ->
         fromisoformat L s_recent = Some recent ->
         (timestamp L now - timestamp L recent = 12 * 3600 * 1000000)%Z ->
         posix_timestamp L recent = Some x_recent ->
         projects_of self
         = Some [(p1, VDict [("environment_sets", S1); ("last_synced", VStr s_old)]);
                 (p2, VDict [("environment_sets", S2); ("last_synced", VStr s_recent)]);
                 (p3, VDict [("environment_sets", S3)])] ->
         find_projects_needing_sync L now self 24
         = Ok [VDict [("environment_sets", S1); ("last_synced", VStr s_old);
                      ("path", VStr p1)];
               VDict [("environment_sets", S3); ("path", VStr p3)]]).
Proof.
  intros Hlaws Hfl. split.
  - intros self hours cutoff projs Hc Hp Hd.
    exists (filter (fun kv => needs_sync L cutoff (snd kv)) projs).
    split; [ apply find_projects_needing_sync_spec; assumption | ].
    split; [ reflexivity | ].
    intros kv. rewrite filter_In, (needs_sync_iff_spec L cutoff (snd kv) Hlaws).
    reflexivity.
  - intros self cutoff x_recent s_old s_recent old recent p1 p2 p3 S1 S2 S3
      Hc Hpo Hold Hpr Hrecent Hxr Hp.
    rewrite (find_projects_needing_sync_spec L now self 24 _ cutoff Hc Hp) by reflexivity.
    destruct (cutoff_of_steps L now 24 cutoff Hc) as (y & Hy & Hm).
    assert (Ho : needs_sync L cutoff
                   (VDict [("environment_sets", S1); ("last_synced", VStr s_old)])
                 = true).
    { apply (needs_sync_iff_spec _ _ _ Hlaws). right. right.
      destruct (posix_timestamp L old) as [x |] eqn:Ex.
      - right. exists s_old, old, x. split; [ reflexivity | ].
        split; [ exact Hpo | ]. split; [ exact Ex | ].
        apply (float_lt_apart L Hfl old now x y cutoff (24 * 3600)); try assumption; lia.
      - left. exists s_old, old. auto. }
    assert (Hr : needs_sync L cutoff
                   (VDict [("environment_sets", S2); ("last_synced", VStr s_recent)])
                 = false).
    { unfold needs_sync. cbn [dict_get String.eqb Ascii.eqb Bool.eqb].
      assert (Ht : truthy (VStr s_recent) = true).
      { cbn [truthy]. destruct (String.eqb_spec s_recent "") as [-> | Hne]; [ | reflexivity ].
        rewrite (fromisoformat_empty L Hlaws) in Hpr. discriminate. }
      rewrite Ht, Hpr, Hxr.
      apply (float_lt_apart L Hfl recent now x_recent y cutoff (24 * 3600));
        try assumption; lia. }
    cbn [filter snd]. rewrite Ho, Hr. reflexivity.
Qed.

(** ** Cleaning up *)

Lemma listed_In (ks : list string) (k : string) : listed ks k = true <-> In k ks.
Proof.
  unfold listed. rewrite existsb_exists. split.
  - intros (k' & I & E). apply String.eqb_eq in E. subst. exact I.
  - intros I. exists k. split; [ exact I | apply String.eqb_refl ].
Qed.

Lemma filter_filter {A : Type} (f g : A -> bool) (l : list A) :
  filter f (filter g l) = filter (fun x => g x && f x) l.
Proof.
  induction l as [| x l IH]; simpl; [ reflexivity | ].
  destruct (g x); simpl; [ destruct (f x); rewrite IH; reflexivity | exact IH ].
Qed.

Lemma cleanup_loop (w : World) (fs : filesystem) (ks : list string) :
  forall (cur : dict pyval) (removed : list string),
    NoDup ks ->
    NoDup (keys cur) ->
    incl ks (keys cur) ->
    forallb (examinable w fs) ks = true ->
    for_each ks
      (fun '(projects, removed) project_path =>
         expanded_path <- expanduser w (Path_of_string project_path) ;;
         present <- path_exists w fs expanded_path ;;
         if negb present then
           projects <- py_delitem projects project_path ;;
           Ok (projects, removed ++ [project_path])
         else Ok (projects, removed))
      (VDict cur, removed)
    = Ok (VDict (filter (fun kv => negb (listed ks (fst kv) && gone w fs (fst kv))) cur),
          removed ++ filter (gone w fs) ks).
Proof.
  induction ks as [| k ks IH]; intros cur removed Hks Hcur Hincl Hexp.
  - simpl. rewrite app_nil_r.
    rewrite forallb_filter_id; [ reflexivity | apply forallb_forall; reflexivity ].
  - inversion Hks as [| ? ? Hk Hks']; subst.
    cbn [forallb] in Hexp. apply andb_true_iff in Hexp. destruct Hexp as [Hek Hexp].
    cbn [for_each filter]. unfold examinable in Hek. unfold gone at 2.
    destruct (expanduser w (Path_of_string k)) as [p | e] eqn:Ep; [ | discriminate ].
    apply answers_true in Hek.
    assert (Hpe : path_exists w fs p = Ok (on_disk w fs p))
      by (unfold path_exists; rewrite Hek; reflexivity).
    cbn [bind]. rewrite !Hpe. cbn [bind].
    assert (Hpred : forall (b : bool) (kv : string * pyval),
               gone w fs k = b ->
               negb (listed (k :: ks) (fst kv) && gone w fs (fst kv))
               = negb ((fst kv =? k)%string && b)
                 && negb (listed ks (fst kv) && gone w fs (fst kv))).
    { intros b kv Hb. unfold listed. cbn [existsb].
      rewrite (String.eqb_sym k (fst kv)).
      destruct (String.eqb_spec (fst kv) k) as [-> | Hne]; simpl; [ | reflexivity ].
      rewrite Hb. destruct b; simpl; [ reflexivity | ].
      rewrite andb_false_r. reflexivity. }
    destruct (on_disk w fs p) eqn:Hex; cbn [negb bind].
    + rewrite IH; auto;
        [ | intros k' I; apply Hincl; simpl; auto ].
      rewrite (filter_ext (fun kv => negb (listed (k :: ks) (fst kv) && gone w fs (fst kv)))
                 (fun kv => negb (listed ks (fst kv) && gone w fs (fst kv))));
        [ reflexivity | ].
      intros kv.
      rewrite (Hpred false); [ | unfold gone; rewrite Ep, Hpe; reflexivity ].
      rewrite andb_false_r. reflexivity.
    + unfold py_delitem.
      assert (Hmem : dict_mem cur k = true) by (apply dict_mem_In, Hincl; simpl; auto).
      rewrite Hmem. cbn [bind]. rewrite dict_del_filter by exact Hcur.
      rewrite IH; auto.
      * rewrite <- app_assoc. cbn [app]. rewrite filter_filter.
        rewrite (filter_ext (fun kv => negb (listed (k :: ks) (fst kv) && gone w fs (fst kv)))
                   (fun kv => negb (fst kv =? k)%string
                              && negb (listed ks (fst kv) && gone w fs (fst kv))));
          [ reflexivity | ].
        intros kv.
        rewrite (Hpred true); [ | unfold gone; rewrite Ep, Hpe; reflexivity ].
        rewrite andb_true_r. reflexivity.
      * apply NoDup_keys_filter. exact Hcur.
      * intros k' I.
        assert (Ik : In k' (keys cur)) by (apply Hincl; simpl; auto).
        unfold keys in *. apply in_map_iff in Ik. destruct Ik as [[k1 v1] [E I1]].
        simpl in E. subst k1. apply in_map_iff. exists (k', v1). split; [ reflexivity | ].
        apply filter_In. split; [ exact I1 | ]. simpl.
        destruct (String.eqb_spec k' k) as [-> | Hne]; [ contradiction | reflexivity ].
Qed.

(** The keys [_normalize_project_path] writes can all be expanded: a key
    under the home directory starts with the name ["~"], any other key is
    rooted. *)
Lemma leading_slashes_rooted (a : anchor) (s : string) :
  a <> Relative -> leading_slashes (anchor_str a ++ s)%string <> 0.
Proof.
  destruct a; simpl; congruence.
Qed.

Lemma Path_of_string_rooted (a : anchor) (s : string) :
  a <> Relative -> root (Path_of_string (anchor_str a ++ s)%string) <> Relative.
Proof.
  intros Ha. pose proof (leading_slashes_rooted a s Ha) as H.
  unfold Path_of_string. simpl root.
  destruct (leading_slashes (anchor_str a ++ s)%string) as [| [| [| n]]];
    congruence.
Qed.

Lemma Path_str_rooted (p : Path) :
  root p <> Relative ->
  Path_str p = (anchor_str (root p) ++ String.concat "/" (names p))%string.
Proof.
  unfold Path_str. destruct (root p); [ contradiction | reflexivity | reflexivity ].
Qed.

Lemma expanduser_rooted (w : World) (p : Path) :
  root p <> Relative -> expanduser w p = Ok p.
Proof.
  unfold expanduser. destruct (root p); [ contradiction | reflexivity | reflexivity ].
Qed.

Lemma Path_of_string_home_alias (ns : list string) :
  exists rest,
    Path_of_string (Path_str (rtruediv "~" {| root := Relative; names := ns |}))
    = {| root := Relative; names := "~" :: rest |}.
Proof.
  unfold rtruediv, joinpath. simpl root.
  change (names (Path_of_string "~")) with ["~"].
  change (root (Path_of_string "~")) with Relative.
  unfold Path_str. simpl.
  destruct ns as [| n ns]; [ exists []; reflexivity | ].
  eexists. unfold Path_of_string, split_slash. simpl. reflexivity.
Qed.

Lemma normalized_key_expandable (w : World) (p : Path) :
  expandable w (_normalize_project_path w p) = true.
Proof.
  unfold expandable.
  assert (Hrooted : expanduser w (Path_of_string (Path_str (resolve w p)))
                    = Ok (Path_of_string (Path_str (resolve w p)))).
  { apply expanduser_rooted.
    assert (Ha : root (resolve w p) <> Relative) by apply resolve_rooted.
    rewrite (Path_str_rooted _ Ha). apply Path_of_string_rooted. exact Ha. }
  unfold _normalize_project_path, relative_to.
  destruct (is_relative_to (resolve w p) (home w)); [ | rewrite Hrooted; reflexivity ].
  destruct (Path_of_string_home_alias
              (skipn (List.length (names (home w))) (names (resolve w p)))) as [rest ->].
  reflexivity.
Qed.

Lemma cleanup_missing_projects_spec (w : World) (fs : filesystem)
  (self : ProjectMapping) (projs : dict pyval) :
  projects_of self = Some projs ->
  NoDup (keys projs) ->
  forallb (examinable w fs) (keys projs) = true ->
  cleanup_missing_projects w fs self
  = Ok (store_projects self (VDict (filter (fun kv => negb (gone w fs (fst kv))) projs)),
        filter (gone w fs) (keys projs)).
Proof.
  intros Hp Hnd Hexp. unfold cleanup_missing_projects.
  rewrite (projects_of_getitem _ _ Hp). cbn [bind py_keys].
  rewrite (cleanup_loop w fs (keys projs) projs []); auto;
    [ | intros k I; exact I ].
  cbn [bind app]. f_equal. f_equal. f_equal. f_equal.
  apply filter_ext_in. intros kv I.
  assert (Hl : listed (keys projs) (fst kv) = true)
    by (apply listed_In; unfold keys; apply in_map; exact I).
  rewrite Hl. reflexivity.
Qed.

(** C6.  On a ledger whose keys can all be examined (each key expands, and
    the system answers the existence test on the expanded path),
    [cleanup_missing_projects] removes exactly the entries whose key, with
    the home alias expanded, does not exist on the file system; every other
    entry stays as it is and where it is; and the list returned is the list of
    the keys removed, in the order of the ledger. *)
Theorem cleanup_removes_exactly_the_missing (w : World) (fs : filesystem)
  (self : ProjectMapping) (projs : dict pyval) :
  projects_of self = Some projs ->
  NoDup (keys projs) ->
  forallb (examinable w fs) (keys projs) = true ->
  exists self' projs' removed,
    cleanup_missing_projects w fs self = Ok (self', removed)
    /\ projects_of self' = Some projs'
    /\ projs' = filter (fun kv => negb (gone w fs (fst kv))) projs
    /\ removed = filter (gone w fs) (keys projs)
    /\ (forall k, In k removed <-> In k (keys projs) /\ gone w fs k = true)
    /\ (forall k, In k removed <-> In k (keys projs) /\ ~ In k (keys projs'))
    /\ (forall k v, dict_get projs' k = Some v
                    <-> dict_get projs k = Some v /\ gone w fs k = false).
Proof.
  intros Hp Hnd Hexp.
  exists (store_projects self (VDict (filter (fun kv => negb (gone w fs (fst kv))) projs))),
    (filter (fun kv => negb (gone w fs (fst kv))) projs),
    (filter (gone w fs) (keys projs)).
  split; [ apply cleanup_missing_projects_spec; assumption | ].
  split; [ apply (projects_of_store self projs); exact Hp | ].
  split; [ reflexivity | ]. split; [ reflexivity | ].
  assert (Hkeys : forall k, In k (keys (filter (fun kv => negb (gone w fs (fst kv))) projs))
                            <-> In k (keys projs) /\ gone w fs k = false).
  { intros k. unfold keys. rewrite !in_map_iff. split.
    - intros ([k1 v1] & E & I). simpl in E. subst k1. apply filter_In in I.
      destruct I as [I Hg]. simpl in Hg. apply negb_true_iff in Hg.
      split; [ exists (k, v1); auto | exact Hg ].
    - intros [([k1 v1] & E & I) Hg]. simpl in E. subst k1. exists (k, v1).
      split; [ reflexivity | ]. apply filter_In. split; [ exact I | ].
      simpl. rewrite Hg. reflexivity. }
  split; [ intros k; apply filter_In | ].
  split.
  - intros k. rewrite filter_In, Hkeys. split.
    + intros [I Hg]. split; [ exact I | ]. intros [_ Hg']. congruence.
    + intros [I Hn]. split; [ exact I | ].
      destruct (gone w fs k); [ reflexivity | ]. exfalso. apply Hn. auto.
  - intros k v. rewrite dict_get_filter by exact Hnd. simpl.
    rewrite negb_true_iff. reflexivity.
Qed.

(** ** Environment sets of the entries *)

Lemma strings_of_all (l : list pyval) :
  forallb is_str l = true -> map VStr (strings_of l) = l.
Proof.
  induction l as [| v l IH]; simpl; [ reflexivity | ].
  rewrite andb_true_iff. intros [Hv Hl]. destruct v; try discriminate.
  simpl. rewrite IH by exact Hl. reflexivity.
Qed.

Lemma key_eqb_str (k : pyval) (s : string) : key_eqb k (VStr s) = true <-> k = VStr s.
Proof.
  destruct k; simpl; split; try discriminate; intros H.
  - apply String.eqb_eq in H. congruence.
  - injection H as ->. apply String.eqb_refl.
Qed.

Lemma counter_step (usage : counter) (name : string) :
  counter_set usage (VStr name) (counter_get usage (VStr name) 0 + 1)%Z
  = Ok (bump usage name).
Proof.
  induction usage as [| [k n] r IH]; simpl; [ reflexivity | ].
  destruct (key_eqb k (VStr name)); [ reflexivity | ].
  destruct r as [| kn r']; [ reflexivity | ].
  rewrite IH. reflexivity.
Qed.

Lemma inner_loop_tally (names : list string) (usage : counter) :
  for_each (map VStr names)
    (fun usage env_set => counter_set usage env_set (counter_get usage env_set 0 + 1)%Z)
    usage
  = Ok (tally usage names).
Proof.
  revert usage. induction names as [| n names IH]; intros usage; simpl; [ reflexivity | ].
  change (if negb (hashable (VStr n)) then _ else _)
    with (counter_set usage (VStr n) (counter_get usage (VStr n) 0 + 1)%Z).
  rewrite counter_step. simpl. apply IH.
Qed.

Lemma tally_app (usage : counter) (a b : list string) :
  tally usage (a ++ b) = tally (tally usage a) b.
Proof. unfold tally. apply fold_left_app. Qed.

Lemma usage_body_shape (usage : counter) (info : pyval) :
  entry_shape info = true ->
  (sets <- py_get info "environment_sets" (VList []) ;;
   elems <- py_iter sets ;;
   for_each elems
     (fun usage env_set => counter_set usage env_set (counter_get usage env_set 0 + 1)%Z)
     usage)
  = Ok (tally usage (sets_of info)).
Proof.
  destruct info as [| | | | | d]; try discriminate. simpl.
  destruct (dict_get d "environment_sets") as [[| | | | l |] |]; try discriminate; simpl.
  - intros Hl. rewrite <- (strings_of_all l Hl) at 1. apply inner_loop_tally.
  - reflexivity.
Qed.

Lemma usage_loop (projs : dict pyval) (usage : counter) :
  shaped projs = true ->
  for_each (values projs)
    (fun usage info =>
       sets <- py_get info "environment_sets" (VList []) ;;
       elems <- py_iter sets ;;
       for_each elems
         (fun usage env_set => counter_set usage env_set (counter_get usage env_set 0 + 1)%Z)
         usage)
    usage
  = Ok (tally usage (all_names projs)).
Proof.
  revert usage. induction projs as [| [k info] r IH]; intros usage; [ reflexivity | ].
  unfold shaped. cbn [forallb snd]. rewrite andb_true_iff. intros [Hi Hr].
  cbn [values map snd for_each].
  rewrite (usage_body_shape usage info Hi). cbn [bind].
  unfold values in IH. rewrite IH by exact Hr.
  unfold all_names. cbn [flat_map snd]. rewrite tally_app. reflexivity.
Qed.

Lemma get_environment_set_usage_spec (self : ProjectMapping) (projs : dict pyval) :
  projects_of self = Some projs ->
  shaped projs = true ->
  get_environment_set_usage self = Ok (tally [] (all_names projs)).
Proof.
  intros Hp Hs. unfold get_environment_set_usage.
  rewrite (projects_of_getitem _ _ Hp). cbn [bind py_values].
  apply usage_loop. exact Hs.
Qed.

Lemma counter_get_bump (usage : counter) (name name' : string) :
  counter_get (bump usage name) (VStr name') 0
  = (counter_get usage (VStr name') 0 + (if (name =? name')%string then 1 else 0))%Z.
Proof.
  induction usage as [| [k n] r IH]; simpl.
  - destruct (name =? name')%string; reflexivity.
  - destruct (key_eqb k (VStr name)) eqn:E; simpl.
    + apply key_eqb_str in E. subst k. simpl.
      destruct (name =? name')%string; lia.
    + destruct (key_eqb k (VStr name')) eqn:E'; [ | exact IH ].
      apply key_eqb_str in E'. subst k. simpl in E.
      rewrite String.eqb_sym, E. lia.
Qed.

Lemma counter_get_tally (names : list string) (usage : counter) (name : string) :
  counter_get (tally usage names) (VStr name) 0
  = (counter_get usage (VStr name) 0 + Z.of_nat (count_occ string_dec names name))%Z.
Proof.
  revert usage. induction names as [| n names IH]; intros usage; simpl; [ lia | ].
  unfold tally in *. rewrite IH, counter_get_bump.
  destruct (string_dec n name) as [-> | Hne].
  - rewrite String.eqb_refl. lia.
  - destruct (String.eqb_spec n name); [ contradiction | lia ].
Qed.

Lemma keys_bump (usage : counter) (name : string) (key : pyval) :
  In key (map fst (bump usage name)) <-> In key (map fst usage) \/ key = VStr name.
Proof.
  induction usage as [| [k n] r IH]; simpl.
  - split; [ intros [H | []]; auto | intros [[] | H]; auto ].
  - destruct (key_eqb k (VStr name)) eqn:E; simpl.
    + apply key_eqb_str in E. subst k. split; [ tauto | intros [H | ->]; auto ].
    + rewrite IH. tauto.
Qed.

Lemma keys_tally (names : list string) (usage : counter) (key : pyval) :
  In key (map fst (tally usage names))
  <-> In key (map fst usage) \/ exists name, key = VStr name /\ In name names.
Proof.
  revert usage. induction names as [| n names IH]; intros usage; simpl.
  - split; [ auto | intros [H | (name & _ & [])]; exact H ].
  - unfold tally in *. rewrite IH, keys_bump. split.
    + intros [[H | ->] | (name & -> & I)]; eauto.
    + intros [H | (name & -> & [-> | I])]; eauto.
Qed.

Lemma count_occ_all_names (name : string) (projs : dict pyval) :
  count_occ string_dec (all_names projs) name = occurrences name projs.
Proof.
  unfold all_names, occurrences.
  induction projs as [| kv r IH]; simpl; [ reflexivity | ].
  rewrite count_occ_app, IH. reflexivity.
Qed.

Lemma count_occ_NoDup (l : list string) (name : string) :
  NoDup l -> count_occ string_dec l name = if listed l name then 1 else 0.
Proof.
  intros Hnd. destruct (listed l name) eqn:E.
  - apply listed_In in E.
    pose proof (proj1 (NoDup_count_occ string_dec l) Hnd name) as Hle.
    pose proof (proj1 (count_occ_In string_dec l name) E) as Hpos. lia.
  - apply count_occ_not_In. intros I. apply listed_In in I. congruence.
Qed.

Lemma occurrences_users (name : string) (projs : dict pyval) :
  (forall kv, In kv projs -> NoDup (sets_of (snd kv))) ->
  occurrences name projs = users name projs.
Proof.
  unfold occurrences, users. induction projs as [| kv r IH]; intros H; simpl; [ reflexivity | ].
  rewrite IH by (intros; apply H; simpl; auto).
  rewrite count_occ_NoDup by (apply H; simpl; auto).
  destruct (listed (sets_of (snd kv)) name); reflexivity.
Qed.

Lemma In_all_names (name : string) (projs : dict pyval) :
  In name (all_names projs) <-> exists kv, In kv projs /\ In name (sets_of (snd kv)).
Proof.
  unfold all_names. rewrite in_flat_map. reflexivity.
Qed.

(** C8 (as amended).  Over a ledger whose entries have the documented shape,
    [get_environment_set_usage] returns a dict whose keys are exactly the
    names that stand in the list of at least one entry, and that gives for
    each name the number of times it stands in the lists of the entries.  Where
    no list repeats a name, that is the number of projects whose list has the
    name.  Over [{P1:[a,b], P2:[b,c], P3:[a]}] it returns [{a:2, b:2, c:1}]. *)
Theorem usage_counts_occurrences :
  (forall (self : ProjectMapping) (projs : dict pyval),
      projects_of self = Some projs ->
      shaped projs = true ->
      exists usage,
        get_environment_set_usage self = Ok usage
        /\ (forall key, In key (map fst usage)
                        <-> exists name, key = VStr name
                                         /\ exists kv, In kv projs /\ In name (sets_of (snd kv)))
        /\ (forall name, counter_get usage (VStr name) 0 = Z.of_nat (occurrences name projs))
        /\ ((forall kv, In kv projs -> NoDup (sets_of (snd kv))) ->
            forall name, counter_get usage (VStr name) 0 = Z.of_nat (users name projs)))
  /\ (forall P1 P2 P3 : string,
         get_environment_set_usage
           (Sample.ledger_with
              (VDict [("projects",
                       VDict [(P1, VDict [("environment_sets", VList [VStr "a"; VStr "b"])]);
                              (P2, VDict [("environment_sets", VList [VStr "b"; VStr "c"])]);
                              (P3, VDict [("environment_sets", VList [VStr "a"])])])]))
         = Ok [(VStr "a", 2%Z); (VStr "b", 2%Z); (VStr "c", 1%Z)]).
Proof.
  split; [ | reflexivity ].
  intros self projs Hp Hs. exists (tally [] (all_names projs)).
  split; [ apply get_environment_set_usage_spec; assumption | ].
  split.
  { intros key. rewrite keys_tally. simpl. split.
    - intros [[] | (name & -> & I)]. exists name. split; [ reflexivity | ].
      apply In_all_names. exact I.
    - intros (name & -> & I). right. exists name. split; [ reflexivity | ].
      apply In_all_names. exact I. }
  split.
  { intros name. rewrite counter_get_tally, count_occ_all_names. simpl. lia. }
  intros Hnd name. rewrite counter_get_tally, count_occ_all_names. simpl.
  rewrite (occurrences_users name projs Hnd). lia.
Qed.

(** C8, the counterexample.  One project whose list names [a] twice: the
    count of [a] is 2, and one project has [a] in its list. *)
Lemma repeated_name_is_counted_twice :
  get_environment_set_usage
    (Sample.ledger_with
       (VDict [("projects",
                VDict [("/project1",
                        VDict [("environment_sets", VList [VStr "a"; VStr "a"])])])]))
  = Ok [(VStr "a", 2%Z)]
  /\ users "a" [("/project1", VDict [("environment_sets", VList [VStr "a"; VStr "a"])])] = 1.
Proof.
  split; reflexivity.
Qed.

(** ** Queries over entries without a list *)

Lemma shaped_entries_are_dicts (projs : dict pyval) :
  shaped projs = true -> entries_are_dicts projs = true.
Proof.
  unfold shaped, entries_are_dicts. rewrite !forallb_forall.
  intros H kv I. specialize (H kv I). destruct (snd kv); try discriminate. reflexivity.
Qed.

Lemma contains_strings (l : list pyval) (env_set : string) :
  forallb is_str l = true ->
  existsb (eq_str env_set) l = listed (strings_of l) env_set.
Proof.
  induction l as [| v l IH]; simpl; [ reflexivity | ].
  rewrite andb_true_iff. intros [Hv Hl]. destruct v; try discriminate.
  simpl. rewrite IH by exact Hl. reflexivity.
Qed.

Lemma get_projects_by_environment_set_spec (self : ProjectMapping) (env_set : string)
  (projs : dict pyval) :
  projects_of self = Some projs ->
  shaped projs = true ->
  get_projects_by_environment_set self env_set
  = Ok (map annotated (filter (fun kv => listed (sets_of (snd kv)) env_set) projs)).
Proof.
  intros Hp Hs. unfold get_projects_by_environment_set.
  rewrite (projects_of_getitem _ _ Hp). cbn [bind py_items].
  rewrite (for_each_collect projs (fun kv => listed (sets_of (snd kv)) env_set) annotated);
    [ reflexivity | ].
  intros acc [k info] I.
  unfold shaped in Hs. rewrite forallb_forall in Hs. specialize (Hs _ I). simpl in Hs.
  destruct info as [| | | | | d]; try discriminate.
  cbn [py_get snd sets_of]. rewrite with_path_dict.
  unfold entry_shape in Hs. revert Hs.
  destruct (dict_get d "environment_sets") as [[| | | | l |] |]; try discriminate;
    intros Hs; cbn [bind py_contains].
  - rewrite (contains_strings l env_set Hs).
    destruct (listed (strings_of l) env_set); reflexivity.
  - reflexivity.
Qed.

Lemma annotated_path (k : string) (d : dict pyval) :
  py_getitem (annotated (k, VDict d)) "path" = Ok (VStr k).
Proof.
  unfold annotated. simpl. rewrite dict_get_set_same. reflexivity.
Qed.

Lemma all_names_without (projs : dict pyval) (k : string) (d : dict pyval) :
  NoDup (keys projs) ->
  dict_get projs k = Some (VDict d) ->
  dict_get d "environment_sets" = None ->
  all_names (dict_del projs k) = all_names projs.
Proof.
  intros Hnd Hk Hd. unfold all_names.
  induction projs as [| [k' v'] r IH]; simpl in *; [ reflexivity | ].
  inversion Hnd as [| ? ? Hnot Hnd']; subst.
  destruct (String.eqb_spec k' k) as [-> | Hne].
  - injection Hk as ->. simpl. rewrite Hd. reflexivity.
  - simpl. rewrite IH; auto.
Qed.

Lemma shaped_dict_del (projs : dict pyval) (k : string) :
  shaped projs = true -> shaped (dict_del projs k) = true.
Proof.
  unfold shaped. induction projs as [| [k' v'] r IH]; simpl; [ reflexivity | ].
  rewrite andb_true_iff. intros [H1 H2].
  destruct (k' =? k)%string; simpl; [ exact H2 | ].
  rewrite H1, IH; auto.
Qed.

Lemma needs_sync_timestamp_only (L : DatetimeLib) (cutoff : float L)
  (d d' : dict pyval) :
  dict_get d' "last_synced" = dict_get d "last_synced" ->
  needs_sync L cutoff (VDict d') = needs_sync L cutoff (VDict d).
Proof.
  intros H. unfold needs_sync. rewrite H. reflexivity.
Qed.

Lemma In_map_annotated (projs : dict pyval) (f : string * pyval -> bool)
  (k : string) (d : dict pyval) :
  NoDup (keys projs) ->
  entries_are_dicts projs = true ->
  In (k, VDict d) projs ->
  In (annotated (k, VDict d)) (map annotated (filter f projs)) <-> f (k, VDict d) = true.
Proof.
  intros Hnd Hdicts I. split.
  - intros H. apply in_map_iff in H. destruct H as ([k1 v1] & E & I1).
    apply filter_In in I1. destruct I1 as [I1 Hf].
    unfold entries_are_dicts in Hdicts. rewrite forallb_forall in Hdicts.
    pose proof (Hdicts _ I1) as Hv. simpl in Hv.
    destruct v1 as [| | | | | d1]; try discriminate.
    assert (Ek : k1 = k).
    { pose proof (annotated_path k1 d1) as P1. rewrite E, annotated_path in P1. congruence. }
    subst k1.
    pose proof (In_dict_get projs k _ Hnd I) as G.
    pose proof (In_dict_get projs k _ Hnd I1) as G1.
    rewrite G in G1. injection G1 as <-. exact Hf.
  - intros Hf. apply in_map. apply filter_In. auto.
Qed.

(** C10 (as amended).  Take a ledger whose entries are all dicts in which
    ["environment_sets"] is absent or a list of strings, and in it an entry
    under the key [k] that has no ["environment_sets"].  Then
    [get_projects_by_environment_set] and [get_environment_set_usage] do not
    raise, and neither does [find_projects_needing_sync] where its cutoff can
    be computed; [get_projects_by_environment_set] returns, for no name, a
    result with the path [k]; [get_environment_set_usage] returns what it
    returns for the ledger without that entry; and
    [find_projects_needing_sync] returns the entry when the test on its
    timestamp says so, a test that looks at nothing but ["last_synced"]. *)
Theorem queries_tolerate_missing_environment_sets (self : ProjectMapping)
  (projs : dict pyval) (k : string) (d : dict pyval) :
  projects_of self = Some projs ->
  NoDup (keys projs) ->
  shaped projs = true ->
  In (k, VDict d) projs ->
  dict_get d "environment_sets" = None ->
  (forall env_set,
      exists found,
        get_projects_by_environment_set self env_set = Ok found
        /\ forall r, In r found -> py_getitem r "path" <> Ok (VStr k))
  /\ (exists usage,
        get_environment_set_usage self = Ok usage
        /\ get_environment_set_usage (store_projects self (VDict (dict_del projs k)))
           = Ok usage)
  /\ (forall (L : DatetimeLib) (now : datetime L) (hours : Z) (cutoff : float L),
        cutoff_of L now hours = Some cutoff ->
        exists stale,
          find_projects_needing_sync L now self hours = Ok stale
          /\ (In (annotated (k, VDict d)) stale <-> needs_sync L cutoff (VDict d) = true)
          /\ (forall d', dict_get d' "last_synced" = dict_get d "last_synced" ->
                         needs_sync L cutoff (VDict d') = needs_sync L cutoff (VDict d))).
Proof.
  intros Hp Hnd Hs I Hd.
  pose proof (shaped_entries_are_dicts projs Hs) as Hdicts.
  pose proof (In_dict_get projs k _ Hnd I) as Hk.
  split; [ | split ].
  - intros env_set. eexists.
    split; [ apply get_projects_by_environment_set_spec; eassumption | ].
    intros r Hr Hpath. apply in_map_iff in Hr. destruct Hr as ([k1 v1] & E & I1).
    apply filter_In in I1. destruct I1 as [I1 Hf].
    unfold entries_are_dicts in Hdicts. rewrite forallb_forall in Hdicts.
    pose proof (Hdicts _ I1) as Hv. simpl in Hv.
    destruct v1 as [| | | | | d1]; try discriminate.
    rewrite <- E, annotated_path in Hpath. injection Hpath as ->.
    pose proof (In_dict_get projs k _ Hnd I1) as G1.
    rewrite Hk in G1. injection G1 as <-.
    simpl in Hf. rewrite Hd in Hf. discriminate.
  - exists (tally [] (all_names projs)).
    split; [ apply get_environment_set_usage_spec; assumption | ].
    rewrite (get_environment_set_usage_spec _ (dict_del projs k)).
    + rewrite (all_names_without projs k d); auto.
    + apply (projects_of_store self projs). exact Hp.
    + apply shaped_dict_del. exact Hs.
  - intros L now hours cutoff Hc. eexists.
    split; [ apply (find_projects_needing_sync_spec L now self hours projs cutoff);
             assumption | ].
    split.
    + rewrite (In_map_annotated projs _ k d Hnd Hdicts I). reflexivity.
    + intros d'. apply needs_sync_timestamp_only.
Qed.

(** ** The ledger over a run *)

Lemma getitem_projects_inv (self : ProjectMapping) (v : pyval) :
  py_getitem (mapping_data self) "projects" = Ok v ->
  exists d, mapping_data self = VDict d /\ dict_get d "projects" = Some v.
Proof.
  unfold py_getitem. destruct (mapping_data self) as [| | | | | d]; try discriminate.
  destruct (dict_get d "projects") as [v' |] eqn:E; [ | discriminate ].
  intros H. injection H as ->. eauto.
Qed.

Lemma projects_of_dict (self : ProjectMapping) (d projs : dict pyval) :
  mapping_data self = VDict d -> dict_get d "projects" = Some (VDict projs) ->
  projects_of self = Some projs.
Proof.
  intros Hd Hg. unfold projects_of. rewrite Hd, Hg. reflexivity.
Qed.

Lemma setitem_inv (obj : pyval) (k : string) (v obj' : pyval) :
  py_setitem obj k v = Ok obj' ->
  exists d, obj = VDict d /\ obj' = VDict (dict_set d k v).
Proof.
  destruct obj; try discriminate. simpl. intros H. injection H as <-. eauto.
Qed.

Lemma delitem_inv (obj : pyval) (k : string) (obj' : pyval) :
  py_delitem obj k = Ok obj' ->
  exists d, obj = VDict d /\ obj' = VDict (dict_del d k).
Proof.
  destruct obj as [| | | | | d]; try discriminate. simpl.
  destruct (dict_mem d k); [ | discriminate ]. intros H. injection H as <-. eauto.
Qed.

Lemma NoDup_dict_del (d : dict pyval) (k : string) :
  NoDup (keys d) -> NoDup (keys (dict_del d k)).
Proof.
  intros H. rewrite dict_del_filter by exact H. apply NoDup_keys_filter. exact H.
Qed.

Lemma load_mapping_well_formed (w : World) (fs : filesystem) (path : Path)
  (data : pyval) (out : list string) :
  _load_mapping w fs path = Ok (data, out) -> well_formed data = true.
Proof.
  unfold _load_mapping. destruct (path_exists w fs path) as [[|] | e0]; simpl;
    [ | | discriminate ].
  - destruct (open_read w fs path) as [t | e]; simpl;
      [ | intros H; injection H as <- _; reflexivity ].
    destruct t as [| n]; simpl; [ intros H; injection H as <- _; reflexivity | ].
    assert (Hwf : well_formed (py_or (construct n) (VDict [])) = true).
    { unfold py_or. destruct (truthy (construct n));
        [ apply construct_well_formed | reflexivity ]. }
    destruct (py_contains (py_or (construct n) (VDict [])) "projects") as [present | e];
      simpl; [ | intros H; injection H as <- _; reflexivity ].
    destruct present; simpl.
    + intros H. injection H as <- _. exact Hwf.
    + destruct (py_or (construct n) (VDict [])) as [| | | | | d]; simpl;
        try (intros H; injection H as <- _; reflexivity).
      intros H. injection H as <- _. simpl in *.
      apply andb_true_iff in Hwf. destruct Hwf as [Hu Hall].
      apply andb_true_iff. split;
        [ apply unique_keys_dict_set; exact Hu | apply forallb_dict_set; auto ].
  - intros H. injection H as <- _. reflexivity.
Qed.

Lemma init_one_entry_per_key (w : World) (fs : filesystem) (tdir : Path)
  (self : ProjectMapping) (out : list string) :
  init w fs tdir = Ok (self, out) -> one_entry_per_key self.
Proof.
  unfold init. intros H. apply bind_Ok in H. destruct H as ([data out'] & Hload & H).
  injection H as <- _. intros projs Hp.
  pose proof (load_mapping_well_formed _ _ _ _ _ Hload) as Hwf.
  pose proof (well_formed_projects _ projs Hp Hwf) as H. simpl in H.
  apply andb_true_iff in H. apply unique_keys_NoDup. tauto.
Qed.

Lemma cleanup_loop_keeps (w : World) (fs : filesystem) (ks : list string) :
  forall (cur : dict pyval) (removed : list string) (v : pyval) (r : list string),
    NoDup (keys cur) ->
    for_each ks
      (fun '(projects, removed) project_path =>
         expanded_path <- expanduser w (Path_of_string project_path) ;;
         present <- path_exists w fs expanded_path ;;
         if negb present then
           projects <- py_delitem projects project_path ;;
           Ok (projects, removed ++ [project_path])
         else Ok (projects, removed))
      (VDict cur, removed) = Ok (v, r) ->
    exists cur', v = VDict cur' /\ NoDup (keys cur').
Proof.
  induction ks as [| k ks IH]; intros cur removed v r Hnd H.
  - simpl in H. injection H as <- _. eauto.
  - cbn [for_each] in H. apply bind_Ok in H. destruct H as ([v1 r1] & Hstep & Hrest).
    apply bind_Ok in Hstep. destruct Hstep as (p & _ & Hstep).
    apply bind_Ok in Hstep. destruct Hstep as (present & _ & Hstep).
    destruct (negb present).
    + apply bind_Ok in Hstep. destruct Hstep as (v2 & Hdel & Hstep).
      injection Hstep as <- <-. apply delitem_inv in Hdel.
      destruct Hdel as (d & Hd & ->). injection Hd as <-.
      apply (IH _ _ _ _ (NoDup_dict_del cur k Hnd) Hrest).
    + injection Hstep as <- <-. apply (IH _ _ _ _ Hnd Hrest).
Qed.

Lemma run_keeps_one_entry_per_key (w : World) (L : DatetimeLib)
  (self self' : ProjectMapping) (fs fs' : filesystem) (op : operation L) :
  one_entry_per_key self ->
  run w L (self, fs) op = Ok (self', fs') ->
  one_entry_per_key self'.
Proof.
  intros Hinv Hrun. destruct op as [now P S | P | now P | |]; cbn [run] in Hrun.
  - apply bind_Ok in Hrun. destruct Hrun as (s & Hadd & H). injection H as <- _.
    unfold add_project in Hadd.
    apply bind_Ok in Hadd. destruct Hadd as (v & Hget & Hadd).
    apply bind_Ok in Hadd. destruct Hadd as (v' & Hset & H). injection H as <-.
    apply getitem_projects_inv in Hget. destruct Hget as (d & Hd & Hg).
    apply setitem_inv in Hset. destruct Hset as (projs & -> & ->).
    pose proof (projects_of_dict _ _ _ Hd Hg) as Hp.
    intros projs' Hp'. rewrite (projects_of_store _ _ _ Hp) in Hp'. injection Hp' as <-.
    apply NoDup_dict_set, Hinv, Hp.
  - apply bind_Ok in Hrun. destruct Hrun as (s & Hrem & H). injection H as <- _.
    unfold remove_project in Hrem.
    apply bind_Ok in Hrem. destruct Hrem as (v & Hget & Hrem).
    apply bind_Ok in Hrem. destruct Hrem as (present & _ & Hrem).
    destruct present; [ | injection Hrem as <-; exact Hinv ].
    apply bind_Ok in Hrem. destruct Hrem as (v' & Hdel & H). injection H as <-.
    apply getitem_projects_inv in Hget. destruct Hget as (d & Hd & Hg).
    apply delitem_inv in Hdel. destruct Hdel as (projs & -> & ->).
    pose proof (projects_of_dict _ _ _ Hd Hg) as Hp.
    intros projs' Hp'. rewrite (projects_of_store _ _ _ Hp) in Hp'. injection Hp' as <-.
    apply NoDup_dict_del, Hinv, Hp.
  - apply bind_Ok in Hrun. destruct Hrun as (s & Hup & H). injection H as <- _.
    unfold update_last_synced in Hup.
    apply bind_Ok in Hup. destruct Hup as (v & Hget & Hup).
    apply bind_Ok in Hup. destruct Hup as (present & _ & Hup).
    destruct present; [ | injection Hup as <-; exact Hinv ].
    apply bind_Ok in Hup. destruct Hup as (entry & _ & Hup).
    apply bind_Ok in Hup. destruct Hup as (entry' & _ & Hup).
    apply bind_Ok in Hup. destruct Hup as (v' & Hset & H). injection H as <-.
    apply getitem_projects_inv in Hget. destruct Hget as (d & Hd & Hg).
    apply setitem_inv in Hset. destruct Hset as (projs & -> & ->).
    pose proof (projects_of_dict _ _ _ Hd Hg) as Hp.
    intros projs' Hp'. rewrite (projects_of_store _ _ _ Hp) in Hp'. injection Hp' as <-.
    apply NoDup_dict_set, Hinv, Hp.
  - apply bind_Ok in Hrun. destruct Hrun as ([s removed] & Hclean & H). injection H as <- _.
    unfold cleanup_missing_projects in Hclean.
    apply bind_Ok in Hclean. destruct Hclean as (v & Hget & Hclean).
    apply bind_Ok in Hclean. destruct Hclean as (snapshot & Hkeys & Hclean).
    apply bind_Ok in Hclean. destruct Hclean as ([v' r] & Hloop & H). injection H as <- _.
    apply getitem_projects_inv in Hget. destruct Hget as (d & Hd & Hg).
    destruct v as [| | | | | projs]; try discriminate.
    pose proof (projects_of_dict _ _ _ Hd Hg) as Hp.
    apply (cleanup_loop_keeps w fs snapshot projs [] v' r (Hinv _ Hp)) in Hloop.
    destruct Hloop as (cur' & -> & Hnd).
    intros projs' Hp'. rewrite (projects_of_store _ _ _ Hp) in Hp'. injection Hp' as <-.
    exact Hnd.
  - unfold save_mapping in Hrun.
    apply bind_Ok in Hrun. destruct Hrun as (fs1 & _ & Hrun).
    apply bind_Ok in Hrun. destruct Hrun as (v & Hget & Hrun).
    apply bind_Ok in Hrun. destruct Hrun as (items & Hitems & Hrun).
    apply bind_Ok in Hrun. destruct Hrun as (data & Hset & Hrun).
    apply bind_Ok in Hrun. destruct Hrun as (fs2 & _ & H). injection H as <- _.
    apply getitem_projects_inv in Hget. destruct Hget as (d & Hd & Hg).
    destruct v as [| | | | | projs]; try discriminate. injection Hitems as <-.
    pose proof (projects_of_dict _ _ _ Hd Hg) as Hp.
    apply setitem_inv in Hset. destruct Hset as (d' & Hd' & ->).
    intros projs' Hp'. unfold projects_of in Hp'. cbn [mapping_data] in Hp'.
    rewrite dict_get_set_same in Hp'. injection Hp' as <-.
    apply (NoDup_keys_perm projs); [ symmetry; apply sorted_items_perm | apply Hinv, Hp ].
Qed.

Lemma run_keeps_keys (w : World) (L : DatetimeLib)
  (self self' : ProjectMapping) (fs fs' : filesystem) (op : operation L)
  (projs : dict pyval) :
  deletes op = false ->
  run w L (self, fs) op = Ok (self', fs') ->
  projects_of self = Some projs ->
  exists projs',
    projects_of self' = Some projs' /\ forall k, In k (keys projs) -> In k (keys projs').
Proof.
  intros Hop Hrun Hp. destruct op as [now P S | P | now P | |]; try discriminate;
    cbn [run] in Hrun.
  - rewrite (add_project_spec w L now self P S projs Hp) in Hrun.
    cbn [bind] in Hrun. injection Hrun as <- _.
    eexists. split; [ apply (projects_of_store self projs); exact Hp | ].
    intros k I. apply In_keys_dict_set. auto.
  - unfold update_last_synced in Hrun.
    rewrite (projects_of_getitem _ _ Hp) in Hrun. cbn [bind py_contains] in Hrun.
    destruct (dict_mem projs (_normalize_project_path w P)).
    + apply bind_Ok in Hrun. destruct Hrun as (s & Hup & H). injection H as <- _.
      apply bind_Ok in Hup. destruct Hup as (entry & _ & Hup).
      apply bind_Ok in Hup. destruct Hup as (entry' & _ & Hup).
      cbn [py_setitem bind] in Hup. injection Hup as <-.
      eexists. split; [ apply (projects_of_store self projs); exact Hp | ].
      intros k I. apply In_keys_dict_set. auto.
    + cbn [bind] in Hrun. injection Hrun as <- _. exists projs. auto.
  - unfold save_mapping in Hrun.
    apply bind_Ok in Hrun. destruct Hrun as (fs1 & _ & Hrun).
    rewrite (projects_of_getitem _ _ Hp) in Hrun. cbn [bind py_items] in Hrun.
    apply bind_Ok in Hrun. destruct Hrun as (data & Hset & Hrun).
    apply bind_Ok in Hrun. destruct Hrun as (fs2 & _ & H). injection H as <- _.
    apply setitem_inv in Hset. destruct Hset as (d' & Hd' & ->).
    exists (sorted_items projs). split.
    + unfold projects_of. cbn [mapping_data]. rewrite dict_get_set_same. reflexivity.
    + intros k I. unfold keys in *.
      apply (Permutation_in _ (Permutation_map fst (Permutation_sym (sorted_items_perm projs)))).
      exact I.
Qed.

Lemma lookup_by_absolute_form (w : World) (self : ProjectMapping) (P : Path) :
  get_project_info w self (absolute w P) = get_project_info w self P.
Proof.
  unfold get_project_info. rewrite normalize_absolute. reflexivity.
Qed.

Lemma runs_keep_one_entry_per_key (w : World) (L : DatetimeLib)
  (ops : list (operation L)) :
  forall (st : ProjectMapping * filesystem) (self : ProjectMapping) (fs : filesystem),
    one_entry_per_key (fst st) ->
    for_each ops (run w L) st = Ok (self, fs) ->
    one_entry_per_key self.
Proof.
  induction ops as [| op ops IH]; intros [s f] self fs Hinv H.
  - simpl in H. injection H as <- _. exact Hinv.
  - cbn [for_each] in H. apply bind_Ok in H. destruct H as ([s1 f1] & Hstep & Hrest).
    apply (IH (s1, f1) self fs); [ | exact Hrest ].
    apply (run_keeps_one_entry_per_key w L s s1 f f1 op Hinv Hstep).
Qed.

(** C9 (as amended).  Take a ledger as [__init__] builds it from the backing
    file.  After any sequence of [add_project], [remove_project],
    [update_last_synced], [cleanup_missing_projects] and [save_mapping] that
    runs through, no key stands twice among the projects, so there is at most
    one entry under the normalized form of any path; a path and its absolute
    form are looked up alike; and adding a path that normalizes to a key
    already there (another form of a path added before) adds no entry: it
    overwrites the one that is there.  An
    operation other than removal and cleanup keeps every key that was
    there.  The keys are compared as they are written: nothing is said about
    what normalizing a stored key gives. *)
Theorem ledger_keeps_one_entry_per_path (w : World) (L : DatetimeLib)
  (fs0 : filesystem) (tdir : Path) (self0 : ProjectMapping) (out : list string) :
  init w fs0 tdir = Ok (self0, out) ->
  (forall (ops : list (operation L)) (self : ProjectMapping) (fs : filesystem),
      for_each ops (run w L) (self0, fs0) = Ok (self, fs) ->
      forall projs,
        projects_of self = Some projs ->
        NoDup (keys projs)
        /\ (forall P, count_key projs (_normalize_project_path w P) <= 1)
        /\ (forall P, get_project_info w self (absolute w P) = get_project_info w self P)
        /\ (forall (now : datetime L) (P Q : Path) (S : pyval),
               _normalize_project_path w Q = _normalize_project_path w P ->
               In (_normalize_project_path w P) (keys projs) ->
               exists self' projs',
                 add_project w L now self Q S = Ok self'
                 /\ projects_of self' = Some projs'
                 /\ keys projs' = keys projs
                 /\ count_key projs' (_normalize_project_path w P) = 1
                 /\ get_project_info w self' P = Ok (entry_of L now S)))
  /\ (forall (op : operation L) (self self' : ProjectMapping) (fs fs' : filesystem)
             (projs : dict pyval),
         deletes op = false ->
         run w L (self, fs) op = Ok (self', fs') ->
         projects_of self = Some projs ->
         exists projs',
           projects_of self' = Some projs'
           /\ forall k, In k (keys projs) -> In k (keys projs')).
Proof.
  intros Hinit. split.
  - intros ops self fs Hrun projs Hp.
    pose proof (runs_keep_one_entry_per_key w L ops (self0, fs0) self fs
                  (init_one_entry_per_key _ _ _ _ _ Hinit) Hrun projs Hp) as Hnd.
    split; [ exact Hnd | ].
    split; [ intros P; apply count_key_le_1; exact Hnd | ].
    split; [ intros P; apply lookup_by_absolute_form | ].
    intros now P Q S E I.
    exists (store_projects self
              (VDict (dict_set projs (_normalize_project_path w P) (entry_of L now S)))),
      (dict_set projs (_normalize_project_path w P) (entry_of L now S)).
    split; [ rewrite (add_project_spec w L now self Q S projs Hp), E; reflexivity | ].
    split; [ apply (projects_of_store self projs); exact Hp | ].
    split; [ rewrite keys_dict_set; apply dict_mem_In in I; rewrite I; reflexivity | ].
    split; [ apply count_key_dict_set, Hnd | ].
    rewrite (get_project_info_spec w _ P _ (projects_of_store self projs _ Hp)).
    rewrite dict_get_set_same. reflexivity.
  - intros op self self' fs fs' projs. apply run_keeps_keys.
Qed.

(** C9, the counterexample.  On a machine with home directory [/home/u], in
    the working directory [/srv], the projects [/home/u/rel] and
    [/srv/~/rel] are added.  They get the keys ["~/rel"] and ["/srv/~/rel"],
    and both keys, read as paths, normalize to ["/srv/~/rel"]: two entries
    whose keys normalize to the same path. *)
Lemma two_keys_normalize_to_one_path :
  exists self fs,
    for_each
      [AddProject Sample.at_noon (Path_of_string "/home/u/rel") (VList [VStr "env_a"]);
       AddProject Sample.at_noon (Path_of_string "/srv/~/rel") (VList [VStr "env_b"])]
      (run Sample.server Naive.lib) (Sample.fresh, SampleFs.bare) = Ok (self, fs)
    /\ option_map keys (projects_of self) = Some ["~/rel"; "/srv/~/rel"]
    /\ _normalize_project_path Sample.server (Path_of_string "~/rel") = "/srv/~/rel"
    /\ _normalize_project_path Sample.server (Path_of_string "/srv/~/rel") = "/srv/~/rel".
Proof.
  eexists. eexists. repeat split; reflexivity.
Qed.

(** A run: two projects are added, one is touched, the ledger is saved, the
    projects that are not on the disk are cleaned up. *)
Lemma ledger_run_example :
  exists self fs,
    for_each
      [AddProject Sample.at_noon (Path_of_string "/templates") (VList [VStr "env_a"]);
       AddProject Sample.at_noon (Path_of_string "proj") (VList [VStr "env_b"]);
       AddProject Sample.a_second_later (Path_of_string "/home/u/work/proj")
         (VList [VStr "env_c"]);
       UpdateLastSynced Sample.a_second_later (Path_of_string "/templates");
       SaveMapping;
       CleanupMissing]
      (run Sample.world Naive.lib) (Sample.fresh, SampleFs.bare) = Ok (self, fs)
    /\ projects_of self
       = Some [("/templates",
                VDict [("environment_sets", VList [VStr "env_a"]);
                       ("last_synced", VStr "2024-03-10T12:00:01.250000")])].
Proof.
  eexists. eexists. split; reflexivity.
Qed.

(** ** The theorems at worked values *)

(** The ledger of the staleness test, read at noon with a threshold of 24
    hours. *)
Lemma find_projects_needing_sync_exact_witness :
  find_projects_needing_sync Naive.lib Sample.at_noon SampleLedgers.by_age 24
  = Ok [VDict [("environment_sets", VList [VStr "env_a"]);
               ("last_synced", VStr (isoformat Naive.lib Sample.two_days_before));
               ("path", VStr "/old-project")];
        VDict [("environment_sets", VList [VStr "env_c"]);
               ("path", VStr "/no-timestamp-project")]].
Proof.
  exact (proj2 (find_projects_needing_sync_exact Naive.lib Sample.at_noon
                  NaiveFacts.laws naive_float_laws)
           SampleLedgers.by_age
           (Naive.timestamp Sample.at_noon - 24 * 3600 * 1000000)%Z
           (Naive.timestamp Sample.at_midnight)
           (isoformat Naive.lib Sample.two_days_before)
           (isoformat Naive.lib Sample.at_midnight)
           Sample.two_days_before Sample.at_midnight
           "/old-project" "/recent-project" "/no-timestamp-project"
           (VList [VStr "env_a"]) (VList [VStr "env_b"]) (VList [VStr "env_c"])
           eq_refl eq_refl eq_refl eq_refl eq_refl eq_refl eq_refl).
Defined.

(** One project on the disk and two that are not. *)
Lemma cleanup_removes_exactly_the_missing_witness :
  exists self' projs' removed,
    cleanup_missing_projects Sample.world (SampleFs.holding Garbage)
      (Sample.ledger_with (VDict [("projects", VDict SampleLedgers.on_and_off_disk)]))
    = Ok (self', removed)
    /\ projects_of self' = Some projs'
    /\ projs' = filter (fun kv => negb (gone Sample.world (SampleFs.holding Garbage) (fst kv)))
                       SampleLedgers.on_and_off_disk
    /\ removed = filter (gone Sample.world (SampleFs.holding Garbage))
                        (keys SampleLedgers.on_and_off_disk)
    /\ (forall k, In k removed
                  <-> In k (keys SampleLedgers.on_and_off_disk)
                      /\ gone Sample.world (SampleFs.holding Garbage) k = true)
    /\ (forall k, In k removed
                  <-> In k (keys SampleLedgers.on_and_off_disk) /\ ~ In k (keys projs'))
    /\ (forall k v, dict_get projs' k = Some v
                    <-> dict_get SampleLedgers.on_and_off_disk k = Some v
                        /\ gone Sample.world (SampleFs.holding Garbage) k = false).
Proof.
  apply (cleanup_removes_exactly_the_missing Sample.world (SampleFs.holding Garbage)
           (Sample.ledger_with (VDict [("projects", VDict SampleLedgers.on_and_off_disk)]))
           SampleLedgers.on_and_off_disk).
  - reflexivity.
  - apply unique_keys_NoDup. reflexivity.
  - reflexivity.
Defined.

(** The same cleanup, evaluated. *)
Lemma cleanup_example :
  exists self',
    cleanup_missing_projects Sample.world (SampleFs.holding Garbage)
      (Sample.ledger_with (VDict [("projects", VDict SampleLedgers.on_and_off_disk)]))
    = Ok (self', ["/non/existing/path1"; "~/gone"])
    /\ projects_of self'
       = Some [("/templates", SampleFs.entry ["env_a"] "2024-03-10T12:00:00")].
Proof.
  eexists. split; reflexivity.
Qed.

(** A key is looked up under the names it is written with: of the keys
    [/T/proj] and [/T/missing/../proj], where [/T/proj] is a directory and
    [/T/missing] is not there, the second is removed. *)
Lemma dotdot_key_example :
  exists self',
    cleanup_missing_projects Sample.world SampleFs.one_project_dir
      (Sample.ledger_with
         (VDict [("projects",
                  VDict [("/T/proj", SampleFs.entry ["env_a"] "2024-03-10T12:00:00");
                         ("/T/missing/../proj",
                          SampleFs.entry ["env_b"] "2024-03-10T12:00:00")])]))
    = Ok (self', ["/T/missing/../proj"])
    /\ projects_of self'
       = Some [("/T/proj", SampleFs.entry ["env_a"] "2024-03-10T12:00:00")].
Proof.
  eexists. split; reflexivity.
Qed.

(** A hand-edited ledger whose second entry has a timestamp only. *)
Lemma queries_tolerate_missing_environment_sets_witness :
  (forall env_set,
      exists found,
        get_projects_by_environment_set
          (Sample.ledger_with (VDict [("projects", VDict SampleLedgers.hand_edited)])) env_set
        = Ok found
        /\ forall r, In r found -> py_getitem r "path" <> Ok (VStr "/project2"))
  /\ (exists usage,
        get_environment_set_usage
          (Sample.ledger_with (VDict [("projects", VDict SampleLedgers.hand_edited)]))
        = Ok usage
        /\ get_environment_set_usage
             (store_projects
                (Sample.ledger_with (VDict [("projects", VDict SampleLedgers.hand_edited)]))
                (VDict (dict_del SampleLedgers.hand_edited "/project2")))
           = Ok usage)
  /\ (forall (L : DatetimeLib) (now : datetime L) (hours : Z) (cutoff : float L),
        cutoff_of L now hours = Some cutoff ->
        exists stale,
          find_projects_needing_sync L now
            (Sample.ledger_with (VDict [("projects", VDict SampleLedgers.hand_edited)])) hours
          = Ok stale
          /\ (In (annotated ("/project2", VDict [("last_synced", VStr "2024-03-08T12:00:00")]))
                 stale
              <-> needs_sync L cutoff (VDict [("last_synced", VStr "2024-03-08T12:00:00")])
                  = true)
          /\ (forall d',
                 dict_get d' "last_synced"
                 = dict_get [("last_synced", VStr "2024-03-08T12:00:00")] "last_synced" ->
                 needs_sync L cutoff (VDict d')
                 = needs_sync L cutoff (VDict [("last_synced", VStr "2024-03-08T12:00:00")]))).
Proof.
  apply (queries_tolerate_missing_environment_sets
           (Sample.ledger_with (VDict [("projects", VDict SampleLedgers.hand_edited)]))
           SampleLedgers.hand_edited "/project2"
           [("last_synced", VStr "2024-03-08T12:00:00")]).
  - reflexivity.
  - apply unique_keys_NoDup. reflexivity.
  - reflexivity.
  - simpl. auto.
  - reflexivity.
Defined.

(** C5, the counterexample.  On a machine that is an hour ahead of UTC, an
    entry is stamped half an hour before the end of the year 9999.  The stamp
    parses, to a time long after noon of 2024-03-10; [timestamp()] raises
    [ValueError] for it, since the same second is in the year 10000 in UTC
    terms; and [find_projects_needing_sync] reports the entry, whose timestamp
    is neither absent nor unparsable nor old. *)
Lemma unconvertible_timestamp_is_reported :
  exists far,
    fromisoformat Naive.lib_east "9999-12-31T23:30:00" = Some far
    /\ (timestamp Naive.lib_east Sample.at_noon < timestamp Naive.lib_east far)%Z
    /\ py_timestamp Naive.lib_east far = Raise (ValueError "year is out of range")
    /\ find_projects_needing_sync Naive.lib_east Sample.at_noon
         (Sample.ledger_with
            (VDict [("projects",
                     VDict [("/far", SampleFs.entry ["env_a"] "9999-12-31T23:30:00")])]))
         24
       = Ok [VDict [("environment_sets", VList [VStr "env_a"]);
                    ("last_synced", VStr "9999-12-31T23:30:00");
                    ("path", VStr "/far")]].
Proof.
  eexists. split; [ reflexivity | ].
  split; [ reflexivity | ].
  split; reflexivity.
Qed.

(** C10, the counterexample.  Two hand-edited ledgers that contain an entry
    without ["environment_sets"].  In the first, another entry has
    [environment_sets: null]: the two queries that read the lists raise
    [TypeError].  In the second, another entry is null: all three queries
    raise [AttributeError]. *)
Lemma null_values_break_the_queries :
  get_projects_by_environment_set
    (Sample.ledger_with (VDict [("projects", VDict SampleLedgers.with_null_list)])) "env_a"
  = Raise (TypeError "argument of type 'NoneType' is not iterable")
  /\ get_environment_set_usage
       (Sample.ledger_with (VDict [("projects", VDict SampleLedgers.with_null_list)]))
     = Raise (TypeError "'NoneType' object is not iterable")
  /\ get_projects_by_environment_set
       (Sample.ledger_with (VDict [("projects", VDict SampleLedgers.with_null_entry)])) "env_a"
     = Raise (AttributeError "'NoneType' object has no attribute 'get'")
  /\ get_environment_set_usage
       (Sample.ledger_with (VDict [("projects", VDict SampleLedgers.with_null_entry)]))
     = Raise (AttributeError "'NoneType' object has no attribute 'get'")
  /\ find_projects_needing_sync Naive.lib Sample.at_noon
       (Sample.ledger_with (VDict [("projects", VDict SampleLedgers.with_null_entry)])) 24
     = Raise (AttributeError "'NoneType' object has no attribute 'get'").
Proof.
  repeat split; reflexivity.
Qed.

(** The fresh ledger of the templates directory, before any run. *)
Lemma ledger_keeps_one_entry_per_path_witness :
  (forall (ops : list (operation Naive.lib)) (self : ProjectMapping) (fs : filesystem),
      for_each ops (run Sample.world Naive.lib) (Sample.fresh, SampleFs.bare) = Ok (self, fs) ->
      forall projs,
        projects_of self = Some projs ->
        NoDup (keys projs)
        /\ (forall P, count_key projs (_normalize_project_path Sample.world P) <= 1)
        /\ (forall P, get_project_info Sample.world self (absolute Sample.world P)
                      = get_project_info Sample.world self P)
        /\ (forall (now : datetime Naive.lib) (P Q : Path) (S : pyval),
               _normalize_project_path Sample.world Q = _normalize_project_path Sample.world P ->
               In (_normalize_project_path Sample.world P) (keys projs) ->
               exists self' projs',
                 add_project Sample.world Naive.lib now self Q S = Ok self'
                 /\ projects_of self' = Some projs'
                 /\ keys projs' = keys projs
                 /\ count_key projs' (_normalize_project_path Sample.world P) = 1
                 /\ get_project_info Sample.world self' P = Ok (entry_of Naive.lib now S)))
  /\ (forall (op : operation Naive.lib) (self self' : ProjectMapping) (fs fs' : filesystem)
             (projs : dict pyval),
         deletes op = false ->
         run Sample.world Naive.lib (self, fs) op = Ok (self', fs') ->
         projects_of self = Some projs ->
         exists projs',
           projects_of self' = Some projs'
           /\ forall k, In k (keys projs) -> In k (keys projs')).
Proof.
  apply (ledger_keeps_one_entry_per_path Sample.world Naive.lib SampleFs.bare
           Sample.templates Sample.fresh []).
  reflexivity.
Defined.

(** The three queries on the hand-edited ledger, evaluated at noon. *)
Lemma hand_edited_example :
  get_projects_by_environment_set
    (Sample.ledger_with (VDict [("projects", VDict SampleLedgers.hand_edited)])) "env_a"
  = Ok [VDict [("environment_sets", VList [VStr "env_a"]);
               ("last_synced", VStr "2024-03-10T00:00:00");
               ("path", VStr "/project1")]]
  /\ get_environment_set_usage
       (Sample.ledger_with (VDict [("projects", VDict SampleLedgers.hand_edited)]))
     = Ok [(VStr "env_a", 1%Z)]
  /\ find_projects_needing_sync Naive.lib Sample.at_noon
       (Sample.ledger_with (VDict [("projects", VDict SampleLedgers.hand_edited)])) 24
     = Ok [VDict [("last_synced", VStr "2024-03-08T12:00:00"); ("path", VStr "/project2")]].
Proof.
  repeat split; reflexivity.
Qed.

(* ================================================================== *)
(** * Further properties *)

(** ** Removing, adding again, touching *)

Lemma dict_set_same_value {V : Type} (d : dict V) (k : string) (v : V) :
  dict_get d k = Some v -> dict_set d k v = d.
Proof.
  induction d as [| [k' v'] r IH]; simpl; [ discriminate | ].
  destruct (String.eqb_spec k' k) as [-> | Hne]; intros H.
  - injection H as ->. reflexivity.
  - rewrite IH by exact H. reflexivity.
Qed.

Lemma dict_set_twice {V : Type} (d : dict V) (k : string) (v v' : V) :
  dict_set (dict_set d k v) k v' = dict_set d k v'.
Proof.
  induction d as [| [k0 v0] r IH]; simpl.
  - rewrite String.eqb_refl. reflexivity.
  - destruct (String.eqb_spec k0 k) as [-> | Hne]; simpl.
    + rewrite String.eqb_refl. reflexivity.
    + destruct (String.eqb_spec k0 k); [ contradiction | ]. rewrite IH. reflexivity.
Qed.

Lemma dict_del_set_fresh {V : Type} (d : dict V) (k : string) (v : V) :
  ~ In k (keys d) -> dict_del (dict_set d k v) k = d.
Proof.
  induction d as [| [k0 v0] r IH]; simpl; intros H.
  - rewrite String.eqb_refl. reflexivity.
  - destruct (String.eqb_spec k0 k) as [-> | Hne]; [ exfalso; auto | ].
    simpl. destruct (String.eqb_spec k0 k); [ contradiction | ].
    rewrite IH; auto.
Qed.

Lemma dict_get_del_same {V : Type} (d : dict V) (k : string) :
  NoDup (keys d) -> dict_get (dict_del d k) k = None.
Proof.
  intros Hnd. rewrite dict_del_filter by exact Hnd.
  destruct (dict_get (filter _ d) k) as [v |] eqn:E; [ | reflexivity ].
  apply dict_get_filter in E; [ | exact Hnd ]. destruct E as [_ E].
  simpl in E. rewrite String.eqb_refl in E. discriminate.
Qed.

Lemma dict_get_del_other {V : Type} (d : dict V) (k k' : string) :
  k <> k' -> dict_get (dict_del d k) k' = dict_get d k'.
Proof.
  intros Hne. induction d as [| [k0 v0] r IH]; simpl; [ reflexivity | ].
  destruct (String.eqb_spec k0 k) as [-> | Hne0]; simpl.
  - destruct (String.eqb_spec k k'); [ contradiction | reflexivity ].
  - rewrite IH. reflexivity.
Qed.

Lemma store_projects_twice (self : ProjectMapping) (a b : pyval) :
  store_projects (store_projects self a) b = store_projects self b.
Proof.
  unfold store_projects. simpl. destruct (mapping_data self); try reflexivity.
  rewrite dict_set_twice. reflexivity.
Qed.

Lemma store_projects_same (self : ProjectMapping) (projs : dict pyval) :
  projects_of self = Some projs -> store_projects self (VDict projs) = self.
Proof.
  unfold projects_of, store_projects. destruct self as [t m data]. simpl.
  destruct data as [| | | | | d]; try discriminate.
  destruct (dict_get d "projects") as [[| | | | | q] |] eqn:E; try discriminate.
  intros H. injection H as ->. rewrite dict_set_same_value by exact E. reflexivity.
Qed.

Lemma remove_project_spec (w : World) (self : ProjectMapping) (P : Path)
  (projs : dict pyval) :
  projects_of self = Some projs ->
  remove_project w self P
  = Ok (if dict_mem projs (_normalize_project_path w P)
        then store_projects self (VDict (dict_del projs (_normalize_project_path w P)))
        else self).
Proof.
  intros Hp. unfold remove_project. rewrite (projects_of_getitem _ _ Hp).
  cbn [bind py_contains py_delitem].
  destruct (dict_mem projs (_normalize_project_path w P)); reflexivity.
Qed.

(** X1.  On a ledger with one entry per key [remove_project] succeeds, and
    does the same for a path and for its absolute form.  It deletes the entry
    stored under the normalized key of the path and no other: afterwards
    [get_project_info] answers [None] for the path and what it answered before
    for every other key.  When there is no entry under the key, the ledger is
    returned as it was. *)
Theorem remove_project_removes_one_entry (w : World) (self : ProjectMapping)
  (P : Path) (projs : dict pyval) :
  projects_of self = Some projs ->
  NoDup (keys projs) ->
  exists self',
    remove_project w self P = Ok self'
    /\ remove_project w self (absolute w P) = Ok self'
    /\ projects_of self'
       = Some (filter (fun kv => negb (fst kv =? _normalize_project_path w P)%string) projs)
    /\ get_project_info w self' P = Ok VNone
    /\ (forall Q, _normalize_project_path w Q <> _normalize_project_path w P ->
                  get_project_info w self' Q = get_project_info w self Q)
    /\ (~ In (_normalize_project_path w P) (keys projs) -> self' = self).
Proof.
  intros Hp Hnd. set (k := _normalize_project_path w P).
  assert (Hcases : exists self',
             remove_project w self P = Ok self'
             /\ projects_of self' = Some (dict_del projs k)
             /\ (dict_mem projs k = false -> self' = self)).
  { rewrite (remove_project_spec w self P projs Hp). fold k.
    destruct (dict_mem projs k) eqn:E.
    - eexists. split; [ reflexivity | ]. split; [ | discriminate ].
      apply (projects_of_store self projs). exact Hp.
    - exists self. split; [ reflexivity | ]. split; [ | reflexivity ].
      rewrite Hp. f_equal. rewrite dict_del_filter by exact Hnd.
      symmetry. apply filter_other_keys. apply dict_mem_false. exact E. }
  destruct Hcases as (self' & Hrem & Hp' & Hsame).
  exists self'. split; [ exact Hrem | ].
  split; [ unfold remove_project in *; rewrite normalize_absolute; exact Hrem | ].
  split; [ rewrite Hp'; f_equal; apply dict_del_filter; exact Hnd | ].
  split.
  { rewrite (get_project_info_spec w self' P _ Hp'). fold k.
    rewrite dict_get_del_same by exact Hnd. reflexivity. }
  split.
  { intros Q HQ. rewrite (get_project_info_spec w self' Q _ Hp').
    rewrite (get_project_info_spec w self Q _ Hp).
    rewrite dict_get_del_other by (fold k in HQ; congruence). reflexivity. }
  intros Hnot. apply Hsame. apply dict_mem_false. exact Hnot.
Qed.

Lemma remove_project_removes_one_entry_witness :
  exists self',
    remove_project Sample.world SampleFs.two_projects (Path_of_string "/project1") = Ok self'
    /\ remove_project Sample.world SampleFs.two_projects
         (absolute Sample.world (Path_of_string "/project1")) = Ok self'
    /\ projects_of self'
       = Some (filter (fun kv => negb (fst kv =? _normalize_project_path Sample.world
                                                   (Path_of_string "/project1"))%string)
                 [("/project2", SampleFs.entry ["env_b"; "env_c"] "2024-03-10T12:00:00");
                  ("/project1", SampleFs.entry ["env_a"] "2024-03-08T12:00:00")])
    /\ get_project_info Sample.world self' (Path_of_string "/project1") = Ok VNone
    /\ (forall Q, _normalize_project_path Sample.world Q
                  <> _normalize_project_path Sample.world (Path_of_string "/project1") ->
                  get_project_info Sample.world self' Q
                  = get_project_info Sample.world SampleFs.two_projects Q)
    /\ (~ In (_normalize_project_path Sample.world (Path_of_string "/project1"))
             (keys [("/project2", SampleFs.entry ["env_b"; "env_c"] "2024-03-10T12:00:00");
                    ("/project1", SampleFs.entry ["env_a"] "2024-03-08T12:00:00")]) ->
        self' = SampleFs.two_projects).
Proof.
  apply (remove_project_removes_one_entry Sample.world SampleFs.two_projects
           (Path_of_string "/project1")
           [("/project2", SampleFs.entry ["env_b"; "env_c"] "2024-03-10T12:00:00");
            ("/project1", SampleFs.entry ["env_a"] "2024-03-08T12:00:00")]).
  - reflexivity.
  - apply unique_keys_NoDup. reflexivity.
Defined.

(** X2.  Adding a project that the ledger does not hold and removing it again
    gives back the ledger as it was, the order of the entries included. *)
Theorem add_then_remove_restores (w : World) (L : DatetimeLib) (now : datetime L)
  (self : ProjectMapping) (P : Path) (S : pyval) (projs : dict pyval) :
  projects_of self = Some projs ->
  ~ In (_normalize_project_path w P) (keys projs) ->
  exists self1,
    add_project w L now self P S = Ok self1
    /\ remove_project w self1 P = Ok self.
Proof.
  intros Hp Hk. set (k := _normalize_project_path w P).
  exists (store_projects self (VDict (dict_set projs k (entry_of L now S)))).
  split; [ apply add_project_spec; exact Hp | ].
  rewrite (remove_project_spec w _ P (dict_set projs k (entry_of L now S)))
    by (apply (projects_of_store self projs); exact Hp).
  fold k. unfold dict_mem. rewrite dict_get_set_same.
  rewrite store_projects_twice, dict_del_set_fresh by exact Hk.
  rewrite store_projects_same by exact Hp. reflexivity.
Qed.

Lemma add_then_remove_restores_witness :
  exists self1,
    add_project Sample.world Naive.lib Sample.at_noon SampleFs.two_projects
      (Path_of_string "/home/u/proj") (VList [VStr "env_a"]) = Ok self1
    /\ remove_project Sample.world self1 (Path_of_string "/home/u/proj")
       = Ok SampleFs.two_projects.
Proof.
  apply (add_then_remove_restores Sample.world Naive.lib Sample.at_noon
           SampleFs.two_projects (Path_of_string "/home/u/proj") (VList [VStr "env_a"])
           [("/project2", SampleFs.entry ["env_b"; "env_c"] "2024-03-10T12:00:00");
            ("/project1", SampleFs.entry ["env_a"] "2024-03-08T12:00:00")]).
  - reflexivity.
  - vm_compute. intuition discriminate.
Defined.

(** X3.  [add_project] succeeds on a ledger that has its dict of projects.
    A key that is already there keeps its place and a new key goes last; the
    entries under the other keys are not touched; and adding the same path a
    second time leaves only what the second call wrote. *)
Theorem add_project_leaves_the_others (w : World) (L : DatetimeLib) (now now' : datetime L)
  (self : ProjectMapping) (P : Path) (S S' : pyval) (projs : dict pyval) :
  projects_of self = Some projs ->
  exists self1 projs1,
    add_project w L now self P S = Ok self1
    /\ projects_of self1 = Some projs1
    /\ keys projs1 = (if dict_mem projs (_normalize_project_path w P)
                      then keys projs
                      else keys projs ++ [_normalize_project_path w P])
    /\ (forall Q, _normalize_project_path w Q <> _normalize_project_path w P ->
                  get_project_info w self1 Q = get_project_info w self Q)
    /\ add_project w L now' self1 P S' = add_project w L now' self P S'.
Proof.
  intros Hp. set (k := _normalize_project_path w P).
  pose proof (projects_of_store self projs (dict_set projs k (entry_of L now S)) Hp) as Hp1.
  exists (store_projects self (VDict (dict_set projs k (entry_of L now S)))),
    (dict_set projs k (entry_of L now S)).
  split; [ apply add_project_spec; exact Hp | ].
  split; [ exact Hp1 | ]. split; [ apply keys_dict_set | ].
  split.
  - intros Q HQ. rewrite (get_project_info_spec w _ Q _ Hp1).
    rewrite (get_project_info_spec w self Q _ Hp).
    rewrite dict_get_set_other by (fold k in HQ; congruence). reflexivity.
  - rewrite (add_project_spec w L now' _ P S' _ Hp1).
    rewrite (add_project_spec w L now' self P S' _ Hp). fold k.
    rewrite store_projects_twice, dict_set_twice. reflexivity.
Qed.

Lemma add_project_leaves_the_others_witness :
  exists self1 projs1,
    add_project Sample.world Naive.lib Sample.at_noon SampleFs.two_projects
      (Path_of_string "/project1") (VList [VStr "env_z"]) = Ok self1
    /\ projects_of self1 = Some projs1
    /\ keys projs1
       = (if dict_mem [("/project2", SampleFs.entry ["env_b"; "env_c"] "2024-03-10T12:00:00");
                       ("/project1", SampleFs.entry ["env_a"] "2024-03-08T12:00:00")]
                      (_normalize_project_path Sample.world (Path_of_string "/project1"))
          then keys [("/project2", SampleFs.entry ["env_b"; "env_c"] "2024-03-10T12:00:00");
                     ("/project1", SampleFs.entry ["env_a"] "2024-03-08T12:00:00")]
          else keys [("/project2", SampleFs.entry ["env_b"; "env_c"] "2024-03-10T12:00:00");
                     ("/project1", SampleFs.entry ["env_a"] "2024-03-08T12:00:00")]
               ++ [_normalize_project_path Sample.world (Path_of_string "/project1")])
    /\ (forall Q, _normalize_project_path Sample.world Q
                  <> _normalize_project_path Sample.world (Path_of_string "/project1") ->
                  get_project_info Sample.world self1 Q
                  = get_project_info Sample.world SampleFs.two_projects Q)
    /\ add_project Sample.world Naive.lib Sample.a_second_later self1
         (Path_of_string "/project1") (VList [])
       = add_project Sample.world Naive.lib Sample.a_second_later SampleFs.two_projects
           (Path_of_string "/project1") (VList []).
Proof.
  apply (add_project_leaves_the_others Sample.world Naive.lib Sample.at_noon
           Sample.a_second_later SampleFs.two_projects (Path_of_string "/project1")
           (VList [VStr "env_z"]) (VList [])
           [("/project2", SampleFs.entry ["env_b"; "env_c"] "2024-03-10T12:00:00");
            ("/project1", SampleFs.entry ["env_a"] "2024-03-08T12:00:00")]).
  reflexivity.
Defined.

(** ** Touching *)

Lemma update_last_synced_spec (w : World) (L : DatetimeLib) (now : datetime L)
  (self : ProjectMapping) (P : Path) (projs : dict pyval) :
  projects_of self = Some projs ->
  update_last_synced w L now self P
  = match dict_get projs (_normalize_project_path w P) with
    | None => Ok self
    | Some entry =>
        entry <- py_setitem entry "last_synced" (VStr (isoformat L now)) ;;
        Ok (store_projects self
              (VDict (dict_set projs (_normalize_project_path w P) entry)))
    end.
Proof.
  intros Hp. unfold update_last_synced. rewrite (projects_of_getitem _ _ Hp).
  cbn [bind py_contains py_getitem]. unfold dict_mem.
  destruct (dict_get projs (_normalize_project_path w P)) as [entry |]; [ | reflexivity ].
  cbn [bind]. destruct (py_setitem entry "last_synced" (VStr (isoformat L now)));
    reflexivity.
Qed.

(** X4.  On an entry that is a dict, [update_last_synced] succeeds and
    changes the field ["last_synced"] of that entry to the time read; the
    other fields of the entry and the order of the keys of the ledger stay as
    they are. *)
Theorem update_last_synced_changes_the_stamp_only (w : World) (L : DatetimeLib)
  (now : datetime L) (self : ProjectMapping) (P : Path)
  (projs : dict pyval) (e : dict pyval) :
  projects_of self = Some projs ->
  dict_get projs (_normalize_project_path w P) = Some (VDict e) ->
  exists self' projs' e',
    update_last_synced w L now self P = Ok self'
    /\ projects_of self' = Some projs'
    /\ keys projs' = keys projs
    /\ get_project_info w self' P = Ok (VDict e')
    /\ dict_get e' "last_synced" = Some (VStr (isoformat L now))
    /\ (forall field, field <> "last_synced" -> dict_get e' field = dict_get e field).
Proof.
  intros Hp He. set (k := _normalize_project_path w P) in *.
  set (e' := dict_set e "last_synced" (VStr (isoformat L now))).
  pose proof (projects_of_store self projs (dict_set projs k (VDict e')) Hp) as Hp'.
  exists (store_projects self (VDict (dict_set projs k (VDict e')))),
    (dict_set projs k (VDict e')), e'.
  split.
  { rewrite (update_last_synced_spec w L now self P projs Hp). fold k.
    rewrite He. reflexivity. }
  split; [ exact Hp' | ].
  split.
  { rewrite keys_dict_set. unfold dict_mem. rewrite He. reflexivity. }
  split.
  { rewrite (get_project_info_spec w _ P _ Hp'). fold k.
    rewrite dict_get_set_same. reflexivity. }
  split; [ apply dict_get_set_same | ].
  intros field Hf. apply dict_get_set_other. congruence.
Qed.

Lemma update_last_synced_changes_the_stamp_only_witness :
  exists self' projs' e',
    update_last_synced Sample.world Naive.lib Sample.a_second_later
      SampleFs.two_projects (Path_of_string "/project1") = Ok self'
    /\ projects_of self' = Some projs'
    /\ keys projs' = keys [("/project2", SampleFs.entry ["env_b"; "env_c"] "2024-03-10T12:00:00");
                           ("/project1", SampleFs.entry ["env_a"] "2024-03-08T12:00:00")]
    /\ get_project_info Sample.world self' (Path_of_string "/project1") = Ok (VDict e')
    /\ dict_get e' "last_synced" = Some (VStr (isoformat Naive.lib Sample.a_second_later))
    /\ (forall field, field <> "last_synced" ->
                      dict_get e' field
                      = dict_get [("environment_sets", VList (map VStr ["env_a"]));
                                  ("last_synced", VStr "2024-03-08T12:00:00")] field).
Proof.
  apply (update_last_synced_changes_the_stamp_only Sample.world Naive.lib
           Sample.a_second_later SampleFs.two_projects (Path_of_string "/project1")
           [("/project2", SampleFs.entry ["env_b"; "env_c"] "2024-03-10T12:00:00");
            ("/project1", SampleFs.entry ["env_a"] "2024-03-08T12:00:00")]
           [("environment_sets", VList (map VStr ["env_a"]));
            ("last_synced", VStr "2024-03-08T12:00:00")]).
  - reflexivity.
  - reflexivity.
Defined.

(** X5.  [update_last_synced] on a path that the ledger does not hold returns
    the ledger unchanged, without an error.  On an entry that is not a dict (a
    hand-edited file) it raises [TypeError]. *)
Theorem update_last_synced_edge_cases (w : World) (L : DatetimeLib)
  (now : datetime L) (self : ProjectMapping) (P : Path) (projs : dict pyval) :
  projects_of self = Some projs ->
  (~ In (_normalize_project_path w P) (keys projs) ->
   update_last_synced w L now self P = Ok self)
  /\ (forall entry,
        dict_get projs (_normalize_project_path w P) = Some entry ->
        is_dict entry = false ->
        exists msg, update_last_synced w L now self P = Raise (TypeError msg)).
Proof.
  intros Hp. rewrite (update_last_synced_spec w L now self P projs Hp). split.
  - intros H. apply dict_get_None in H. rewrite H. reflexivity.
  - intros entry He Hd. rewrite He. destruct entry; try discriminate; simpl; eauto.
Qed.

Lemma update_last_synced_edge_cases_witness :
  update_last_synced Sample.world Naive.lib Sample.at_noon
    (Sample.ledger_with (VDict [("projects", VDict [("/project1", VNone)])]))
    (Path_of_string "/elsewhere")
  = Ok (Sample.ledger_with (VDict [("projects", VDict [("/project1", VNone)])]))
  /\ exists msg,
       update_last_synced Sample.world Naive.lib Sample.at_noon
         (Sample.ledger_with (VDict [("projects", VDict [("/project1", VNone)])]))
         (Path_of_string "/project1") = Raise (TypeError msg).
Proof.
  split.
  - apply (proj1 (update_last_synced_edge_cases Sample.world Naive.lib Sample.at_noon
                    (Sample.ledger_with (VDict [("projects", VDict [("/project1", VNone)])]))
                    (Path_of_string "/elsewhere") [("/project1", VNone)] eq_refl)).
    vm_compute. intuition discriminate.
  - apply (proj2 (update_last_synced_edge_cases Sample.world Naive.lib Sample.at_noon
                    (Sample.ledger_with (VDict [("projects", VDict [("/project1", VNone)])]))
                    (Path_of_string "/project1") [("/project1", VNone)] eq_refl)
             VNone eq_refl eq_refl).
Defined.

(** ** A longer threshold *)

(** X8.  A longer threshold reports fewer projects.  Where both cutoffs can
    be computed and floating-point subtraction is monotone, every project
    that [find_projects_needing_sync] reports for [hours'] hours is reported
    for any [hours] that is not greater. *)
Theorem longer_threshold_reports_fewer (L : DatetimeLib) (now : datetime L)
  (self : ProjectMapping) (hours hours' : Z) (cutoff cutoff' : float L)
  (projs : dict pyval) :
  FloatLaws L ->
  projects_of self = Some projs ->
  entries_are_dicts projs = true ->
  (hours <= hours')%Z ->
  cutoff_of L now hours = Some cutoff ->
  cutoff_of L now hours' = Some cutoff' ->
  exists stale stale',
    find_projects_needing_sync L now self hours = Ok stale
    /\ find_projects_needing_sync L now self hours' = Ok stale'
    /\ incl stale' stale.
Proof.
  intros Hfl Hp Hd Hle Hc Hc'. eexists. eexists.
  split; [ apply (find_projects_needing_sync_spec L now self hours projs cutoff);
           assumption | ].
  split; [ apply (find_projects_needing_sync_spec L now self hours' projs cutoff');
           assumption | ].
  destruct (cutoff_of_steps L now hours cutoff Hc) as (x & Hx & Hm).
  destruct (cutoff_of_steps L now hours' cutoff' Hc') as (x' & Hx' & Hm').
  rewrite Hx in Hx'. injection Hx' as <-.
  intros r Hr. apply in_map_iff in Hr. destruct Hr as (kv & <- & I).
  apply in_map. apply filter_In in I. destruct I as [I Hs].
  apply filter_In. split; [ exact I | ].
  unfold needs_sync in *. destruct (snd kv) as [| | | | | d]; try discriminate.
  destruct (dict_get d "last_synced") as [v |]; [ | reflexivity ].
  destruct (truthy v); [ | reflexivity ].
  destruct v as [| | | s | |]; try reflexivity.
  destruct (fromisoformat L s) as [t |]; [ | reflexivity ].
  destruct (posix_timestamp L t) as [y |]; [ | reflexivity ].
  apply (float_minus_int_antitone L Hfl x cutoff cutoff' y (hours * 3600) (hours' * 3600));
    try assumption; lia.
Qed.

Lemma longer_threshold_reports_fewer_witness :
  exists stale stale',
    find_projects_needing_sync Naive.lib Sample.at_noon SampleLedgers.by_age 24 = Ok stale
    /\ find_projects_needing_sync Naive.lib Sample.at_noon SampleLedgers.by_age 72 = Ok stale'
    /\ incl stale' stale.
Proof.
  refine (longer_threshold_reports_fewer Naive.lib Sample.at_noon SampleLedgers.by_age
            24 72 (Naive.timestamp Sample.at_noon - 24 * 3600 * 1000000)%Z
            (Naive.timestamp Sample.at_noon - 72 * 3600 * 1000000)%Z
            _ naive_float_laws eq_refl eq_refl _ eq_refl eq_refl).
  vm_compute. discriminate.
Defined.

(** ** Sorting by key *)

Lemma string_leb_trans (a b c : string) :
  (a <=? b)%string = true -> (b <=? c)%string = true -> (a <=? c)%string = true.
Proof.
  unfold String.leb. revert b c.
  induction a as [| ca a IH]; intros [| cb b] [| cc c]; simpl; try congruence.
  unfold Ascii.compare.
  destruct (N.compare_spec (N_of_ascii ca) (N_of_ascii cb)) as [E1 | L1 | G1];
    destruct (N.compare_spec (N_of_ascii cb) (N_of_ascii cc)) as [E2 | L2 | G2];
    destruct (N.compare_spec (N_of_ascii ca) (N_of_ascii cc)) as [E3 | L3 | G3];
    try congruence; try lia; try (intros; reflexivity).
  apply IH.
Qed.

Lemma sorted_head_least {V : Type} (x : string * V) (l : list (string * V)) :
  Sorted key_le (x :: l) -> forall y, In y l -> key_le x y.
Proof.
  revert x. induction l as [| z l IH]; intros x Hs y I; [ destruct I | ].
  inversion Hs as [| ? ? Hs' Hhd]; subst. inversion Hhd; subst.
  destruct I as [<- | I]; [ assumption | ].
  assert (key_le z y) by (apply IH; assumption).
  unfold key_le in *. eapply string_leb_trans; eassumption.
Qed.

Lemma sorted_unique {V : Type} (a b : list (string * V)) :
  Sorted key_le a -> Sorted key_le b -> Permutation a b -> NoDup (keys a) -> a = b.
Proof.
  revert b. induction a as [| x a IH]; intros b Ha Hb Hp Hnd.
  - apply Permutation_nil in Hp. congruence.
  - destruct b as [| y b]; [ apply Permutation_sym, Permutation_nil in Hp; discriminate | ].
    assert (Exy : x = y).
    { assert (Ix : In x (y :: b)) by (apply (Permutation_in _ Hp); simpl; auto).
      assert (Iy : In y (x :: a))
        by (apply (Permutation_in _ (Permutation_sym Hp)); simpl; auto).
      destruct Ix as [E | Ix]; [ congruence | ].
      destruct Iy as [E | Iy]; [ congruence | ].
      pose proof (sorted_head_least x a Ha y Iy) as H1.
      pose proof (sorted_head_least y b Hb x Ix) as H2.
      pose proof (String.leb_antisym _ _ H1 H2) as Ek.
      exfalso. inversion Hnd as [| ? ? Hnot _]; subst. apply Hnot.
      rewrite Ek. unfold keys. apply in_map. exact Iy. }
    subst y. f_equal. apply IH.
    + inversion Ha; assumption.
    + inversion Hb; assumption.
    + apply (Permutation_cons_inv Hp).
    + inversion Hnd; assumption.
Qed.

Lemma sorted_items_of_permutation {V : Type} (a b : list (string * V)) :
  Permutation a b -> NoDup (keys a) -> sorted_items a = sorted_items b.
Proof.
  intros Hp Hnd. apply sorted_unique.
  - apply sorted_items_sorted.
  - apply sorted_items_sorted.
  - rewrite (sorted_items_perm a), (sorted_items_perm b). exact Hp.
  - apply (NoDup_keys_perm a); [ symmetry; apply sorted_items_perm | exact Hnd ].
Qed.

Lemma sorted_items_of_sorted {V : Type} (l : list (string * V)) :
  Sorted key_le l -> sorted_items l = l.
Proof.
  induction l as [| x l IH]; intros Hs; [ reflexivity | ].
  inversion Hs as [| ? ? Hs' Hhd]; subst. simpl. rewrite IH by exact Hs'.
  destruct Hhd as [| y l' Hxy]; simpl; [ reflexivity | ].
  unfold key_le in Hxy. rewrite Hxy. reflexivity.
Qed.

Lemma sorted_items_idempotent {V : Type} (l : list (string * V)) :
  sorted_items (sorted_items l) = sorted_items l.
Proof. apply sorted_items_of_sorted, sorted_items_sorted. Qed.

Lemma dict_set_fresh {V : Type} (d : dict V) (k : string) (v : V) :
  ~ In k (keys d) -> dict_set d k v = d ++ [(k, v)].
Proof.
  induction d as [| [k' v'] r IH]; simpl; intros H; [ reflexivity | ].
  destruct (String.eqb_spec k' k) as [-> | Hne]; [ exfalso; auto | ].
  rewrite IH; auto.
Qed.

(** ** Loading a mapping *)

(** X9.  A backing file whose document is a mapping loads without a warning.
    A mapping with the key ["projects"] is returned as it was read, whatever
    stands under the key; to a mapping without the key, the key is added last
    with an empty dict, and the other keys are kept. *)
Theorem load_mapping_keeps_a_mapping (w : World) (fs : filesystem) (path : Path)
  (l : list (string * node)) :
  path_exists w fs path = Ok true ->
  open_read w fs path = Ok (Document (NMap l)) ->
  exists d,
    construct (NMap l) = VDict d
    /\ _load_mapping w fs path
       = Ok (VDict (if dict_mem d "projects" then d else d ++ [("projects", VDict [])]), []).
Proof.
  intros Hex Hread.
  set (d := fold_left (fun acc kv => dict_set acc (fst kv) (construct (snd kv))) l []).
  exists d. split; [ reflexivity | ].
  unfold _load_mapping. rewrite Hex, Hread. cbn [negb bind try_except safe_load construct].
  fold d.
  assert (Hor : py_or (VDict d) (VDict []) = VDict d)
    by (unfold py_or; destruct d; reflexivity).
  rewrite Hor. cbn [py_contains bind].
  destruct (dict_mem d "projects") eqn:E; cbn [negb bind py_setitem try_except].
  - reflexivity.
  - rewrite dict_set_fresh by (apply dict_mem_false; exact E). reflexivity.
Qed.

Lemma load_mapping_keeps_a_mapping_witness :
  exists d,
    construct (NMap [("version", NInt 2); ("version", NInt 3)]) = VDict d
    /\ _load_mapping Sample.world
         (SampleFs.holding (Document (NMap [("version", NInt 2); ("version", NInt 3)])))
         (mapping_path Sample.fresh)
       = Ok (VDict (if dict_mem d "projects" then d else d ++ [("projects", VDict [])]), []).
Proof.
  apply (load_mapping_keeps_a_mapping Sample.world
           (SampleFs.holding (Document (NMap [("version", NInt 2); ("version", NInt 3)])))
           (mapping_path Sample.fresh) [("version", NInt 2); ("version", NInt 3)]).
  - reflexivity.
  - reflexivity.
Defined.

(** X10.  Where the existence test answers, whatever the backing file is,
    the data [_load_mapping] returns passes the test ["projects" in data], and
    no dict inside it holds a key twice. *)
Theorem loaded_data_contains_projects (w : World) (fs : filesystem) (path : Path)
  (present : bool) :
  path_exists w fs path = Ok present ->
  exists data out,
    _load_mapping w fs path = Ok (data, out)
    /\ py_contains data "projects" = Ok true
    /\ well_formed data = true.
Proof.
  intros Hex.
  destruct (load_mapping_total w fs path present Hex) as (data & out & Hload).
  exists data, out. split; [ exact Hload | ].
  split; [ | apply (load_mapping_well_formed _ _ _ _ _ Hload) ].
  revert Hload. unfold _load_mapping. rewrite Hex. cbn [bind].
  destruct present; cbn [negb];
    [ | intros H; injection H as <- _; reflexivity ].
  destruct (open_read w fs path) as [t | e]; cbn [bind try_except];
    [ | intros H; injection H as <- _; reflexivity ].
  destruct (safe_load t) as [v | e]; cbn [bind try_except];
    [ | intros H; injection H as <- _; reflexivity ].
  destruct (py_contains (py_or v (VDict [])) "projects") as [found | e] eqn:Ec;
    cbn [bind try_except]; [ | intros H; injection H as <- _; reflexivity ].
  destruct found; cbn [negb bind try_except].
  - intros H. injection H as <- _. exact Ec.
  - destruct (py_setitem (py_or v (VDict [])) "projects" (VDict [])) as [v' | e] eqn:Es;
      cbn [bind try_except]; [ | intros H; injection H as <- _; reflexivity ].
    intros H. injection H as <- _.
    apply setitem_inv in Es. destruct Es as (d & _ & ->).
    cbn [py_contains]. unfold dict_mem. rewrite dict_get_set_same. reflexivity.
Qed.

Lemma loaded_data_contains_projects_witness :
  exists data out,
    _load_mapping Sample.world (SampleFs.holding (Document (NStr "my projects")))
      (mapping_path Sample.fresh) = Ok (data, out)
    /\ py_contains data "projects" = Ok true
    /\ well_formed data = true.
Proof.
  apply (loaded_data_contains_projects Sample.world
           (SampleFs.holding (Document (NStr "my projects")))
           (mapping_path Sample.fresh) true).
  reflexivity.
Defined.

(** ** Saving *)

Lemma firstn_longer (i : nat) (k : list string) (x : string) :
  names_eqb (firstn i k) (k ++ [x]) = false.
Proof.
  destruct (names_eqb (firstn i k) (k ++ [x])) eqn:E; [ | reflexivity ].
  apply names_eqb_eq in E. apply (f_equal (@List.length string)) in E.
  rewrite length_app in E. cbn [List.length] in E.
  rewrite length_firstn in E. lia.
Qed.

Lemma save_mapping_result (w : World) (fs : filesystem) (self : ProjectMapping)
  (projs : dict pyval) :
  initialised self ->
  projects_of self = Some projs ->
  can_write w fs self = true ->
  save_mapping w fs self
  = Ok (store_projects self (VDict (sorted_items projs)),
        fs_after_save w fs self
          (mapping_data (store_projects self (VDict (sorted_items projs))))).
Proof.
  intros Hinit Hp Hw.
  destruct (can_write_facts w fs self Hw) as (Hst & Hsm & Hblocked & Hnodir & Hfile).
  pose proof (projects_of_getitem _ _ Hp) as Hget.
  unfold save_mapping, fs_after_save. unfold initialised in Hinit.
  rewrite Hinit in Hnodir, Hfile, Hsm. rewrite Hinit.
  rewrite parent_truediv_filename. unfold mkdir_parents. rewrite Hst, Hblocked.
  cbn [bind]. rewrite Hget. cbn [bind py_items].
  unfold projects_of in Hp. destruct (mapping_data self) as [| | | | | d] eqn:Hd; try discriminate.
  cbn [py_setitem bind mapping_path mapping_data].
  unfold open_write. cbn [is_dir file_at stat_error]. rewrite Hsm.
  rewrite locate_truediv_filename in *.
  rewrite names_prefix_longer, Hnodir. cbn [orb].
  rewrite removelast_last, names_prefix_refl. cbn [orb negb].
  unfold store_projects. rewrite Hd, ?Hinit. cbn [mapping_data].
  destruct (file_at fs (locate w (templates_dir self) ++ [MAPPING_FILENAME])) as [f |] eqn:Hf.
  - rewrite Hfile. reflexivity.
  - reflexivity.
Qed.

Lemma existsb_same {A : Type} (f g : A -> bool) (l : list A) :
  (forall x, f x = g x) -> existsb f l = existsb g l.
Proof.
  intros H. induction l as [| x l IH]; simpl; [ reflexivity | ].
  rewrite H, IH. reflexivity.
Qed.

Lemma can_write_after_save (w : World) (fs : filesystem) (self : ProjectMapping)
  (data : pyval) (self' : ProjectMapping) :
  initialised self ->
  templates_dir self' = templates_dir self ->
  mapping_path self' = mapping_path self ->
  can_write w fs self = true ->
  can_write w (fs_after_save w fs self data) self' = true.
Proof.
  intros Hinit Ht Hm Hw.
  destruct (can_write_facts w fs self Hw) as (Hst & Hsm & Hblocked & Hnodir & _).
  unfold can_write. rewrite Ht, Hm.
  unfold fs_after_save, answers. cbn [is_dir file_at stat_error].
  rewrite Hst, Hsm.
  unfold initialised in Hinit. rewrite Hinit in *.
  rewrite locate_truediv_filename in *.
  rewrite names_eqb_refl, names_prefix_longer, Hnodir. cbn [orb negb andb].
  cbn [writable]. rewrite !andb_true_r. apply negb_true_iff.
  unfold blocked_by_file in *.
  erewrite existsb_same; [ exact Hblocked | ].
  intros i. cbn [file_at]. rewrite firstn_longer. reflexivity.
Qed.

Lemma store_projects_fields (self : ProjectMapping) (v : pyval) :
  templates_dir (store_projects self v) = templates_dir self
  /\ mapping_path (store_projects self v) = mapping_path self.
Proof. split; reflexivity. Qed.

(** X11.  [save_mapping] changes nothing in the object but the order of the
    projects: the templates directory and the path of the backing file stay,
    the top-level keys of the data keep their order, and every key other than
    ["projects"] keeps its value. *)
Theorem save_mapping_keeps_the_other_keys (w : World) (fs : filesystem)
  (self : ProjectMapping) (projs : dict pyval) (d : dict pyval) :
  initialised self ->
  mapping_data self = VDict d ->
  projects_of self = Some projs ->
  can_write w fs self = true ->
  exists self' fs' d',
    save_mapping w fs self = Ok (self', fs')
    /\ templates_dir self' = templates_dir self
    /\ mapping_path self' = mapping_path self
    /\ mapping_data self' = VDict d'
    /\ keys d' = keys d
    /\ (forall k, k <> "projects" -> dict_get d' k = dict_get d k).
Proof.
  intros Hinit Hd Hp Hw.
  exists (store_projects self (VDict (sorted_items projs))).
  eexists. exists (dict_set d "projects" (VDict (sorted_items projs))).
  split; [ apply save_mapping_result; assumption | ].
  split; [ reflexivity | ]. split; [ reflexivity | ].
  split; [ unfold store_projects; rewrite Hd; reflexivity | ].
  split.
  { rewrite keys_dict_set. unfold dict_mem. unfold projects_of in Hp. rewrite Hd in Hp.
    destruct (dict_get d "projects"); [ reflexivity | discriminate ]. }
  intros k Hk. apply dict_get_set_other. congruence.
Qed.

Lemma save_mapping_keeps_the_other_keys_witness :
  exists self' fs' d',
    save_mapping Sample.world SampleFs.bare
      (Sample.ledger_with
         (VDict [("version", VInt 2);
                 ("projects",
                  VDict [("/project2", SampleFs.entry ["env_b"] "2024-03-10T12:00:00");
                         ("/project1", SampleFs.entry ["env_a"] "2024-03-08T12:00:00")])]))
    = Ok (self', fs')
    /\ templates_dir self' = Sample.templates
    /\ mapping_path self' = truediv Sample.templates MAPPING_FILENAME
    /\ mapping_data self' = VDict d'
    /\ keys d' = ["version"; "projects"]
    /\ (forall k, k <> "projects" ->
                  dict_get d' k
                  = dict_get
                      [("version", VInt 2);
                       ("projects",
                        VDict [("/project2", SampleFs.entry ["env_b"] "2024-03-10T12:00:00");
                               ("/project1", SampleFs.entry ["env_a"] "2024-03-08T12:00:00")])]
                      k).
Proof.
  apply (save_mapping_keeps_the_other_keys Sample.world SampleFs.bare
           (Sample.ledger_with
              (VDict [("version", VInt 2);
                      ("projects",
                       VDict [("/project2", SampleFs.entry ["env_b"] "2024-03-10T12:00:00");
                              ("/project1", SampleFs.entry ["env_a"] "2024-03-08T12:00:00")])]))
           [("/project2", SampleFs.entry ["env_b"] "2024-03-10T12:00:00");
            ("/project1", SampleFs.entry ["env_a"] "2024-03-08T12:00:00")]
           [("version", VInt 2);
            ("projects",
             VDict [("/project2", SampleFs.entry ["env_b"] "2024-03-10T12:00:00");
                    ("/project1", SampleFs.entry ["env_a"] "2024-03-08T12:00:00")])]).
  - reflexivity.
  - reflexivity.
  - reflexivity.
  - reflexivity.
Defined.

(** X12.  Saving twice is saving once: the second [save_mapping] returns the
    object the first one returned and writes the same file. *)
Theorem save_mapping_twice (w : World) (fs : filesystem) (self : ProjectMapping)
  (projs : dict pyval) :
  initialised self ->
  projects_of self = Some projs ->
  can_write w fs self = true ->
  exists self1 fs1 fs2,
    save_mapping w fs self = Ok (self1, fs1)
    /\ save_mapping w fs1 self1 = Ok (self1, fs2)
    /\ file_at fs2 (locate w (mapping_path self)) = file_at fs1 (locate w (mapping_path self)).
Proof.
  intros Hinit Hp Hw.
  set (self1 := store_projects self (VDict (sorted_items projs))).
  assert (Hp1 : projects_of self1 = Some (sorted_items projs))
    by (apply (projects_of_store self projs); exact Hp).
  assert (Hw1 : can_write w (fs_after_save w fs self (mapping_data self1)) self1 = true)
    by (apply can_write_after_save; auto).
  exists self1, (fs_after_save w fs self (mapping_data self1)),
    (fs_after_save w (fs_after_save w fs self (mapping_data self1)) self1
       (mapping_data self1)).
  split; [ apply save_mapping_result; assumption | ].
  split.
  { rewrite (save_mapping_result w _ self1 (sorted_items projs)); auto.
    rewrite sorted_items_idempotent. unfold self1. rewrite store_projects_twice.
    reflexivity. }
  unfold fs_after_save. cbn [file_at mapping_path store_projects self1].
  rewrite !names_eqb_refl. reflexivity.
Qed.

Lemma save_mapping_twice_witness :
  exists self1 fs1 fs2,
    save_mapping Sample.world SampleFs.bare SampleFs.two_projects = Ok (self1, fs1)
    /\ save_mapping Sample.world fs1 self1 = Ok (self1, fs2)
    /\ file_at fs2 (locate Sample.world (mapping_path SampleFs.two_projects))
       = file_at fs1 (locate Sample.world (mapping_path SampleFs.two_projects)).
Proof.
  apply (save_mapping_twice Sample.world SampleFs.bare SampleFs.two_projects
           [("/project2", SampleFs.entry ["env_b"; "env_c"] "2024-03-10T12:00:00");
            ("/project1", SampleFs.entry ["env_a"] "2024-03-08T12:00:00")]).
  - reflexivity.
  - reflexivity.
  - reflexivity.
Defined.

(** X13.  What [save_mapping] writes does not depend on the order in which
    the projects were added: two ledgers holding the same entries in different
    orders give the same object and the same file system. *)
Theorem save_mapping_ignores_insertion_order (w : World) (fs : filesystem)
  (self : ProjectMapping) (projs projs' : dict pyval) :
  projects_of self = Some projs ->
  NoDup (keys projs) ->
  Permutation projs projs' ->
  save_mapping w fs (store_projects self (VDict projs')) = save_mapping w fs self.
Proof.
  intros Hp Hnd Hperm.
  unfold projects_of in Hp. destruct self as [t m data]. cbn [mapping_data] in Hp.
  destruct data as [| | | | | d]; try discriminate.
  destruct (dict_get d "projects") as [[| | | | | q] |] eqn:E; try discriminate.
  injection Hp as ->.
  unfold save_mapping, store_projects. cbn [mapping_path templates_dir mapping_data].
  destruct (mkdir_parents w fs (parent m)) as [fs1 | e]; [ | reflexivity ].
  cbn [bind py_getitem]. rewrite dict_get_set_same, E. cbn [bind py_items py_setitem].
  rewrite dict_set_twice, <- (sorted_items_of_permutation projs projs' Hperm Hnd).
  reflexivity.
Qed.

Lemma save_mapping_ignores_insertion_order_witness :
  save_mapping Sample.world SampleFs.bare
    (store_projects SampleFs.two_projects
       (VDict [("/project1", SampleFs.entry ["env_a"] "2024-03-08T12:00:00");
               ("/project2", SampleFs.entry ["env_b"; "env_c"] "2024-03-10T12:00:00")]))
  = save_mapping Sample.world SampleFs.bare SampleFs.two_projects.
Proof.
  apply (save_mapping_ignores_insertion_order Sample.world SampleFs.bare
           SampleFs.two_projects
           [("/project2", SampleFs.entry ["env_b"; "env_c"] "2024-03-10T12:00:00");
            ("/project1", SampleFs.entry ["env_a"] "2024-03-08T12:00:00")]).
  - reflexivity.
  - apply unique_keys_NoDup. reflexivity.
  - apply perm_swap.
Defined.

(** ** Projects by environment set *)

(** X14.  On a ledger whose entries are dicts with lists of strings,
    [get_projects_by_environment_set] returns, in the order of the ledger, one
    dict for each entry whose list holds the name: the entry with its key added
    under ["path"].  When no list repeats a name, the number of dicts returned
    is the count [get_environment_set_usage] gives for the name. *)
Theorem projects_by_environment_set_exact (self : ProjectMapping) (name : string)
  (projs : dict pyval) :
  projects_of self = Some projs ->
  shaped projs = true ->
  exists found,
    get_projects_by_environment_set self name = Ok found
    /\ found = map annotated (filter (fun kv => listed (sets_of (snd kv)) name) projs)
    /\ (forall r, In r found
                  <-> exists k d, In (k, VDict d) projs
                                  /\ In name (sets_of (VDict d))
                                  /\ r = VDict (dict_set d "path" (VStr k)))
    /\ ((forall kv, In kv projs -> NoDup (sets_of (snd kv))) ->
        exists usage,
          get_environment_set_usage self = Ok usage
          /\ counter_get usage (VStr name) 0 = Z.of_nat (List.length found)).
Proof.
  intros Hp Hs.
  pose proof (shaped_entries_are_dicts projs Hs) as Hd.
  unfold entries_are_dicts in Hd. rewrite forallb_forall in Hd.
  exists (map annotated (filter (fun kv => listed (sets_of (snd kv)) name) projs)).
  split; [ exact (get_projects_by_environment_set_spec self name projs Hp Hs) | ].
  split; [ reflexivity | ].
  split.
  - intros r. rewrite in_map_iff. split.
    + intros ([k v] & <- & I). apply filter_In in I. destruct I as [I Hl].
      pose proof (Hd _ I) as Hv. simpl in Hv. destruct v as [| | | | | d]; try discriminate.
      exists k, d. split; [ exact I | ]. split; [ apply listed_In; exact Hl | reflexivity ].
    + intros (k & d & I & Hn & ->). exists (k, VDict d). split; [ reflexivity | ].
      apply filter_In. split; [ exact I | apply listed_In; exact Hn ].
  - intros Hnd. exists (tally [] (all_names projs)).
    split; [ exact (get_environment_set_usage_spec self projs Hp Hs) | ].
    rewrite counter_get_tally, count_occ_all_names, (occurrences_users name projs Hnd).
    rewrite length_map. unfold users. simpl. lia.
Qed.

Lemma projects_by_environment_set_exact_witness :
  exists found,
    get_projects_by_environment_set
      (Sample.ledger_with (VDict [("projects", VDict SampleLedgers.hand_edited)])) "env_a"
    = Ok found
    /\ found = map annotated
                 (filter (fun kv => listed (sets_of (snd kv)) "env_a") SampleLedgers.hand_edited)
    /\ (forall r, In r found
                  <-> exists k d, In (k, VDict d) SampleLedgers.hand_edited
                                  /\ In "env_a" (sets_of (VDict d))
                                  /\ r = VDict (dict_set d "path" (VStr k)))
    /\ ((forall kv, In kv SampleLedgers.hand_edited -> NoDup (sets_of (snd kv))) ->
        exists usage,
          get_environment_set_usage
            (Sample.ledger_with (VDict [("projects", VDict SampleLedgers.hand_edited)]))
          = Ok usage
          /\ counter_get usage (VStr "env_a") 0 = Z.of_nat (List.length found)).
Proof.
  apply (projects_by_environment_set_exact
           (Sample.ledger_with (VDict [("projects", VDict SampleLedgers.hand_edited)]))
           "env_a" SampleLedgers.hand_edited).
  - reflexivity.
  - reflexivity.
Defined.

(** ** Keys and the paths they stand for *)

Lemma append_nil_r (s : string) : (s ++ "")%string = s.
Proof.
  induction s as [| c s IH]; simpl; [ reflexivity | rewrite IH; reflexivity ].
Qed.

Lemma string_append_assoc (a b c : string) : ((a ++ b) ++ c)%string = (a ++ (b ++ c))%string.
Proof.
  induction a as [| x a IH]; simpl; [ reflexivity | rewrite IH; reflexivity ].
Qed.

Lemma split_slash_aux_name (cur s rest : string) :
  has_slash s = false ->
  split_slash_aux cur (s ++ rest)%string = split_slash_aux (cur ++ s)%string rest.
Proof.
  revert cur. induction s as [| c s IH]; intros cur H; simpl.
  - rewrite append_nil_r. reflexivity.
  - simpl in H. apply orb_false_iff in H. destruct H as [Hc Hs].
    rewrite Hc, IH by exact Hs. rewrite string_append_assoc. reflexivity.
Qed.

Lemma split_slash_aux_concat (cur x : string) (t : list string) :
  forallb proper_name (x :: t) = true ->
  split_slash_aux cur (String.concat "/" (x :: t)) = (cur ++ x)%string :: t.
Proof.
  revert cur x. induction t as [| y t IH]; intros cur x H.
  - simpl in *. rewrite <- (append_nil_r x) at 1.
    rewrite split_slash_aux_name; [ reflexivity | ].
    unfold proper_name in H. rewrite andb_true_r in H.
    apply andb_true_iff in H. destruct H as [_ H]. apply negb_true_iff. exact H.
  - cbn [forallb] in H. apply andb_true_iff in H. destruct H as [Hx Ht].
    change (String.concat "/" (x :: y :: t))
      with (x ++ "/" ++ String.concat "/" (y :: t))%string.
    rewrite split_slash_aux_name.
    + cbn [append split_slash_aux]. rewrite Ascii.eqb_refl.
      rewrite IH by exact Ht. reflexivity.
    + unfold proper_name in Hx. apply andb_true_iff in Hx. destruct Hx as [_ Hx].
      apply negb_true_iff. exact Hx.
Qed.

Lemma filter_kept_proper (ns : list string) :
  forallb proper_name ns = true -> filter kept_name ns = ns.
Proof.
  induction ns as [| x ns IH]; simpl; [ reflexivity | ].
  rewrite andb_true_iff. intros [Hx Hns]. unfold proper_name in Hx.
  apply andb_true_iff in Hx. destruct Hx as [Hx _]. rewrite Hx, IH by exact Hns.
  reflexivity.
Qed.

Lemma leading_slashes_concat (ns : list string) :
  forallb proper_name ns = true -> leading_slashes (String.concat "/" ns) = 0.
Proof.
  destruct ns as [| x t]; [ reflexivity | ].
  cbn [forallb]. rewrite andb_true_iff. intros [Hx _].
  unfold proper_name, kept_name in Hx.
  destruct x as [| c x]; [ discriminate | ].
  simpl in Hx. apply andb_true_iff in Hx. destruct Hx as [_ Hx].
  apply negb_true_iff, orb_false_iff in Hx. destruct Hx as [Hc _].
  destruct t; simpl; rewrite Hc; reflexivity.
Qed.

Lemma names_of_concat (ns : list string) :
  forallb proper_name ns = true ->
  filter kept_name (split_slash (String.concat "/" ns)) = ns.
Proof.
  intros H. destruct ns as [| x t]; [ reflexivity | ].
  unfold split_slash. rewrite split_slash_aux_concat by exact H.
  apply filter_kept_proper. exact H.
Qed.

(** Writing a path and reading it again gives the path. *)
Lemma Path_of_string_Path_str (p : Path) :
  forallb proper_name (names p) = true -> Path_of_string (Path_str p) = p.
Proof.
  destruct p as [a ns]. cbn [names]. intros H.
  pose proof (leading_slashes_concat ns H) as Hl.
  pose proof (names_of_concat ns H) as Hn.
  unfold Path_str, Path_of_string. cbn [root names].
  destruct a.
  - destruct ns as [| x t]; [ reflexivity | ].
    cbn [anchor_str append]. rewrite Hl, Hn. reflexivity.
  - cbn [anchor_str append leading_slashes]. rewrite Ascii.eqb_refl, Hl.
    unfold split_slash in *. cbn [split_slash_aux]. rewrite Ascii.eqb_refl.
    cbn [filter kept_name]. simpl negb. cbn [andb]. rewrite Hn. reflexivity.
  - cbn [anchor_str append leading_slashes]. rewrite !Ascii.eqb_refl, Hl.
    unfold split_slash in *. cbn [split_slash_aux]. rewrite !Ascii.eqb_refl.
    cbn [filter kept_name]. simpl negb. cbn [andb]. rewrite Hn. reflexivity.
Qed.

Lemma names_prefix_skipn (a b : list string) :
  names_prefix a b = true -> a ++ skipn (List.length a) b = b.
Proof.
  revert b. induction a as [| x a IH]; intros [| y b]; simpl; try discriminate;
    try reflexivity.
  rewrite andb_true_iff. intros [E H]. apply String.eqb_eq in E. subst y.
  rewrite IH by exact H. reflexivity.
Qed.

Lemma anchor_eqb_eq (a b : anchor) : anchor_eqb a b = true -> a = b.
Proof. destruct a, b; simpl; congruence. Qed.

Lemma forallb_skipn {A : Type} (f : A -> bool) (n : nat) (l : list A) :
  forallb f l = true -> forallb f (skipn n l) = true.
Proof.
  revert l. induction n as [| n IH]; intros [| x l]; simpl; auto.
  rewrite andb_true_iff. intros [_ H]. auto.
Qed.

Lemma stored_key_expansion (w : World) (P : Path) :
  forallb proper_name (names (resolve w P)) = true ->
  expanduser w (Path_of_string (_normalize_project_path w P)) = Ok (resolve w P).
Proof.
  intros Hproper.
  assert (Hroot : root (resolve w P) <> Relative) by apply resolve_rooted.
  unfold _normalize_project_path, relative_to.
  destruct (is_relative_to (resolve w P) (home w)) eqn:Hrel.
  - unfold is_relative_to in Hrel. apply andb_true_iff in Hrel.
    destruct Hrel as [Ha Hpre]. apply anchor_eqb_eq in Ha.
    set (rel := skipn (List.length (names (home w))) (names (resolve w P))).
    assert (Hk : Path_of_string (Path_str (rtruediv "~" {| root := Relative; names := rel |}))
                 = {| root := Relative; names := "~" :: rel |}).
    { apply (Path_of_string_Path_str {| root := Relative; names := "~" :: rel |}).
      cbn [names forallb]. apply andb_true_iff. split; [ reflexivity | ].
      apply forallb_skipn. exact Hproper. }
    rewrite Hk. unfold expanduser. cbn [root names].
    change (String.prefix "~" "~") with true.
    change (("~" =? "~")%string) with true. cbv iota.
    unfold joinpath. cbn [root names]. unfold rel.
    rewrite names_prefix_skipn by exact Hpre. rewrite <- Ha.
    destruct (resolve w P); reflexivity.
  - rewrite (Path_of_string_Path_str _ Hproper). apply expanduser_rooted. exact Hroot.
Qed.

(** X15.  When the names of the resolved path are ordinary names (not
    empty, not ["."], no slash), the key [_normalize_project_path] stores is
    read back by [Path(key).expanduser()], as [cleanup_missing_projects] does
    it, as the resolved path; so, where the existence test on the resolved
    path answers, the key counts as missing exactly when the resolved path
    does not exist.  Outside the home directory the key is the resolved path
    itself and starts with a slash. *)
Theorem stored_key_expands_to_the_resolved_path (w : World) (P : Path) :
  forallb proper_name (names (resolve w P)) = true ->
  expanduser w (Path_of_string (_normalize_project_path w P)) = Ok (resolve w P)
  /\ (forall fs present,
        path_exists w fs (resolve w P) = Ok present ->
        gone w fs (_normalize_project_path w P) = negb present)
  /\ (is_relative_to (resolve w P) (home w) = false ->
      _normalize_project_path w P = Path_str (resolve w P)
      /\ String.prefix "/" (_normalize_project_path w P) = true).
Proof.
  intros Hproper.
  assert (Hroot : root (resolve w P) <> Relative) by apply resolve_rooted.
  pose proof (stored_key_expansion w P Hproper) as Hexp.
  split; [ exact Hexp | ].
  split; [ intros fs present Hex; unfold gone; rewrite Hexp, Hex; reflexivity | ].
  intros Hrel. unfold _normalize_project_path. rewrite Hrel.
  split; [ reflexivity | ].
  unfold Path_str.
  destruct (root (resolve w P)); [ contradiction | | ];
    cbn [anchor_str append]; destruct (String.concat "/" (names (resolve w P)));
    reflexivity.
Qed.

Lemma stored_key_expands_to_the_resolved_path_witness :
  expanduser Sample.world
    (Path_of_string (_normalize_project_path Sample.world (Path_of_string "//home/u/proj")))
  = Ok (resolve Sample.world (Path_of_string "//home/u/proj"))
  /\ (forall fs present,
        path_exists Sample.world fs (resolve Sample.world (Path_of_string "//home/u/proj"))
        = Ok present ->
        gone Sample.world fs
          (_normalize_project_path Sample.world (Path_of_string "//home/u/proj"))
        = negb present)
  /\ (is_relative_to (resolve Sample.world (Path_of_string "//home/u/proj"))
                     (home Sample.world) = false ->
      _normalize_project_path Sample.world (Path_of_string "//home/u/proj")
      = Path_str (resolve Sample.world (Path_of_string "//home/u/proj"))
      /\ String.prefix "/" (_normalize_project_path Sample.world
                              (Path_of_string "//home/u/proj")) = true).
Proof.
  apply (stored_key_expands_to_the_resolved_path Sample.world
           (Path_of_string "//home/u/proj")).
  reflexivity.
Defined.

(** A path written with two slashes resolves under one, and is stored like
    the same path written with one. *)
Lemma double_slash_example :
  resolve Sample.world (Path_of_string "//home/u/proj") = Path_of_string "/home/u/proj"
  /\ _normalize_project_path Sample.world (Path_of_string "//home/u/proj") = "~/proj"
  /\ _normalize_project_path Sample.server (Path_of_string "//srv/proj") = "/srv/proj".
Proof.
  repeat split; reflexivity.
Qed.

(** ** Cleaning up twice, and after adding *)

Lemma filter_gone_nil (w : World) (fs : filesystem) (projs : dict pyval) :
  filter (gone w fs) (keys (filter (fun kv => negb (gone w fs (fst kv))) projs)) = [].
Proof.
  induction projs as [| [k v] r IH]; simpl; [ reflexivity | ].
  destruct (gone w fs k) eqn:E; simpl; [ exact IH | ].
  rewrite E. exact IH.
Qed.

Lemma filter_twice {A : Type} (f : A -> bool) (l : list A) :
  filter f (filter f l) = filter f l.
Proof.
  induction l as [| x l IH]; simpl; [ reflexivity | ].
  destruct (f x) eqn:E; simpl; [ rewrite E, IH; reflexivity | exact IH ].
Qed.

Lemma forallb_keys_filter (g : string -> bool) (f : string * pyval -> bool)
  (projs : dict pyval) :
  forallb g (keys projs) = true -> forallb g (keys (filter f projs)) = true.
Proof.
  induction projs as [| [k v] r IH]; simpl; [ reflexivity | ].
  rewrite andb_true_iff. intros [Hk Hr]. destruct (f (k, v)); simpl; [ | auto ].
  rewrite Hk. auto.
Qed.

Lemma filter_none_gone (w : World) (fs : filesystem) (projs : dict pyval) :
  filter (gone w fs) (keys projs) = [] ->
  filter (fun kv => negb (gone w fs (fst kv))) projs = projs.
Proof.
  induction projs as [| [k v] r IH]; simpl; [ reflexivity | ].
  destruct (gone w fs k); simpl; [ discriminate | ].
  intros H. rewrite IH by exact H. reflexivity.
Qed.

Lemma path_exists_answers (w : World) (fs : filesystem) (p : Path) (present : bool) :
  path_exists w fs p = Ok present ->
  answers fs (locate w p) = true /\ on_disk w fs p = present.
Proof.
  unfold path_exists, answers. destruct (stat_error fs (locate w p)); [ discriminate | ].
  intros H. injection H as <-. auto.
Qed.

(** X16.  On a ledger whose keys can all be examined: after
    [cleanup_missing_projects], a second call on the same file system removes
    nothing and leaves the ledger as the first call left it; and a call that
    returns the empty list has not changed the ledger. *)
Theorem cleanup_twice_removes_nothing (w : World) (fs : filesystem)
  (self : ProjectMapping) (projs : dict pyval) :
  projects_of self = Some projs ->
  NoDup (keys projs) ->
  forallb (examinable w fs) (keys projs) = true ->
  exists self' removed,
    cleanup_missing_projects w fs self = Ok (self', removed)
    /\ cleanup_missing_projects w fs self' = Ok (self', [])
    /\ (removed = [] -> self' = self).
Proof.
  intros Hp Hnd Hexp.
  set (kept := filter (fun kv => negb (gone w fs (fst kv))) projs).
  exists (store_projects self (VDict kept)), (filter (gone w fs) (keys projs)).
  split; [ apply cleanup_missing_projects_spec; assumption | ].
  split.
  - rewrite (cleanup_missing_projects_spec w fs _ kept).
    + unfold kept. rewrite filter_twice, filter_gone_nil, store_projects_twice. reflexivity.
    + apply (projects_of_store self projs). exact Hp.
    + apply NoDup_keys_filter. exact Hnd.
    + apply forallb_keys_filter. exact Hexp.
  - intros H. unfold kept. rewrite filter_none_gone by exact H.
    apply store_projects_same. exact Hp.
Qed.

Lemma cleanup_twice_removes_nothing_witness :
  exists self' removed,
    cleanup_missing_projects Sample.world (SampleFs.holding (Document NNull))
      (Sample.ledger_with (VDict [("projects", VDict SampleLedgers.on_and_off_disk)]))
    = Ok (self', removed)
    /\ cleanup_missing_projects Sample.world (SampleFs.holding (Document NNull)) self'
       = Ok (self', [])
    /\ (removed = [] ->
        self' = Sample.ledger_with (VDict [("projects", VDict SampleLedgers.on_and_off_disk)])).
Proof.
  apply (cleanup_twice_removes_nothing Sample.world (SampleFs.holding (Document NNull))
           (Sample.ledger_with (VDict [("projects", VDict SampleLedgers.on_and_off_disk)]))
           SampleLedgers.on_and_off_disk).
  - reflexivity.
  - repeat constructor; simpl; intuition discriminate.
  - reflexivity.
Defined.

(** X17.  On a ledger whose keys can all be examined, where the existence
    test on the resolved directory of a project answers: the project, added
    with [add_project], survives [cleanup_missing_projects] exactly when that
    directory exists.  If it exists the entry is still there and its key is
    not in the list returned; if not, the entry is gone and its key is in the
    list. *)
Theorem added_project_survives_cleanup_iff_its_directory_exists (w : World)
  (L : DatetimeLib) (now : datetime L) (fs : filesystem) (self : ProjectMapping)
  (P : Path) (S : pyval) (projs : dict pyval) (present : bool) :
  projects_of self = Some projs ->
  NoDup (keys projs) ->
  forallb (examinable w fs) (keys projs) = true ->
  forallb proper_name (names (resolve w P)) = true ->
  path_exists w fs (resolve w P) = Ok present ->
  exists self1 self2 removed,
    add_project w L now self P S = Ok self1
    /\ cleanup_missing_projects w fs self1 = Ok (self2, removed)
    /\ (present = true ->
        get_project_info w self2 P = Ok (entry_of L now S)
        /\ ~ In (_normalize_project_path w P) removed)
    /\ (present = false ->
        get_project_info w self2 P = Ok VNone
        /\ In (_normalize_project_path w P) removed).
Proof.
  intros Hp Hnd Hexp Hproper Hpe.
  set (k := _normalize_project_path w P).
  set (projs1 := dict_set projs k (entry_of L now S)).
  set (kept := filter (fun kv => negb (gone w fs (fst kv))) projs1).
  assert (Hgone : gone w fs k = negb present).
  { unfold gone, k. rewrite (stored_key_expansion w P Hproper), Hpe. reflexivity. }
  assert (Hp1 : projects_of (store_projects self (VDict projs1)) = Some projs1)
    by (apply (projects_of_store self projs); exact Hp).
  assert (Hnd1 : NoDup (keys projs1)) by (apply NoDup_dict_set; exact Hnd).
  assert (Hexp1 : forallb (examinable w fs) (keys projs1) = true).
  { apply forallb_forall. intros k' I. apply In_keys_dict_set in I.
    destruct I as [-> | I].
    - unfold examinable, k. rewrite (stored_key_expansion w P Hproper).
      apply (path_exists_answers w fs _ present Hpe).
    - rewrite forallb_forall in Hexp. apply Hexp. exact I. }
  exists (store_projects self (VDict projs1)),
    (store_projects (store_projects self (VDict projs1)) (VDict kept)),
    (filter (gone w fs) (keys projs1)).
  split; [ apply add_project_spec; exact Hp | ].
  split; [ apply cleanup_missing_projects_spec; assumption | ].
  assert (Hp2 : projects_of (store_projects (store_projects self (VDict projs1)) (VDict kept))
                = Some kept)
    by (apply (projects_of_store _ projs1); exact Hp1).
  rewrite (get_project_info_spec w _ P kept Hp2). fold k.
  assert (Hget : dict_get projs1 k = Some (entry_of L now S))
    by apply dict_get_set_same.
  split; intros Hex; rewrite Hex in Hgone; simpl in Hgone.
  - split.
    + assert (H : dict_get kept k = Some (entry_of L now S)).
      { apply dict_get_filter; [ exact Hnd1 | ]. split; [ exact Hget | ].
        simpl. rewrite Hgone. reflexivity. }
      rewrite H. reflexivity.
    + intros I. apply filter_In in I. destruct I as [_ I]. congruence.
  - split.
    + destruct (dict_get kept k) as [v |] eqn:E; [ | reflexivity ].
      apply dict_get_filter in E; [ | exact Hnd1 ]. destruct E as [_ E].
      simpl in E. rewrite Hgone in E. discriminate.
    + apply filter_In. split; [ | exact Hgone ].
      apply In_keys_dict_set. left. reflexivity.
Qed.

Lemma added_project_survives_cleanup_iff_its_directory_exists_witness :
  exists self1 self2 removed,
    add_project Sample.world Naive.lib Sample.at_noon Sample.fresh
      (Path_of_string "/templates") (VList [VStr "env_a"]) = Ok self1
    /\ cleanup_missing_projects Sample.world (SampleFs.holding (Document NNull)) self1
       = Ok (self2, removed)
    /\ (true = true ->
        get_project_info Sample.world self2 (Path_of_string "/templates")
        = Ok (entry_of Naive.lib Sample.at_noon (VList [VStr "env_a"]))
        /\ ~ In (_normalize_project_path Sample.world (Path_of_string "/templates")) removed)
    /\ (true = false ->
        get_project_info Sample.world self2 (Path_of_string "/templates") = Ok VNone
        /\ In (_normalize_project_path Sample.world (Path_of_string "/templates")) removed).
Proof.
  apply (added_project_survives_cleanup_iff_its_directory_exists Sample.world Naive.lib
           Sample.at_noon (SampleFs.holding (Document NNull)) Sample.fresh
           (Path_of_string "/templates") (VList [VStr "env_a"]) [] true).
  - reflexivity.
  - constructor.
  - reflexivity.
  - reflexivity.
  - reflexivity.
Defined.

(** ** A ledger file with an empty [projects:] key *)

Lemma construct_distinct_keys (l : list (string * node)) :
  NoDup (keys l) ->
  construct (NMap l) = VDict (map (fun kv => (fst kv, construct (snd kv))) l).
Proof.
  intros Hnd. cbn [construct]. f_equal.
  transitivity (fold_left (fun a kv => dict_set a (fst kv) (snd kv))
                  (map (fun kv => (fst kv, construct (snd kv))) l) []).
  - generalize (@nil (string * pyval)). clear Hnd.
    induction l as [| [k n] r IH]; intros acc; simpl; [ reflexivity | apply IH ].
  - apply (fold_dict_set_fresh _ []). simpl. rewrite keys_map_values. exact Hnd.
Qed.

(** X18.  A backing file whose key ["projects"] is left empty (null) loads
    without a warning, and the ledger built from it is unusable:
    [add_project], [remove_project] and [update_last_synced] raise
    [TypeError]; the lookups, the queries and the cleanup raise
    [AttributeError]; [find_projects_needing_sync] raises for every threshold,
    and raises [AttributeError] whenever its cutoff can be computed; and
    [save_mapping] raises on every file system. *)
Theorem empty_projects_key_breaks_every_method (w : World) (L : DatetimeLib)
  (now : datetime L) (fs : filesystem) (tdir : Path) (l : list (string * node))
  (P : Path) (S : pyval) (name : string) (hours : Z) :
  path_exists w fs (truediv tdir MAPPING_FILENAME) = Ok true ->
  open_read w fs (truediv tdir MAPPING_FILENAME) = Ok (Document (NMap l)) ->
  NoDup (keys l) ->
  node_get (NMap l) "projects" = Some NNull ->
  exists self,
    init w fs tdir = Ok (self, [])
    /\ (exists m, add_project w L now self P S = Raise (TypeError m))
    /\ (exists m, remove_project w self P = Raise (TypeError m))
    /\ (exists m, update_last_synced w L now self P = Raise (TypeError m))
    /\ (exists m, get_project_info w self P = Raise (AttributeError m))
    /\ (exists m, get_projects_by_environment_set self name = Raise (AttributeError m))
    /\ (exists m, get_all_projects self = Raise (AttributeError m))
    /\ (exists m, get_environment_set_usage self = Raise (AttributeError m))
    /\ (exists m, cleanup_missing_projects w fs self = Raise (AttributeError m))
    /\ (exists e, find_projects_needing_sync L now self hours = Raise e)
    /\ (forall cutoff, cutoff_of L now hours = Some cutoff ->
        exists m, find_projects_needing_sync L now self hours = Raise (AttributeError m))
    /\ (forall fs', exists m, save_mapping w fs' self = Raise (OSError m)
                              \/ save_mapping w fs' self = Raise (AttributeError m)).
Proof.
  intros Hex Hopen Hnd Hnull.
  set (d := map (fun kv => (fst kv, construct (snd kv))) l).
  assert (Hget : dict_get d "projects" = Some VNone).
  { unfold d. rewrite dict_get_map. cbn [node_get] in Hnull. rewrite Hnull. reflexivity. }
  assert (Hload : _load_mapping w fs (truediv tdir MAPPING_FILENAME) = Ok (VDict d, [])).
  { unfold _load_mapping. rewrite Hex. cbn [negb bind]. rewrite Hopen.
    cbn [negb bind safe_load try_except].
    rewrite (construct_distinct_keys l Hnd). fold d.
    unfold py_or. destruct d as [| kv r] eqn:Ed; [ discriminate | ].
    cbn [truthy py_contains bind]. unfold dict_mem. rewrite Hget. reflexivity. }
  exists {| templates_dir := tdir;
            mapping_path := truediv tdir MAPPING_FILENAME;
            mapping_data := VDict d |}.
  split; [ unfold init; rewrite Hload; reflexivity | ].
  unfold add_project, remove_project, update_last_synced, get_project_info,
    get_projects_by_environment_set, get_all_projects, get_environment_set_usage,
    cleanup_missing_projects, find_projects_needing_sync, save_mapping.
  cbn [mapping_data mapping_path py_getitem]. rewrite Hget.
  do 8 (split; [ cbn; eexists; reflexivity | ]).
  split; [ | split ].
  - unfold py_timestamp, py_float_sub_int.
    destruct (posix_timestamp L now) as [x |]; [ | cbn; eexists; reflexivity ].
    cbn [bind].
    destruct (float_minus_int L x (hours * 3600)); cbn; eexists; reflexivity.
  - intros cutoff Hc. destruct (cutoff_of_steps L now hours cutoff Hc) as (x & Hx & Hm).
    unfold py_timestamp, py_float_sub_int. rewrite Hx. cbn [bind]. rewrite Hm.
    cbn. eexists. reflexivity.
  - intros fs'. unfold mkdir_parents.
    destruct (stat_error fs' _) as [m |]; [ exists m; left; reflexivity | ].
    match goal with
    | |- context [blocked_by_file ?a ?b] => destruct (blocked_by_file a b)
    end; cbn; eexists; [ left | right ]; reflexivity.
Qed.

Lemma empty_projects_key_breaks_every_method_witness :
  exists self,
    init Sample.world (SampleFs.holding (Document (NMap [("projects", NNull)])))
      Sample.templates = Ok (self, [])
    /\ (exists m, add_project Sample.world Naive.lib Sample.at_noon self
                    (Path_of_string "proj") (VList [VStr "env_a"]) = Raise (TypeError m))
    /\ (exists m, remove_project Sample.world self (Path_of_string "proj")
                  = Raise (TypeError m))
    /\ (exists m, update_last_synced Sample.world Naive.lib Sample.at_noon self
                    (Path_of_string "proj") = Raise (TypeError m))
    /\ (exists m, get_project_info Sample.world self (Path_of_string "proj")
                  = Raise (AttributeError m))
    /\ (exists m, get_projects_by_environment_set self "env_a" = Raise (AttributeError m))
    /\ (exists m, get_all_projects self = Raise (AttributeError m))
    /\ (exists m, get_environment_set_usage self = Raise (AttributeError m))
    /\ (exists m, cleanup_missing_projects Sample.world
                    (SampleFs.holding (Document (NMap [("projects", NNull)]))) self
                  = Raise (AttributeError m))
    /\ (exists e, find_projects_needing_sync Naive.lib Sample.at_noon self 24 = Raise e)
    /\ (forall cutoff, cutoff_of Naive.lib Sample.at_noon 24 = Some cutoff ->
        exists m, find_projects_needing_sync Naive.lib Sample.at_noon self 24
                  = Raise (AttributeError m))
    /\ (forall fs', exists m, save_mapping Sample.world fs' self = Raise (OSError m)
                              \/ save_mapping Sample.world fs' self
                                 = Raise (AttributeError m)).
Proof.
  apply (empty_projects_key_breaks_every_method Sample.world Naive.lib Sample.at_noon
           (SampleFs.holding (Document (NMap [("projects", NNull)]))) Sample.templates
           [("projects", NNull)] (Path_of_string "proj") (VList [VStr "env_a"])
           "env_a" 24%Z).
  - reflexivity.
  - reflexivity.
  - repeat constructor. simpl. tauto.
  - reflexivity.
Defined.

(** ** The commands *)

(** ** Saving and loading again *)

Lemma save_then_init (w : World) (fs : filesystem) (self : ProjectMapping)
  (projs : dict pyval) :
  initialised self ->
  projects_of self = Some projs ->
  well_formed (mapping_data self) = true ->
  can_write w fs self = true ->
  can_read w fs self = true ->
  exists fs' self2,
    save_mapping w fs self = Ok (store_projects self (VDict (sorted_items projs)), fs')
    /\ init w fs' (templates_dir self) = Ok (self2, [])
    /\ projects_of self2 = Some (sorted_items projs)
    /\ (forall P, get_project_info w self2 P = get_project_info w self P).
Proof.
  intros Hinit Hp Hwf Hw Hr.
  destruct (save_mapping_spec w fs self projs Hinit Hp Hw)
    as (fs' & f & Hsave & Hfile & Htext & Hread & Hnodir & _ & Hstat).
  specialize (Hread Hr).
  set (self' := store_projects self (VDict (sorted_items projs))) in *.
  assert (Hp' : projects_of self' = Some (sorted_items projs))
    by (apply (projects_of_store self projs); exact Hp).
  assert (Hwf' : well_formed (mapping_data self') = true).
  { apply well_formed_store; [ exact Hwf | ].
    apply well_formed_sorted_items, (well_formed_projects self); assumption. }
  assert (Hload : _load_mapping w fs' (mapping_path self) = Ok (mapping_data self', [])).
  { unfold _load_mapping, path_exists, on_disk, open_read.
    rewrite Hstat, Hfile, Hnodir, Hread. cbn [orb negb bind try_except].
    rewrite Htext. unfold dump, safe_load. cbn [bind].
    rewrite construct_represent by exact Hwf'.
    unfold projects_of in Hp'.
    destruct (mapping_data self') as [| | | | | d'] eqn:Hd'; try discriminate.
    assert (Ht : truthy (VDict d') = true).
    { unfold self', store_projects in Hd'. simpl in Hd'.
      destruct (mapping_data self); try discriminate.
      injection Hd' as <-. apply dict_set_truthy. }
    unfold py_or. rewrite Ht. cbn [py_contains bind]. unfold dict_mem.
    destruct (dict_get d' "projects"); [ reflexivity | discriminate ]. }
  assert (Hnd : NoDup (keys projs)).
  { pose proof (well_formed_projects self projs Hp Hwf) as H. simpl in H.
    apply andb_true_iff in H. apply unique_keys_NoDup. tauto. }
  exists fs'.
  exists {| templates_dir := templates_dir self;
            mapping_path := truediv (templates_dir self) MAPPING_FILENAME;
            mapping_data := mapping_data self' |}.
  split; [ exact Hsave | ].
  split; [ unfold init; rewrite <- Hinit, Hload; reflexivity | ].
  split; [ exact Hp' | ].
  intros P. rewrite (get_project_info_spec w self P projs Hp).
  rewrite (get_project_info_spec w _ P (sorted_items projs)) by exact Hp'.
  rewrite (dict_get_perm projs (sorted_items projs));
    [ reflexivity | symmetry; apply sorted_items_perm | exact Hnd ].
Qed.

Lemma init_fields (w : World) (fs : filesystem) (tdir : Path) (self : ProjectMapping)
  (out : list string) :
  init w fs tdir = Ok (self, out) ->
  templates_dir self = tdir
  /\ initialised self
  /\ well_formed (mapping_data self) = true.
Proof.
  unfold init. intros H. apply bind_Ok in H. destruct H as ([data out'] & Hload & H).
  injection H as <- _. split; [ reflexivity | ]. split; [ reflexivity | ].
  exact (load_mapping_well_formed _ _ _ _ _ Hload).
Qed.

Lemma well_formed_entry_of (L : DatetimeLib) (now : datetime L) (S : pyval) :
  well_formed S = true -> well_formed (entry_of L now S) = true.
Proof. intros H. simpl. rewrite H. reflexivity. Qed.

(** What the ledger holds once a project is recorded in it and the ledger is
    saved and loaded again. *)
Lemma record_then_reload (w : World) (L : DatetimeLib) (now : datetime L)
  (fs : filesystem) (self : ProjectMapping) (P : Path) (S : pyval)
  (projs : dict pyval) :
  initialised self ->
  projects_of self = Some projs ->
  well_formed (mapping_data self) = true ->
  can_write w fs self = true ->
  can_read w fs self = true ->
  well_formed S = true ->
  exists self1 fs1 self2,
    (pm <- add_project w L now self P S ;; save_mapping w fs pm) = Ok (self1, fs1)
    /\ init w fs1 (templates_dir self) = Ok (self2, [])
    /\ get_project_info w self1 P = Ok (entry_of L now S)
    /\ get_project_info w self2 P = Ok (entry_of L now S)
    /\ (forall P', _normalize_project_path w P' <> _normalize_project_path w P ->
                   get_project_info w self2 P' = get_project_info w self P').
Proof.
  intros Hinit Hp Hwf Hw Hr HS.
  set (k := _normalize_project_path w P).
  set (projs1 := dict_set projs k (entry_of L now S)).
  set (selfa := store_projects self (VDict projs1)).
  assert (Hpa : projects_of selfa = Some projs1)
    by (apply (projects_of_store self projs); exact Hp).
  assert (Hwfp : well_formed (VDict projs) = true)
    by (apply (well_formed_projects self); assumption).
  assert (Hwfa : well_formed (mapping_data selfa) = true).
  { apply well_formed_store; [ exact Hwf | ].
    simpl in Hwfp. apply andb_true_iff in Hwfp. destruct Hwfp as [Hu Hall].
    simpl. apply andb_true_iff. split.
    - apply unique_keys_dict_set. exact Hu.
    - apply forallb_dict_set; [ exact Hall | ]. apply well_formed_entry_of. exact HS. }
  destruct (save_then_init w fs selfa projs1) as (fs1 & self2 & Hsave & Hre & Hp2 & Hinfo);
    try assumption.
  exists (store_projects selfa (VDict (sorted_items projs1))), fs1, self2.
  rewrite (add_project_spec w L now self P S projs Hp). cbn [bind]. fold k projs1 selfa.
  split; [ exact Hsave | ].
  split; [ exact Hre | ].
  assert (Hnd1 : NoDup (keys projs1)).
  { apply NoDup_dict_set. simpl in Hwfp. apply andb_true_iff in Hwfp.
    apply unique_keys_NoDup. tauto. }
  assert (Hself1 : get_project_info w selfa P = Ok (entry_of L now S)).
  { rewrite (get_project_info_spec w selfa P projs1 Hpa). fold k.
    unfold projs1. rewrite dict_get_set_same. reflexivity. }
  split.
  - rewrite (get_project_info_spec w _ P (sorted_items projs1))
      by (apply (projects_of_store selfa projs1); exact Hpa).
    fold k. rewrite (dict_get_perm projs1 (sorted_items projs1));
      [ | symmetry; apply sorted_items_perm | exact Hnd1 ].
    unfold projs1. rewrite dict_get_set_same. reflexivity.
  - split; [ rewrite Hinfo; exact Hself1 | ].
    intros P' Hne. rewrite Hinfo.
    rewrite (get_project_info_spec w selfa P' projs1 Hpa).
    rewrite (get_project_info_spec w self P' projs Hp).
    unfold projs1. rewrite dict_get_set_other by (fold k; congruence). reflexivity.
Qed.

(** X19.  The [init] command, where it updates the ledger: when the ledger
    of the templates directory loads with a dict of projects and its file can
    be written and read, the block succeeds, and a ledger loaded afterwards
    from the same templates directory holds the current directory with the
    active environment sets and the time of the call, loads without a warning,
    and answers for every other project what the ledger answered before. *)
Theorem init_command_records_the_project (w : World) (L : DatetimeLib)
  (now : datetime L) (fs : filesystem) (tdir : Path) (S : pyval)
  (self0 : ProjectMapping) (out : list string) (projs : dict pyval) :
  init w fs tdir = Ok (self0, out) ->
  projects_of self0 = Some projs ->
  can_write w fs self0 = true ->
  can_read w fs self0 = true ->
  well_formed S = true ->
  exists self1 fs1 self2,
    init_update_project_mapping w L now fs tdir S = Ok (self1, fs1, out)
    /\ init w fs1 tdir = Ok (self2, [])
    /\ get_project_info w self2 (Path_cwd w) = Ok (entry_of L now S)
    /\ (forall P, _normalize_project_path w P <> _normalize_project_path w (Path_cwd w) ->
                  get_project_info w self2 P = get_project_info w self0 P).
Proof.
  intros H0 Hp Hw Hr HS.
  destruct (init_fields w fs tdir self0 out H0) as (Ht & Hinit & Hwf).
  destruct (record_then_reload w L now fs self0 (Path_cwd w) S projs
              Hinit Hp Hwf Hw Hr HS)
    as (self1 & fs1 & self2 & Hrun & Hre & _ & Hcwd & Hothers).
  exists self1, fs1, self2.
  split.
  - unfold init_update_project_mapping. rewrite H0. cbn [bind].
    destruct (add_project w L now self0 (Path_cwd w) S) as [pm | e];
      cbn [bind] in *; [ | discriminate ].
    rewrite Hrun. reflexivity.
  - rewrite <- Ht. auto.
Qed.

Lemma init_command_records_the_project_witness :
  exists self1 fs1 self2,
    init_update_project_mapping Sample.world Naive.lib Sample.at_noon SampleFs.bare
      Sample.templates (VList [VStr "env_a"]) = Ok (self1, fs1, [])
    /\ init Sample.world fs1 Sample.templates = Ok (self2, [])
    /\ get_project_info Sample.world self2 (Path_cwd Sample.world)
       = Ok (entry_of Naive.lib Sample.at_noon (VList [VStr "env_a"]))
    /\ (forall P, _normalize_project_path Sample.world P
                  <> _normalize_project_path Sample.world (Path_cwd Sample.world) ->
                  get_project_info Sample.world self2 P
                  = get_project_info Sample.world Sample.fresh P).
Proof.
  apply (init_command_records_the_project Sample.world Naive.lib Sample.at_noon
           SampleFs.bare Sample.templates (VList [VStr "env_a"]) Sample.fresh [] []).
  - reflexivity.
  - reflexivity.
  - reflexivity.
  - reflexivity.
  - reflexivity.
Defined.

Lemma add_then_touch (w : World) (L : DatetimeLib) (now1 now2 : datetime L)
  (self : ProjectMapping) (P : Path) (S : pyval) (projs : dict pyval) :
  projects_of self = Some projs ->
  (pm <- add_project w L now1 self P S ;; update_last_synced w L now2 pm P)
  = add_project w L now2 self P S.
Proof.
  intros Hp. rewrite !(add_project_spec w L _ self P S projs Hp). cbn [bind].
  rewrite (update_last_synced_spec w L now2 _ P
             (dict_set projs (_normalize_project_path w P) (entry_of L now1 S)))
    by (apply (projects_of_store self projs); exact Hp).
  rewrite dict_get_set_same. unfold entry_of at 1. cbn [py_setitem bind].
  change (dict_set [("environment_sets", S); ("last_synced", VStr (isoformat L now1))]
            "last_synced" (VStr (isoformat L now2)))
    with [("environment_sets", S); ("last_synced", VStr (isoformat L now2))].
  rewrite dict_set_twice, store_projects_twice. reflexivity.
Qed.

Lemma any_positive_In (all_results : dict Z) :
  any_positive all_results = true
  <-> exists name count, In (name, count) all_results /\ (0 < count)%Z.
Proof.
  unfold any_positive, values. rewrite existsb_exists. split.
  - intros (c & I & H). apply in_map_iff in I. destruct I as ([n c'] & E & I).
    simpl in E. subst c'. exists n, c. split; [ exact I | apply Z.ltb_lt; exact H ].
  - intros (n & c & I & H). exists c. split; [ | apply Z.ltb_lt; exact H ].
    apply in_map_iff. exists (n, c). auto.
Qed.

(** X20.  The [sync] command, where it updates the ledger.  In a dry run, or
    when no count is positive, the ledger and the file system are left alone
    and nothing is printed.  Otherwise the project is recorded and saved, and
    its timestamp is the one [update_last_synced] read: the one [add_project]
    read a moment before is overwritten.  A ledger loaded afterwards from the
    same templates directory answers the same. *)
Theorem sync_command_records_the_time_of_the_sync (w : World) (L : DatetimeLib)
  (now1 now2 : datetime L) (fs : filesystem) (dry_run : bool) (all_results : dict Z)
  (project_mapping : ProjectMapping) (target : Path) (S : pyval) (projs : dict pyval) :
  initialised project_mapping ->
  projects_of project_mapping = Some projs ->
  well_formed (mapping_data project_mapping) = true ->
  can_write w fs project_mapping = true ->
  can_read w fs project_mapping = true ->
  well_formed S = true ->
  (dry_run = true \/ (forall name count, In (name, count) all_results -> (count <= 0)%Z) ->
   sync_update_project_mapping w L now1 now2 fs dry_run all_results project_mapping target S
   = Ok (project_mapping, fs, []))
  /\ (dry_run = false ->
      (exists name count, In (name, count) all_results /\ (0 < count)%Z) ->
      exists pm' fs' self2,
        sync_update_project_mapping w L now1 now2 fs dry_run all_results
          project_mapping target S
        = Ok (pm', fs', [String "010" "[dim]Updated project mapping[/dim]"])
        /\ get_project_info w pm' target = Ok (entry_of L now2 S)
        /\ init w fs' (templates_dir project_mapping) = Ok (self2, [])
        /\ get_project_info w self2 target = Ok (entry_of L now2 S)
        /\ (forall P, _normalize_project_path w P <> _normalize_project_path w target ->
                      get_project_info w self2 P = get_project_info w project_mapping P)).
Proof.
  intros Hinit Hp Hwf Hw Hr HS. split.
  - intros H. unfold sync_update_project_mapping.
    destruct H as [-> | H]; [ reflexivity | ].
    destruct (any_positive all_results) eqn:E; [ | rewrite andb_false_r; reflexivity ].
    apply any_positive_In in E. destruct E as (n & c & I & Hc).
    specialize (H n c I). lia.
  - intros -> Hpos. apply any_positive_In in Hpos.
    destruct (record_then_reload w L now2 fs project_mapping target S projs
                Hinit Hp Hwf Hw Hr HS)
      as (self1 & fs1 & self2 & Hrun & Hre & Hmem & Htarget & Hothers).
    exists self1, fs1, self2.
    split; [ | auto ].
    unfold sync_update_project_mapping. rewrite Hpos. cbn [negb andb].
    pose proof (add_then_touch w L now1 now2 project_mapping target S projs Hp) as Hat.
    destruct (add_project w L now1 project_mapping target S) as [pm1 | e1];
      cbn [bind] in *.
    + rewrite Hat.
      destruct (add_project w L now2 project_mapping target S) as [pm2 | e2];
        cbn [bind] in *; [ | discriminate ].
      rewrite Hrun. reflexivity.
    + rewrite <- Hat in Hrun. discriminate.
Qed.

Lemma sync_command_records_the_time_of_the_sync_witness :
  (false = true
   \/ (forall name count, In (name, count) [("python_dev/ruff", 2%Z)] -> (count <= 0)%Z) ->
   sync_update_project_mapping Sample.world Naive.lib Sample.at_noon Sample.a_second_later
     SampleFs.bare false [("python_dev/ruff", 2%Z)] Sample.fresh
     (Path_cwd Sample.world) (VList [VStr "python_dev"])
   = Ok (Sample.fresh, SampleFs.bare, []))
  /\ (false = false ->
      (exists name count, In (name, count) [("python_dev/ruff", 2%Z)] /\ (0 < count)%Z) ->
      exists pm' fs' self2,
        sync_update_project_mapping Sample.world Naive.lib Sample.at_noon
          Sample.a_second_later SampleFs.bare false [("python_dev/ruff", 2%Z)]
          Sample.fresh (Path_cwd Sample.world) (VList [VStr "python_dev"])
        = Ok (pm', fs', [String "010" "[dim]Updated project mapping[/dim]"])
        /\ get_project_info Sample.world pm' (Path_cwd Sample.world)
           = Ok (entry_of Naive.lib Sample.a_second_later (VList [VStr "python_dev"]))
        /\ init Sample.world fs' (templates_dir Sample.fresh) = Ok (self2, [])
        /\ get_project_info Sample.world self2 (Path_cwd Sample.world)
           = Ok (entry_of Naive.lib Sample.a_second_later (VList [VStr "python_dev"]))
        /\ (forall P, _normalize_project_path Sample.world P
                      <> _normalize_project_path Sample.world (Path_cwd Sample.world) ->
                      get_project_info Sample.world self2 P
                      = get_project_info Sample.world Sample.fresh P)).
Proof.
  apply (sync_command_records_the_time_of_the_sync Sample.world Naive.lib Sample.at_noon
           Sample.a_second_later SampleFs.bare false [("python_dev/ruff", 2%Z)]
           Sample.fresh (Path_cwd Sample.world) (VList [VStr "python_dev"]) []).
  - reflexivity.
  - reflexivity.
  - reflexivity.
  - reflexivity.
  - reflexivity.
  - reflexivity.
Defined.

(** ** Cleaning up from the command line *)

Lemma path_exists_after_save (w : World) (fs : filesystem) (self : ProjectMapping)
  (data : pyval) (p : Path) :
  path_exists w fs p = Ok true ->
  path_exists w (fs_after_save w fs self data) p = Ok true.
Proof.
  unfold path_exists, on_disk, fs_after_save. cbn [is_dir file_at stat_error].
  destruct (stat_error fs (locate w p)); [ discriminate | ].
  intros H. injection H as H. f_equal.
  apply orb_true_iff in H. apply orb_true_iff. destruct H as [H | H].
  - left. rewrite H. apply orb_true_r.
  - right. destruct (names_eqb (locate w p) (locate w (mapping_path self)));
      [ reflexivity | exact H ].
Qed.

Lemma path_exists_refused_after_save (w : World) (fs : filesystem) (self : ProjectMapping)
  (data : pyval) (p : Path) (e : exn) :
  path_exists w fs p = Raise e ->
  path_exists w (fs_after_save w fs self data) p = Raise e.
Proof.
  unfold path_exists, fs_after_save. cbn [stat_error].
  destruct (stat_error fs (locate w p)); [ auto | discriminate ].
Qed.

Lemma still_there_after_save (w : World) (fs : filesystem) (self : ProjectMapping)
  (data : pyval) (k : string) :
  gone w fs k = false -> gone w (fs_after_save w fs self data) k = false.
Proof.
  unfold gone. destruct (expanduser w (Path_of_string k)) as [p | e]; [ | reflexivity ].
  destruct (path_exists w fs p) as [[|] | e] eqn:E.
  - rewrite (path_exists_after_save w fs self data p E). reflexivity.
  - discriminate.
  - rewrite (path_exists_refused_after_save w fs self data p e E). reflexivity.
Qed.

Lemma examinable_after_save (w : World) (fs : filesystem) (self : ProjectMapping)
  (data : pyval) (k : string) :
  examinable w (fs_after_save w fs self data) k = examinable w fs k.
Proof. reflexivity. Qed.

Lemma keys_sorted_items_In {V : Type} (l : list (string * V)) (k : string) :
  In k (keys (sorted_items l)) <-> In k (keys l).
Proof.
  unfold keys. split; intros H.
  - apply (Permutation_in k (Permutation_map fst (sorted_items_perm l))). exact H.
  - apply (Permutation_in k (Permutation_map fst (Permutation_sym (sorted_items_perm l)))).
    exact H.
Qed.

Lemma filter_nil_iff {A : Type} (f : A -> bool) (l : list A) :
  filter f l = [] <-> forall x, In x l -> f x = false.
Proof.
  induction l as [| x l IH]; simpl.
  - split; [ intros _ y [] | reflexivity ].
  - destruct (f x) eqn:E.
    + split; [ discriminate | ]. intros H. specialize (H x (or_introl eq_refl)). congruence.
    + rewrite IH. split.
      * intros H y [<- | I]; auto.
      * intros H y I. apply H. auto.
Qed.

(** X21.  The [projects --cleanup] command, on a ledger whose keys can all
    be examined.  When no project is missing,
    the ledger and the file system are left alone and one line says so.
    Otherwise the ledger is saved without the missing projects, one line gives
    their number and one more line names each of them; the file written holds
    the ledger returned; and running the command again reports that no
    project is missing and changes nothing. *)
Theorem projects_cleanup_saves_only_after_a_removal (w : World) (fs : filesystem)
  (project_mapping : ProjectMapping) (projs : dict pyval) :
  initialised project_mapping ->
  projects_of project_mapping = Some projs ->
  NoDup (keys projs) ->
  forallb (examinable w fs) (keys projs) = true ->
  can_write w fs project_mapping = true ->
  (filter (gone w fs) (keys projs) = [] ->
   projects_cleanup w fs project_mapping
   = Ok (project_mapping, fs, ["[green]No missing projects found[/green]"]))
  /\ (filter (gone w fs) (keys projs) <> [] ->
      exists pm' fs',
        projects_cleanup w fs project_mapping
        = Ok (pm', fs',
              ("[yellow]Removed "
               ++ str_of_nat (List.length (filter (gone w fs) (keys projs)))
               ++ " missing projects:[/yellow]")%string
              :: map (fun path => ("  " ++ bullet ++ " " ++ path)%string)
                   (filter (gone w fs) (keys projs)))
        /\ projects_of pm'
           = Some (sorted_items (filter (fun kv => negb (gone w fs (fst kv))) projs))
        /\ (exists f, file_at fs' (locate w (mapping_path project_mapping)) = Some f
                      /\ text f = dump (mapping_data pm'))
        /\ projects_cleanup w fs' pm'
           = Ok (pm', fs', ["[green]No missing projects found[/green]"])).
Proof.
  intros Hinit Hp Hnd Hexp Hw.
  set (kept := filter (fun kv => negb (gone w fs (fst kv))) projs).
  set (pm1 := store_projects project_mapping (VDict kept)).
  pose proof (cleanup_missing_projects_spec w fs project_mapping projs Hp Hnd Hexp) as Hc.
  fold kept pm1 in Hc.
  split.
  - intros Hnil. unfold projects_cleanup. rewrite Hc, Hnil. cbn [bind].
    unfold pm1, kept. rewrite (filter_none_gone w fs projs Hnil).
    rewrite (store_projects_same project_mapping projs Hp). reflexivity.
  - intros Hsome.
    assert (Hp1 : projects_of pm1 = Some kept)
      by (apply (projects_of_store project_mapping projs); exact Hp).
    assert (Hinit1 : initialised pm1) by exact Hinit.
    assert (Hw1 : can_write w fs pm1 = true) by exact Hw.
    pose proof (save_mapping_result w fs pm1 kept Hinit1 Hp1 Hw1) as Hsave.
    set (pm2 := store_projects pm1 (VDict (sorted_items kept))) in *.
    set (fs2 := fs_after_save w fs pm1 (mapping_data pm2)) in *.
    assert (Hp2 : projects_of pm2 = Some (sorted_items kept))
      by (apply (projects_of_store pm1 kept); exact Hp1).
    exists pm2, fs2.
    split.
    { unfold projects_cleanup. rewrite Hc. cbn [bind].
      destruct (filter (gone w fs) (keys projs)) as [| r0 rs] eqn:Er; [ contradiction | ].
      rewrite Hsave. reflexivity. }
    split; [ exact Hp2 | ].
    split.
    { exists {| readable := match file_at fs (locate w (mapping_path pm1)) with
                             | Some f => readable f
                             | None => true
                             end;
                writable := true;
                text := dump (mapping_data pm2) |}.
      split; [ | reflexivity ].
      unfold fs2, fs_after_save. cbn [file_at].
      change (mapping_path pm1) with (mapping_path project_mapping).
      rewrite names_eqb_refl. reflexivity. }
    assert (Hnd2 : NoDup (keys (sorted_items kept))).
    { apply (NoDup_keys_perm kept); [ symmetry; apply sorted_items_perm | ].
      apply NoDup_keys_filter. exact Hnd. }
    assert (Hin : forall k, In k (keys (sorted_items kept)) ->
                            In k (keys projs) /\ gone w fs k = false).
    { intros k I. apply (proj1 (keys_sorted_items_In kept k)) in I.
      unfold keys, kept in I.
      apply in_map_iff in I. destruct I as ([k' v] & E & I). simpl in E. subst k'.
      apply filter_In in I. destruct I as [I G]. simpl in G.
      apply negb_true_iff in G. split; [ | exact G ].
      apply (in_map fst) in I. exact I. }
    assert (Hexp2 : forallb (examinable w fs2) (keys (sorted_items kept)) = true).
    { apply forallb_forall. intros k I. rewrite forallb_forall in Hexp.
      unfold fs2. rewrite examinable_after_save. apply Hexp. apply (Hin k I). }
    assert (Hnil2 : filter (gone w fs2) (keys (sorted_items kept)) = []).
    { apply filter_nil_iff. intros k I. apply still_there_after_save.
      apply (Hin k I). }
    unfold projects_cleanup.
    rewrite (cleanup_missing_projects_spec w fs2 pm2 (sorted_items kept) Hp2 Hnd2 Hexp2).
    rewrite Hnil2. cbn [bind].
    rewrite (filter_none_gone w fs2 _ Hnil2).
    rewrite (store_projects_same pm2 _ Hp2). reflexivity.
Qed.

Lemma projects_cleanup_saves_only_after_a_removal_witness :
  (filter (gone Sample.world (SampleFs.holding (Document NNull)))
     (keys SampleLedgers.on_and_off_disk) = [] ->
   projects_cleanup Sample.world (SampleFs.holding (Document NNull))
     (Sample.ledger_with (VDict [("projects", VDict SampleLedgers.on_and_off_disk)]))
   = Ok (Sample.ledger_with (VDict [("projects", VDict SampleLedgers.on_and_off_disk)]),
         SampleFs.holding (Document NNull),
         ["[green]No missing projects found[/green]"]))
  /\ (filter (gone Sample.world (SampleFs.holding (Document NNull)))
        (keys SampleLedgers.on_and_off_disk) <> [] ->
      exists pm' fs',
        projects_cleanup Sample.world (SampleFs.holding (Document NNull))
          (Sample.ledger_with (VDict [("projects", VDict SampleLedgers.on_and_off_disk)]))
        = Ok (pm', fs',
              ("[yellow]Removed "
               ++ str_of_nat (List.length
                                (filter (gone Sample.world (SampleFs.holding (Document NNull)))
                                   (keys SampleLedgers.on_and_off_disk)))
               ++ " missing projects:[/yellow]")%string
              :: map (fun path => ("  " ++ bullet ++ " " ++ path)%string)
                   (filter (gone Sample.world (SampleFs.holding (Document NNull)))
                      (keys SampleLedgers.on_and_off_disk)))
        /\ projects_of pm'
           = Some (sorted_items
                     (filter (fun kv => negb (gone Sample.world
                                                (SampleFs.holding (Document NNull)) (fst kv)))
                        SampleLedgers.on_and_off_disk))
        /\ (exists f,
              file_at fs'
                (locate Sample.world
                   (mapping_path
                      (Sample.ledger_with
                         (VDict [("projects", VDict SampleLedgers.on_and_off_disk)]))))
              = Some f
              /\ text f = dump (mapping_data pm'))
        /\ projects_cleanup Sample.world fs' pm'
           = Ok (pm', fs', ["[green]No missing projects found[/green]"])).
Proof.
  apply (projects_cleanup_saves_only_after_a_removal Sample.world
           (SampleFs.holding (Document NNull))
           (Sample.ledger_with (VDict [("projects", VDict SampleLedgers.on_and_off_disk)]))
           SampleLedgers.on_and_off_disk).
  - reflexivity.
  - reflexivity.
  - repeat constructor; simpl; intuition discriminate.
  - reflexivity.
  - reflexivity.
Defined.
